(** * pico-pal: the SSD1306 OLED driver ([pal::SSD1306])

    A shallow embedding of [ssd1306/pal-ssd1306.cpp] and [pal-ssd1306.h]:
    the bit-packed screen buffer, the pixel, line, box, glyph and text
    primitives, and the command framing sent over I2C.

    Conventions.
    - C++ integers are [Z]; every conversion to a narrower type is written
      out with [u8] (to [uint8_t]) or [i16] (to [int16_t]).
    - The heap block [screen_buffer] is a [list Z] of bytes; [screen_ptr]
      is [screen_buffer + 1], so pixel byte [i] lives at list index [1 + i].
    - An access outside an array has no defined result in C++; it is the
      fault [OutOfBounds].  The [while (true)] loop of [draw_line] runs on
      fuel and reports [OutOfFuel] when it is exhausted.
    - The I2C transport ([i2c_write_blocking], Pico SDK) is not part of the
      repository; it is a parameter that maps the traffic so far, the
      device address and the bytes to the SDK's integer return code. *)

From Stdlib Require Import ZArith Lia Bool String Ascii.
From stdpp Require Import base list.

Local Open Scope Z_scope.

(* ================================================================== *)
(** * Machine integers                                                 *)
(* ================================================================== *)

(** Conversion to [uint8_t]. *)
Definition u8 (z : Z) : Z := z mod 2 ^ 8.

(** Conversion to [int16_t] (two's complement). *)
Definition i16 (z : Z) : Z := (z + 2 ^ 15) mod 2 ^ 16 - 2 ^ 15.

Definition is_u8 (z : Z) : Prop := 0 <= z < 256.

(* ================================================================== *)
(** * Outcomes of the drawing code                                     *)
(* ================================================================== *)

Inductive fault : Type :=
| OutOfBounds   (* an array was indexed outside its extent *)
| OutOfFuel.    (* a loop did not finish within its fuel   *)

Inductive outcome (A : Type) : Type :=
| Done (a : A)
| Fault (f : fault).

Arguments Done {A} a.
Arguments Fault {A} f.

Definition bind {A B : Type} (m : outcome A) (k : A -> outcome B) : outcome B :=
  match m with
  | Done a => k a
  | Fault f => Fault f
  end.

Notation "'do' x <- m 'in' k" := (bind m (fun x => k))
  (at level 10, x name, m at level 200, k at level 200,
   format "'[v' 'do'  x  <-  m  'in' '/' k ']'").

(** Byte arrays: checked read and write. *)
Definition load (buf : list Z) (i : Z) : outcome Z :=
  if i <? 0 then Fault OutOfBounds
  else match buf !! Z.to_nat i with
       | Some b => Done b
       | None => Fault OutOfBounds
       end.

Definition store (buf : list Z) (i : Z) (v : Z) : outcome (list Z) :=
  if (i <? 0) || (Z.of_nat (length buf) <=? i) then Fault OutOfBounds
  else Done (<[Z.to_nat i := v]> buf).

(* ================================================================== *)
(** * The driver object                                                *)
(* ================================================================== *)

(** [ssd1306_cmd_t] and the value of each enumerator. *)
Inductive ssd1306_cmd_t : Type :=
| MEMORYMODE | COLUMNADDR | PAGEADDR | SETSTARTLINE | SETCONTRAST
| CHARGEPUMP | SEGREMAP | DISPLAYALLON | NORMALDISPLAY | INVERTDISPLAY
| SETMULTIPLEX | DISPLAYOFF | DISPLAYON | COMSCANDEC | SETDISPLAYOFFSET
| SETDISPLAYCLOCKDIV | SETPRECHARGE | SETCOMPINS | SETVCOMDETECT.

Definition cmd_value (c : ssd1306_cmd_t) : Z :=
  match c with
  | MEMORYMODE => 0x20
  | COLUMNADDR => 0x21
  | PAGEADDR => 0x22
  | SETSTARTLINE => 0x40
  | SETCONTRAST => 0x81
  | CHARGEPUMP => 0x8D
  | SEGREMAP => 0xA1
  | DISPLAYALLON => 0xA4
  | NORMALDISPLAY => 0xA6
  | INVERTDISPLAY => 0xA7
  | SETMULTIPLEX => 0xA8
  | DISPLAYOFF => 0xAE
  | DISPLAYON => 0xAF
  | COMSCANDEC => 0xC8
  | SETDISPLAYOFFSET => 0xD3
  | SETDISPLAYCLOCKDIV => 0xD5
  | SETPRECHARGE => 0xD9
  | SETCOMPINS => 0xDA
  | SETVCOMDETECT => 0xDB
  end.

(** The data members of [class SSD1306].  [i2c_instance] is the handle of
    the transport, which the bus section below takes as a parameter;
    [screen_ptr] is always [screen_buffer + 1] and is not stored. *)
Record SSD1306 : Type := mkSSD1306 {
  width : Z;
  height : Z;
  pagesize : Z;
  address : Z;
  external_vcc : bool;
  screen_buffer : list Z;
  screen_buffer_sz : Z
}.

Definition with_screen (d : SSD1306) (buf : list Z) : SSD1306 :=
  mkSSD1306 (width d) (height d) (pagesize d) (address d) (external_vcc d)
            buf (screen_buffer_sz d).

(** Index into [screen_buffer] of [screen_ptr[i]]. *)
Definition screen_ptr (i : Z) : Z := 1 + i.

(** What the constructor establishes about the object (see
    [SSD1306_new_wf]) and every drawing primitive preserves. *)
Record wf (d : SSD1306) : Prop := mkWf {
  wf_width : is_u8 (width d);
  wf_height : is_u8 (height d);
  wf_pagesize : pagesize d = (height d + 7) / 8;
  wf_size : screen_buffer_sz d = width d * pagesize d + 1;
  wf_length : Z.of_nat (length (screen_buffer d)) = screen_buffer_sz d;
  wf_bytes : Forall is_u8 (screen_buffer d)
}.

(* ================================================================== *)
(** * Pixels                                                           *)
(* ================================================================== *)

(** [clear]: [memset( screen_buffer, 0, screen_buffer_sz )]. *)
Definition clear (d : SSD1306) : SSD1306 :=
  with_screen d
    (replicate (Z.to_nat (screen_buffer_sz d)) 0
     ++ drop (Z.to_nat (screen_buffer_sz d)) (screen_buffer d)).

(** [set_pixel]: the guard is [p_x >= width | p_y >= height]. *)
Definition set_pixel (d : SSD1306) (p_x p_y : Z) : outcome SSD1306 :=
  if (p_x >=? width d) || (p_y >=? height d) then Done d
  else
    let i := screen_ptr (width d * Z.shiftr p_y 3 + p_x) in
    do b <- load (screen_buffer d) i in
    do buf <- store (screen_buffer d) i
             (u8 (Z.lor b (Z.shiftl 0x01 (Z.land p_y 0x07)))) in
    Done (with_screen d buf).

Definition clear_pixel (d : SSD1306) (p_x p_y : Z) : outcome SSD1306 :=
  if (p_x >=? width d) || (p_y >=? height d) then Done d
  else
    let i := screen_ptr (width d * Z.shiftr p_y 3 + p_x) in
    do b <- load (screen_buffer d) i in
    do buf <- store (screen_buffer d) i
             (u8 (Z.land b (Z.lnot (Z.shiftl 0x01 (Z.land p_y 0x07))))) in
    Done (with_screen d buf).

(** The statement [if ( p_set ) set_pixel(..) else clear_pixel(..)] shared
    by [draw_line] and [draw_char]. *)
Definition plot (p_set : bool) (d : SSD1306) (p_x p_y : Z) : outcome SSD1306 :=
  if p_set then set_pixel d p_x p_y else clear_pixel d p_x p_y.

(** Observation used by the specifications: bit [n] of byte [i] of the
    heap block, and the pixel at [(x, y)], which is bit [y mod 8] of the
    byte at column [x], page [y / 8]. *)
Definition byte_at (d : SSD1306) (i : nat) : Z :=
  default 0 (screen_buffer d !! i).

Definition bit_at (d : SSD1306) (i : nat) (n : Z) : bool :=
  Z.testbit (byte_at d i) n.

Definition pixel_index (d : SSD1306) (x y : Z) : nat :=
  Z.to_nat (screen_ptr (width d * (y / 8) + x)).

Definition get_pixel (d : SSD1306) (x y : Z) : bool :=
  bit_at d (pixel_index d x y) (y mod 8).

(* ================================================================== *)
(** * Lines and boxes                                                  *)
(* ================================================================== *)

(** One pass of the [while( true )] loop of [draw_line] per unit of fuel.
    [l_dx], [l_dy], [l_sx], [l_sy], [l_err], [l_e2] are [int16_t];
    [l_x], [l_y] are [uint8_t]. *)
Fixpoint draw_line_loop (fuel : nat) (d : SSD1306) (p_x2 p_y2 : Z) (p_set : bool)
    (l_dx l_dy l_sx l_sy : Z) (l_err l_x l_y : Z) : outcome SSD1306 :=
  match fuel with
  | O => Fault OutOfFuel
  | S fuel =>
      do d <- plot p_set d l_x l_y in
      if (l_x =? p_x2) && (l_y =? p_y2) then Done d
      else
        let l_e2 := i16 (l_err * 2) in
        let '(l_err, l_x) :=
          if l_e2 >=? l_dy then (i16 (l_err + l_dy), u8 (l_x + l_sx))
          else (l_err, l_x) in
        let '(l_err, l_y) :=
          if l_e2 <=? l_dx then (i16 (l_err + l_dx), u8 (l_y + l_sy))
          else (l_err, l_y) in
        draw_line_loop fuel d p_x2 p_y2 p_set l_dx l_dy l_sx l_sy l_err l_x l_y
  end.

(** Passes granted to the loop: a line between two [uint8_t] points needs
    at most [255 + 255 + 1] of them ([line_trace_total]). *)
Definition draw_line_fuel : nat := 511.

Definition draw_line (d : SSD1306) (p_x1 p_y1 p_x2 p_y2 : Z) (p_set : bool)
  : outcome SSD1306 :=
  let l_dx := i16 (Z.abs (p_x2 - p_x1)) in
  let l_dy := i16 (Z.abs (p_y2 - p_y1) * -1) in
  let l_sx := if p_x1 <? p_x2 then 1 else -1 in
  let l_sy := if p_y1 <? p_y2 then 1 else -1 in
  let l_err := i16 (l_dx + l_dy) in
  draw_line_loop draw_line_fuel d p_x2 p_y2 p_set l_dx l_dy l_sx l_sy
                 l_err p_x1 p_y1.

(** The [for] loop of the filled branch of [draw_box]:
    [for( uint8_t l_index = p_y+p_height+1; l_index > p_y; l_index-- )].
    The call inside leaves [p_set] of [draw_line] at its default, [true]. *)
Fixpoint draw_box_rows (fuel : nat) (d : SSD1306) (p_x p_y p_width : Z)
    (l_index : Z) : outcome SSD1306 :=
  match fuel with
  | O => Fault OutOfFuel
  | S fuel =>
      if l_index >? p_y then
        do d <- draw_line d p_x (u8 (l_index - 1))
                  (u8 (p_x + p_width)) (u8 (l_index - 1)) true in
        draw_box_rows fuel d p_x p_y p_width (u8 (l_index - 1))
      else Done d
  end.

(** [l_index] is a [uint8_t] that only decreases: 256 tests of the loop
    condition are enough. *)
Definition draw_box_fuel : nat := 256.

Definition draw_box (d : SSD1306) (p_x p_y p_width p_height : Z)
    (p_filled p_set : bool) : outcome SSD1306 :=
  if p_filled then
    draw_box_rows draw_box_fuel d p_x p_y p_width (u8 (p_y + p_height + 1))
  else
    do d <- draw_line d p_x p_y (u8 (p_x + p_width)) p_y p_set in
    do d <- draw_line d p_x (u8 (p_y + p_height))
              (u8 (p_x + p_width)) (u8 (p_y + p_height)) p_set in
    do d <- draw_line d p_x p_y p_x (u8 (p_y + p_height)) p_set in
    draw_line d (u8 (p_x + p_width)) p_y
              (u8 (p_x + p_width)) (u8 (p_y + p_height)) p_set.

(* ================================================================== *)
(** * Glyphs and text                                                  *)
(* ================================================================== *)

(** [l_font]: one row of five column bytes per character from space
    (0x20) to tilde (0x7E), then the row commented [undef]. *)
Definition l_font : list (list Z) :=
  [
    [0x00; 0x00; 0x00; 0x00; 0x00]; (* space *)
    [0x00; 0x00; 0x7D; 0x00; 0x00]; (* ! *)
    [0x00; 0x70; 0x00; 0x70; 0x00]; (* double quote *)
    [0x14; 0x7F; 0x14; 0x7F; 0x14]; (* # *)
    [0x12; 0x2A; 0x7F; 0x2A; 0x24]; (* $ *)
    [0x62; 0x64; 0x08; 0x13; 0x23]; (* % *)
    [0x36; 0x49; 0x55; 0x22; 0x05]; (* & *)
    [0x00; 0x00; 0x60; 0x00; 0x00]; (* apostrophe *)
    [0x00; 0x1C; 0x22; 0x41; 0x00]; (* left paren *)
    [0x00; 0x41; 0x22; 0x1C; 0x00]; (* right paren *)
    [0x14; 0x08; 0x3E; 0x08; 0x14]; (* asterisk *)
    [0x08; 0x08; 0x3E; 0x08; 0x08]; (* + *)
    [0x00; 0x05; 0x06; 0x00; 0x00]; (* , *)
    [0x08; 0x08; 0x08; 0x08; 0x08]; (* - *)
    [0x00; 0x03; 0x03; 0x00; 0x00]; (* . *)
    [0x02; 0x04; 0x08; 0x10; 0x20]; (* / *)
    [0x3E; 0x45; 0x49; 0x51; 0x3E]; (* 0 *)
    [0x00; 0x21; 0x7F; 0x01; 0x00]; (* 1 *)
    [0x23; 0x45; 0x49; 0x49; 0x31]; (* 2 *)
    [0x22; 0x41; 0x49; 0x49; 0x36]; (* 3 *)
    [0x0C; 0x14; 0x24; 0x7F; 0x04]; (* 4 *)
    [0x72; 0x51; 0x51; 0x51; 0x4E]; (* 5 *)
    [0x1E; 0x29; 0x49; 0x49; 0x06]; (* 6 *)
    [0x40; 0x47; 0x48; 0x50; 0x60]; (* 7 *)
    [0x36; 0x49; 0x49; 0x49; 0x36]; (* 8 *)
    [0x30; 0x49; 0x49; 0x4A; 0x3C]; (* 9 *)
    [0x00; 0x36; 0x36; 0x00; 0x00]; (* : *)
    [0x00; 0x35; 0x36; 0x00; 0x00]; (* ; *)
    [0x08; 0x14; 0x22; 0x41; 0x00]; (* < *)
    [0x14; 0x14; 0x14; 0x14; 0x14]; (* = *)
    [0x00; 0x41; 0x22; 0x14; 0x08]; (* > *)
    [0x20; 0x40; 0x45; 0x48; 0x30]; (* ? *)
    [0x26; 0x49; 0x4F; 0x41; 0x3E]; (* @ *)
    [0x1F; 0x24; 0x44; 0x24; 0x1F]; (* A *)
    [0x41; 0x7F; 0x49; 0x49; 0x36]; (* B *)
    [0x3E; 0x41; 0x41; 0x41; 0x22]; (* C *)
    [0x41; 0x7F; 0x41; 0x41; 0x3E]; (* D *)
    [0x7F; 0x49; 0x49; 0x49; 0x41]; (* E *)
    [0x7F; 0x48; 0x48; 0x48; 0x40]; (* F *)
    [0x3E; 0x41; 0x41; 0x49; 0x2F]; (* G *)
    [0x7F; 0x08; 0x08; 0x08; 0x7F]; (* H *)
    [0x00; 0x41; 0x7F; 0x41; 0x00]; (* I *)
    [0x02; 0x01; 0x41; 0x7E; 0x40]; (* J *)
    [0x7F; 0x08; 0x14; 0x22; 0x41]; (* K *)
    [0x7F; 0x01; 0x01; 0x01; 0x01]; (* L *)
    [0x7F; 0x20; 0x18; 0x20; 0x7F]; (* M *)
    [0x7F; 0x10; 0x08; 0x04; 0x7F]; (* N *)
    [0x3E; 0x41; 0x41; 0x41; 0x3E]; (* O *)
    [0x7F; 0x48; 0x48; 0x48; 0x30]; (* P *)
    [0x3E; 0x41; 0x45; 0x42; 0x3D]; (* Q *)
    [0x7F; 0x48; 0x4C; 0x4A; 0x31]; (* R *)
    [0x32; 0x49; 0x49; 0x49; 0x26]; (* S *)
    [0x40; 0x40; 0x7F; 0x40; 0x40]; (* T *)
    [0x7E; 0x01; 0x01; 0x01; 0x7E]; (* U *)
    [0x7C; 0x02; 0x01; 0x02; 0x7C]; (* V *)
    [0x7E; 0x01; 0x0E; 0x01; 0x7E]; (* W *)
    [0x63; 0x14; 0x08; 0x14; 0x63]; (* X *)
    [0x70; 0x08; 0x07; 0x08; 0x70]; (* Y *)
    [0x43; 0x45; 0x49; 0x51; 0x61]; (* Z *)
    [0x00; 0x7F; 0x41; 0x41; 0x00]; (* [ *)
    [0x20; 0x10; 0x08; 0x04; 0x02]; (* backslash *)
    [0x00; 0x41; 0x41; 0x7F; 0x00]; (* ] *)
    [0x10; 0x20; 0x40; 0x20; 0x10]; (* ^ *)
    [0x01; 0x01; 0x01; 0x01; 0x01]; (* _ *)
    [0x00; 0x40; 0x20; 0x10; 0x00]; (* ` *)
    [0x02; 0x15; 0x15; 0x15; 0x0F]; (* a *)
    [0x7F; 0x09; 0x11; 0x11; 0x0E]; (* b *)
    [0x0E; 0x11; 0x11; 0x11; 0x02]; (* c *)
    [0x0E; 0x11; 0x11; 0x09; 0x7F]; (* d *)
    [0x0E; 0x15; 0x15; 0x15; 0x0C]; (* e *)
    [0x08; 0x3F; 0x48; 0x40; 0x20]; (* f *)
    [0x08; 0x15; 0x15; 0x15; 0x1E]; (* g *)
    [0x7F; 0x08; 0x10; 0x10; 0x0F]; (* h *)
    [0x00; 0x09; 0x5F; 0x01; 0x00]; (* i *)
    [0x02; 0x01; 0x11; 0x5E; 0x00]; (* j *)
    [0x7F; 0x04; 0x0A; 0x11; 0x00]; (* k *)
    [0x00; 0x41; 0x7F; 0x01; 0x00]; (* l *)
    [0x1F; 0x10; 0x0F; 0x10; 0x0F]; (* m *)
    [0x1F; 0x08; 0x10; 0x10; 0x0F]; (* n *)
    [0x0E; 0x11; 0x11; 0x11; 0x0E]; (* o *)
    [0x1F; 0x14; 0x14; 0x14; 0x08]; (* p *)
    [0x08; 0x14; 0x14; 0x0C; 0x1F]; (* q *)
    [0x1F; 0x08; 0x10; 0x10; 0x08]; (* r *)
    [0x09; 0x15; 0x15; 0x15; 0x02]; (* s *)
    [0x10; 0x7E; 0x11; 0x01; 0x02]; (* t *)
    [0x1E; 0x01; 0x01; 0x02; 0x1F]; (* u *)
    [0x1C; 0x02; 0x01; 0x02; 0x1C]; (* v *)
    [0x1E; 0x01; 0x06; 0x01; 0x1E]; (* w *)
    [0x11; 0x0A; 0x04; 0x0A; 0x11]; (* x *)
    [0x18; 0x05; 0x05; 0x05; 0x1E]; (* y *)
    [0x11; 0x13; 0x15; 0x19; 0x11]; (* z *)
    [0x00; 0x08; 0x36; 0x41; 0x00]; (* { *)
    [0x00; 0x00; 0x7F; 0x00; 0x00]; (* | *)
    [0x00; 0x41; 0x36; 0x08; 0x00]; (* } *)
    [0x04; 0x08; 0x08; 0x04; 0x08]; (* ~ *)
    [0x06; 0x09; 0x51; 0x01; 0x02]  (* undef *)
  ].

(** [l_font[l_char][l_x]]. *)
Definition font_at (l_char l_x : Z) : outcome Z :=
  match l_font !! Z.to_nat l_char with
  | Some row => load row l_x
  | None => Fault OutOfBounds
  end.

(** A counting [for] loop over the given index values. *)
Fixpoint for_each {A : Type} (idx : list Z) (body : Z -> A -> outcome A) (a : A)
  : outcome A :=
  match idx with
  | [] => Done a
  | i :: idx => do a <- body i a in for_each idx body a
  end.

(** [draw_char].  [p_char] is the value of the [char]; the test
    [p_char < 0x20 || p_char > 0x7E] sends every other value, whether
    [char] is signed or not, to [0x7F]. *)
Definition draw_char (d : SSD1306) (p_x p_y : Z) (p_char : Z) (p_set : bool)
  : outcome SSD1306 :=
  let l_char :=
    u8 (if (p_char <? 0x20) || (p_char >? 0x7E) then 0x7F else p_char - 0x20) in
  for_each (seqZ 0 5) (fun l_x d =>
    for_each (seqZ 0 7) (fun l_y d =>
      do column <- font_at l_char l_x in
      if Z.land (Z.shiftl 0x01 (6 - l_y)) column =? 0 then Done d
      else plot p_set d (u8 (p_x + l_x)) (u8 (p_y + l_y))) d) d.

(** A C string is the list of its [char] values; the end of the list
    stands for the terminating NUL. *)
Fixpoint strlen (p_text : list Z) : Z :=
  match p_text with
  | [] => 0
  | c :: rest => if c =? 0 then 0 else 1 + strlen rest
  end.

Definition c_str (s : string) : list Z :=
  map (fun c => Z.of_nat (nat_of_ascii c)) (list_ascii_of_string s).

(** [draw_text].  [p_x + (l_index * 6)] is computed in [size_t] and then
    converted to the [uint8_t] parameter of [draw_char]; as 256 divides the
    range of [size_t], the result is the sum modulo 256. *)
Definition draw_text (d : SSD1306) (p_x p_y : Z) (p_text : list Z) (p_set : bool)
  : outcome SSD1306 :=
  let l_strlen := strlen p_text in
  for_each (seqZ 0 l_strlen) (fun l_index d =>
    do c <- load p_text l_index in
    draw_char d (u8 (p_x + l_index * 6)) p_y c p_set) d.

(* ================================================================== *)
(** * The I2C side                                                     *)
(* ================================================================== *)

(** One call of [i2c_write_blocking]: device address and bytes. *)
Definition xfer : Type := (Z * list Z)%type.

(** Code that writes to the bus: it extends the traffic seen so far. *)
Definition Bus (A : Type) : Type := list xfer -> A * list xfer.

Definition ret {A : Type} (a : A) : Bus A := fun log => (a, log).

Definition seq_bus {A B : Type} (m : Bus A) (k : A -> Bus B) : Bus B :=
  fun log => let '(a, log') := m log in k a log'.

Notation "'io' x <- m 'in' k" := (seq_bus m (fun x => k))
  (at level 10, x name, m at level 200, k at level 200,
   format "'[v' 'io'  x  <-  m  'in' '/' k ']'").

Section Bus.

(** The transport: traffic so far, address, bytes; the result is the
    number of bytes written, or a negative error code. *)
Variable i2c_write_blocking : list xfer -> Z -> list Z -> Z.

(** [write_buffer]; [p_buffer] is given as the [p_length] bytes sent. *)
Definition write_buffer (d : SSD1306) (p_buffer : list Z) : Bus bool :=
  fun log =>
    (i2c_write_blocking log (address d) p_buffer >? 0,
     log ++ [(address d, p_buffer)]).

(** [write_cmd].  An argument below zero (the default is -1) is absent.
    [None] stands for the early [return false]. *)
Definition write_cmd (d : SSD1306) (p_cmd : ssd1306_cmd_t) (p_arg1 p_arg2 : Z)
  : Bus bool :=
  let l_buffer := [0x00; u8 (cmd_value p_cmd)] in
  io step <-
    (if p_arg1 >=? 0 then
       io ok <- write_buffer d l_buffer in
       if negb ok then ret None
       else ret (Some [0x00; u8 (Z.land p_arg1 0xFF)])
     else ret (Some l_buffer)) in
  match step with
  | None => ret false
  | Some l_buffer =>
      io step <-
        (if p_arg2 >=? 0 then
           io ok <- write_buffer d l_buffer in
           if negb ok then ret None
           else ret (Some [0x00; u8 (Z.land p_arg2 0xFF)])
         else ret (Some l_buffer)) in
      match step with
      | None => ret false
      | Some l_buffer => write_buffer d l_buffer
      end
  end.

(** The constructor.  [heap] is the block returned by
    [new uint8_t[screen_buffer_sz]], whose content is whatever it is. *)
Definition SSD1306_new (p_width p_height p_address : Z) (p_ext_vcc : bool)
    (heap : list Z) : Bus SSD1306 :=
  let l_pagesize := u8 ((p_height + 7) / 8) in
  let d := mkSSD1306 p_width p_height l_pagesize p_address p_ext_vcc
                     heap (p_width * l_pagesize + 1) in
  io _r <- write_cmd d DISPLAYOFF (-1) (-1) in
  io _r <- write_cmd d SETDISPLAYCLOCKDIV 0x80 (-1) in
  io _r <- write_cmd d SETMULTIPLEX (i16 (height d - 1)) (-1) in
  io _r <- write_cmd d SETDISPLAYOFFSET 0x00 (-1) in
  io _r <- write_cmd d SETSTARTLINE (-1) (-1) in
  io _r <- write_cmd d CHARGEPUMP (if external_vcc d then 0x10 else 0x14) (-1) in
  io _r <- write_cmd d MEMORYMODE 0x00 (-1) in
  io _r <- write_cmd d SEGREMAP (-1) (-1) in
  io _r <- write_cmd d COMSCANDEC (-1) (-1) in
  io _r <- write_cmd d SETCOMPINS (if height d =? 64 then 0x12 else 0x02) (-1) in
  io _r <- write_cmd d SETCONTRAST 0xFF (-1) in
  io _r <- write_cmd d SETPRECHARGE (if external_vcc d then 0x22 else 0xF1) (-1) in
  io _r <- write_cmd d SETVCOMDETECT 0x40 (-1) in
  io _r <- write_cmd d DISPLAYALLON (-1) (-1) in
  io _r <- write_cmd d NORMALDISPLAY (-1) (-1) in
  io _r <- write_cmd d DISPLAYON (-1) (-1) in
  ret d.

(** [render] returns [void]: the results of its three writes are dropped.
    [l_cmd_buffer] is filled but never read and is left out. *)
Definition render (d : SSD1306) : Bus SSD1306 :=
  io _r <- write_cmd d PAGEADDR 0 (i16 (pagesize d - 1)) in
  io _r <- write_cmd d COLUMNADDR 0 (i16 (width d - 1)) in
  let d := with_screen d (<[0%nat := 0x40]> (screen_buffer d)) in
  io _r <- write_buffer d
              (take (Z.to_nat (screen_buffer_sz d)) (screen_buffer d)) in
  ret d.

Definition set_contrast (d : SSD1306) (p_contrast : Z) : Bus unit :=
  io _r <- write_cmd d SETCONTRAST p_contrast (-1) in
  ret tt.

Definition set_invert (d : SSD1306) (p_invert : bool) : Bus unit :=
  if p_invert then
    io _r <- write_cmd d INVERTDISPLAY (-1) (-1) in ret tt
  else
    io _r <- write_cmd d NORMALDISPLAY (-1) (-1) in ret tt.

End Bus.

(* ================================================================== *)
(** * Definitions for the statements and proofs                        *)
(* ================================================================== *)

(** A blank 128x32 panel at address 0x3C, as in the example program. *)
Definition demo : SSD1306 := mkSSD1306 128 32 4 0x3C false (replicate 513 0) 513.

(** The object with byte [i] of its buffer replaced. *)
Definition poke (d : SSD1306) (i : nat) (v : Z) : SSD1306 :=
  with_screen d (<[i := v]> (screen_buffer d)).

(** Inside the visible area. *)
Definition in_view (d : SSD1306) (x y : Z) : Prop :=
  0 <= x < width d /\ 0 <= y < height d.

(** Same dimensions. *)
Definition same_panel (d d' : SSD1306) : Prop :=
  width d' = width d /\ height d' = height d.

(** The blank panel with pixel (0,0) lit. *)
Definition lit_corner : SSD1306 := poke demo 1 0x01.

(** Executable form of [wf]. *)
Definition wfb (d : SSD1306) : bool :=
  (0 <=? width d) && (width d <? 256)
  && (0 <=? height d) && (height d <? 256)
  && (pagesize d =? (height d + 7) / 8)
  && (screen_buffer_sz d =? width d * pagesize d + 1)
  && (Z.of_nat (length (screen_buffer d)) =? screen_buffer_sz d)
  && forallb (fun b => (0 <=? b) && (b <? 256)) (screen_buffer d).

(** The points visited by [draw_line_loop], in order: the same loop with
    the pixel write replaced by recording the point. *)
Fixpoint line_trace (fuel : nat) (p_x2 p_y2 : Z)
    (l_dx l_dy l_sx l_sy : Z) (l_err l_x l_y : Z) : outcome (list (Z * Z)) :=
  match fuel with
  | O => Fault OutOfFuel
  | S fuel =>
      if (l_x =? p_x2) && (l_y =? p_y2) then Done [(l_x, l_y)]
      else
        let l_e2 := i16 (l_err * 2) in
        let '(l_err', l_x') :=
          if l_e2 >=? l_dy then (i16 (l_err + l_dy), u8 (l_x + l_sx))
          else (l_err, l_x) in
        let '(l_err', l_y') :=
          if l_e2 <=? l_dx then (i16 (l_err' + l_dx), u8 (l_y + l_sy))
          else (l_err', l_y) in
        do rest <- line_trace fuel p_x2 p_y2 l_dx l_dy l_sx l_sy l_err' l_x' l_y' in
        Done ((l_x, l_y) :: rest)
  end.

Definition line_points (p_x1 p_y1 p_x2 p_y2 : Z) : outcome (list (Z * Z)) :=
  let l_dx := i16 (Z.abs (p_x2 - p_x1)) in
  let l_dy := i16 (Z.abs (p_y2 - p_y1) * -1) in
  let l_sx := if p_x1 <? p_x2 then 1 else -1 in
  let l_sy := if p_y1 <? p_y2 then 1 else -1 in
  let l_err := i16 (l_dx + l_dy) in
  line_trace draw_line_fuel p_x2 p_y2 l_dx l_dy l_sx l_sy l_err p_x1 p_y1.

(** Plotting a list of points one after the other. *)
Fixpoint plot_all (p_set : bool) (d : SSD1306) (pts : list (Z * Z))
  : outcome SSD1306 :=
  match pts with
  | [] => Done d
  | (x, y) :: pts => do d <- plot p_set d x y in plot_all p_set d pts
  end.

Definition on_points (pts : list (Z * Z)) (x y : Z) : bool :=
  existsb (fun p => (p.1 =? x) && (p.2 =? y)) pts.

Definition u8_point (p : Z * Z) : Prop := is_u8 p.1 /\ is_u8 p.2.

(** A monotone walk on the grid: from [(x, y)], [n] more steps along x
    (each by [sx]) and [m] more along y (each by [sy]) remain; a move
    advances x, y, or both.  The list holds the points after [(x, y)]. *)
Inductive walk (sx sy : Z) : Z -> Z -> Z -> Z -> list (Z * Z) -> Prop :=
| walk_end x y : walk sx sy 0 0 x y []
| walk_x n m x y pts :
    0 < n -> 0 <= m -> walk sx sy (n - 1) m (x + sx) y pts ->
    walk sx sy n m x y ((x + sx, y) :: pts)
| walk_y n m x y pts :
    0 <= n -> 0 < m -> walk sx sy n (m - 1) x (y + sy) pts ->
    walk sx sy n m x y ((x, y + sy) :: pts)
| walk_xy n m x y pts :
    0 < n -> 0 < m -> walk sx sy (n - 1) (m - 1) (x + sx) (y + sy) pts ->
    walk sx sy n m x y ((x + sx, y + sy) :: pts).

(** The points written by the two branches of [draw_box], in order. *)
Fixpoint box_rows_points (fuel : nat) (p_x p_y p_width l_index : Z)
  : outcome (list (Z * Z)) :=
  match fuel with
  | O => Fault OutOfFuel
  | S fuel =>
      if l_index >? p_y then
        do row <- line_points p_x (u8 (l_index - 1))
                    (u8 (p_x + p_width)) (u8 (l_index - 1)) in
        do rest <- box_rows_points fuel p_x p_y p_width (u8 (l_index - 1)) in
        Done (row ++ rest)
      else Done []
  end.

Definition box_points (p_x p_y p_width p_height : Z) (p_filled : bool)
  : outcome (list (Z * Z)) :=
  if p_filled then
    box_rows_points draw_box_fuel p_x p_y p_width (u8 (p_y + p_height + 1))
  else
    do top <- line_points p_x p_y (u8 (p_x + p_width)) p_y in
    do bottom <- line_points p_x (u8 (p_y + p_height))
                   (u8 (p_x + p_width)) (u8 (p_y + p_height)) in
    do left <- line_points p_x p_y p_x (u8 (p_y + p_height)) in
    do right <- line_points (u8 (p_x + p_width)) p_y
                  (u8 (p_x + p_width)) (u8 (p_y + p_height)) in
    Done (top ++ bottom ++ left ++ right).

(** The rectangle with corners (10,10) and (30,16), and its border. *)
Definition in_rect_21x7 (x y : Z) : bool :=
  (10 <=? x) && (x <=? 30) && (10 <=? y) && (y <=? 16).

Definition on_perimeter_21x7 (x y : Z) : bool :=
  in_rect_21x7 x y && ((x =? 10) || (x =? 30) || (y =? 10) || (y =? 16)).

(** Agreement of two pixel predicates on every [uint8_t] coordinate pair. *)
Definition same_on_u8 (f g : Z -> Z -> bool) : bool :=
  forallb (fun x => forallb (fun y => Bool.eqb (f x y) (g x y)) (seqZ 0 256))
          (seqZ 0 256).

(** ** The command protocol in the words of the specification *)

(** The 2-byte units of one command: the control byte [0x00] followed by
    the opcode, then one such unit per argument that is present. *)
Definition cmd_units (p_cmd : ssd1306_cmd_t) (p_arg1 p_arg2 : Z) : list (list Z) :=
  [0x00; cmd_value p_cmd]
  :: (if p_arg1 >=? 0 then [[0x00; Z.land p_arg1 0xFF]] else [])
  ++ (if p_arg2 >=? 0 then [[0x00; Z.land p_arg2 0xFF]] else []).

(** Bus traffic made of the given byte strings, all to one address. *)
Definition to_address (addr : Z) (units : list (list Z)) : list xfer :=
  map (fun u => (addr, u)) units.

(** Each unit is a separate bus write; the first failed write ends the
    operation, which then reports failure. *)
Fixpoint send_units (bus : list xfer -> Z -> list Z -> Z) (addr : Z)
    (units : list (list Z)) : Bus bool :=
  match units with
  | [] => ret true
  | u :: rest =>
      fun log =>
        if bus log addr u >? 0 then send_units bus addr rest (log ++ [(addr, u)])
        else (false, log ++ [(addr, u)])
  end.

(** The initialisation sequence: each command with its arguments. *)
Definition init_sequence (p_height : Z) (p_ext_vcc : bool)
  : list (ssd1306_cmd_t * list Z) :=
  [ (DISPLAYOFF, []);
    (SETDISPLAYCLOCKDIV, [0x80]);
    (SETMULTIPLEX, [p_height - 1]);
    (SETDISPLAYOFFSET, [0x00]);
    (SETSTARTLINE, []);
    (CHARGEPUMP, [if p_ext_vcc then 0x10 else 0x14]);
    (MEMORYMODE, [0x00]);
    (SEGREMAP, []);
    (COMSCANDEC, []);
    (SETCOMPINS, [if p_height =? 64 then 0x12 else 0x02]);
    (SETCONTRAST, [0xFF]);
    (SETPRECHARGE, [if p_ext_vcc then 0x22 else 0xF1]);
    (SETVCOMDETECT, [0x40]);
    (DISPLAYALLON, []);
    (NORMALDISPLAY, []);
    (DISPLAYON, []) ].

(** The units of a command given with its list of arguments. *)
Definition units_of (c : ssd1306_cmd_t * list Z) : list (list Z) :=
  [0x00; cmd_value c.1] :: map (fun a => [0x00; a]) c.2.

(** Sending a sequence of commands one after the other, each through
    [send_units], whatever the result of the one before. *)
Fixpoint send_sequence (bus : list xfer -> Z -> list Z -> Z) (addr : Z)
    (cmds : list (ssd1306_cmd_t * list Z)) (log : list xfer) : list xfer :=
  match cmds with
  | [] => log
  | c :: cmds =>
      send_sequence bus addr cmds
        (send_units bus addr
           (cmd_units c.1 (nth 0 c.2 (-1)) (nth 1 c.2 (-1))) log).2
  end.

(** A transport on which every write fails, and one on which every write
    is reported complete. *)
Definition dead_bus : list xfer -> Z -> list Z -> Z := fun _ _ _ => -1.

Definition good_bus : list xfer -> Z -> list Z -> Z :=
  fun _ _ bytes => Z.of_nat (length bytes).

(* ================================================================== *)
(** * Definitions for the further properties                           *)
(* ================================================================== *)

(** Whether cell [(l_x, l_y)] of row [l_char] of the font is marked:
    the test [( 0x01 << ( 6 - l_y ) ) & l_font[l_char][l_x]] of
    [draw_char]. *)
Definition glyph_cell (l_char l_x l_y : Z) : bool :=
  match l_font !! Z.to_nat l_char with
  | Some row =>
      match row !! Z.to_nat l_x with
      | Some column => negb (Z.land (Z.shiftl 0x01 (6 - l_y)) column =? 0)
      | None => false
      end
  | None => false
  end.

(** The points [draw_char] plots for row [l_char] of the font, in the
    order of its two loops. *)
Definition glyph_column_points (p_x p_y l_char l_x : Z) : list (Z * Z) :=
  omap (fun l_y => if glyph_cell l_char l_x l_y
                   then Some (u8 (p_x + l_x), u8 (p_y + l_y)) else None)
       (seqZ 0 7).

Definition glyph_points (p_x p_y l_char : Z) : list (Z * Z) :=
  concat (map (glyph_column_points p_x p_y l_char) (seqZ 0 5)).

(** The characters that have a row of their own in [l_font]. *)
Definition printable (c : Z) : Prop := 0x20 <= c <= 0x7E.

(** The points [draw_text] plots for a text of printable characters: the
    glyph of each character, the x-origin moving on by 6 (modulo 256). *)
Fixpoint text_points (p_x p_y : Z) (p_text : list Z) : list (Z * Z) :=
  match p_text with
  | [] => []
  | c :: rest =>
      glyph_points p_x p_y (c - 0x20) ++ text_points (u8 (p_x + 6)) p_y rest
  end.

(** Pixel [(px, py)] is a marked cell of some character of the text drawn
    at [(x, y)]: character [i] has its cell at x-origin [x + 6 * i]. *)
Definition text_marks (x y : Z) (p_text : list Z) (px py : Z) : Prop :=
  exists (i : nat) (c l_x l_y : Z),
    p_text !! i = Some c
    /\ 0 <= l_x < 5 /\ 0 <= l_y < 7
    /\ glyph_cell (c - 0x20) l_x l_y = true
    /\ px = u8 (x + 6 * Z.of_nat i + l_x) /\ py = u8 (y + l_y).

(* ================================================================== *)
(** * Machine integers and bytes *)
(* ================================================================== *)

Lemma u8_small z : is_u8 z -> u8 z = z.
Proof. unfold is_u8, u8. intros H. apply Z.mod_small. lia. Qed.

Lemma u8_is_u8 z : is_u8 (u8 z).
Proof. unfold is_u8, u8. pose proof (Z.mod_pos_bound z (2 ^ 8)). lia. Qed.

Lemma i16_small z : -32768 <= z < 32768 -> i16 z = z.
Proof.
  unfold i16. intros H. change (2 ^ 15) with 32768. change (2 ^ 16) with 65536.
  rewrite Z.mod_small; lia.
Qed.

Lemma testbit_u8_high b n : is_u8 b -> 8 <= n -> Z.testbit b n = false.
Proof.
  intros Hb Hn. rewrite <- (u8_small b Hb). unfold u8.
  apply Z.mod_pow2_bits_high. lia.
Qed.

Lemma set_bit_spec b k n :
  is_u8 b -> 0 <= k < 8 ->
  Z.testbit (u8 (Z.lor b (Z.shiftl 1 k))) n
  = if n =? k then true else Z.testbit b n.
Proof.
  intros Hb Hk. destruct (Z.ltb_spec n 0) as [Hneg | Hpos].
  - rewrite !Z.testbit_neg_r by lia.
    destruct (Z.eqb_spec n k); [lia | reflexivity].
  - unfold u8. rewrite Z.testbit_mod_pow2 by lia.
    rewrite Z.lor_spec, Z.shiftl_1_l, Z.pow2_bits_eqb by lia.
    rewrite (Z.eqb_sym k n).
    destruct (Z.ltb_spec n 8) as [Hlt | Hge]; simpl.
    + destruct (n =? k); [apply orb_true_r | apply orb_false_r].
    + destruct (Z.eqb_spec n k); [lia |].
      symmetry. apply testbit_u8_high; assumption.
Qed.

Lemma clear_bit_spec b k n :
  is_u8 b -> 0 <= k < 8 ->
  Z.testbit (u8 (Z.land b (Z.lnot (Z.shiftl 1 k)))) n
  = if n =? k then false else Z.testbit b n.
Proof.
  intros Hb Hk. destruct (Z.ltb_spec n 0) as [Hneg | Hpos].
  - rewrite !Z.testbit_neg_r by lia.
    destruct (Z.eqb_spec n k); [lia | reflexivity].
  - unfold u8. rewrite Z.testbit_mod_pow2 by lia.
    rewrite Z.land_spec, Z.lnot_spec, Z.shiftl_1_l, Z.pow2_bits_eqb by lia.
    rewrite (Z.eqb_sym k n).
    destruct (Z.ltb_spec n 8) as [Hlt | Hge]; simpl.
    + destruct (n =? k); simpl; [apply andb_false_r | apply andb_true_r].
    + destruct (Z.eqb_spec n k); [lia |].
      symmetry. apply testbit_u8_high; assumption.
Qed.

(* ================================================================== *)
(** * Pixels: addressing, [set_pixel] and [clear_pixel] *)
(* ================================================================== *)

Lemma wfb_wf d : wfb d = true -> wf d.
Proof.
  unfold wfb. rewrite !andb_true_iff, forallb_forall.
  intros [[[[[[[H1 H2] H3] H4] H5] H6] H7] H8].
  constructor; unfold is_u8; try lia.
  apply Forall_forall. intros b Hb. apply list_elem_of_In in Hb.
  specialize (H8 b Hb). lia.
Qed.

Lemma demo_wf : wf demo.
Proof. apply wfb_wf. vm_compute. reflexivity. Qed.

Lemma with_screen_id d : with_screen d (screen_buffer d) = d.
Proof. destruct d; reflexivity. Qed.

Lemma byte_at_is_u8 d i : wf d -> is_u8 (byte_at d i).
Proof.
  intros Hwf. unfold byte_at.
  destruct (screen_buffer d !! i) as [b |] eqn:Hb; simpl.
  - pose proof (wf_bytes d Hwf) as Hall.
    rewrite Forall_lookup in Hall. exact (Hall i b Hb).
  - unfold is_u8; lia.
Qed.

Lemma pixel_addr d x y :
  wf d -> in_view d x y ->
  screen_ptr (width d * Z.shiftr y 3 + x) = Z.of_nat (pixel_index d x y)
  /\ (pixel_index d x y < length (screen_buffer d))%nat
  /\ Z.land y 7 = y mod 8
  /\ 0 <= y mod 8 < 8.
Proof.
  intros Hwf [Hx Hy].
  pose proof (wf_pagesize d Hwf) as Hp.
  pose proof (wf_size d Hwf) as Hs.
  pose proof (wf_length d Hwf) as Hl.
  assert (Hshift : Z.shiftr y 3 = y / 8) by (rewrite Z.shiftr_div_pow2; [reflexivity | lia]).
  assert (Hland : Z.land y 7 = y mod 8) by (change 7 with (Z.ones 3); rewrite Z.land_ones; [reflexivity | lia]).
  assert (Hq : 0 <= y / 8 < pagesize d).
  { rewrite Hp. split; [apply Z.div_pos; lia |].
    apply Z.div_lt_upper_bound; [lia |].
    pose proof (Z.mul_div_le (height d + 7) 8). pose proof (Z.mod_pos_bound (height d + 7) 8).
    pose proof (Z.div_mod (height d + 7) 8). lia. }
  unfold pixel_index, screen_ptr. rewrite Hshift.
  assert (Hidx : 0 <= width d * (y / 8) + x < width d * pagesize d) by nia.
  repeat split; try lia.
  - apply Z.mod_pos_bound; lia.
  - apply Z.mod_pos_bound; lia.
Qed.

Lemma load_lookup buf (i : nat) :
  (i < length buf)%nat -> load buf (Z.of_nat i) = Done (default 0 (buf !! i)).
Proof.
  intros Hi. unfold load.
  destruct (Z.ltb_spec (Z.of_nat i) 0); [lia |].
  rewrite Nat2Z.id.
  destruct (lookup_lt_is_Some_2 buf i Hi) as [b ->]. reflexivity.
Qed.

Lemma store_insert buf (i : nat) v :
  (i < length buf)%nat -> store buf (Z.of_nat i) v = Done (<[i := v]> buf).
Proof.
  intros Hi. unfold store.
  destruct (Z.ltb_spec (Z.of_nat i) 0); [lia |].
  destruct (Z.leb_spec (Z.of_nat (length buf)) (Z.of_nat i)); [lia |].
  simpl. rewrite Nat2Z.id. reflexivity.
Qed.

Lemma guard_in_view d x y :
  in_view d x y -> (x >=? width d) || (y >=? height d) = false.
Proof.
  intros [Hx Hy]. rewrite !Z.geb_leb.
  destruct (Z.leb_spec (width d) x); [lia |].
  destruct (Z.leb_spec (height d) y); [lia | reflexivity].
Qed.

Lemma guard_out_of_view d x y :
  x >= width d \/ y >= height d -> (x >=? width d) || (y >=? height d) = true.
Proof.
  intros H. rewrite !Z.geb_leb.
  destruct (Z.leb_spec (width d) x); [reflexivity |].
  destruct (Z.leb_spec (height d) y); [reflexivity | lia].
Qed.

Lemma set_pixel_in_view d x y :
  wf d -> in_view d x y ->
  set_pixel d x y
  = Done (poke d (pixel_index d x y)
            (u8 (Z.lor (byte_at d (pixel_index d x y)) (Z.shiftl 1 (y mod 8))))).
Proof.
  intros Hwf Hv. unfold set_pixel. rewrite (guard_in_view d x y Hv).
  destruct (pixel_addr d x y Hwf Hv) as (-> & Hlt & -> & _).
  cbv zeta. rewrite (load_lookup _ _ Hlt). simpl.
  rewrite (store_insert _ _ _ Hlt). reflexivity.
Qed.

Lemma clear_pixel_in_view d x y :
  wf d -> in_view d x y ->
  clear_pixel d x y
  = Done (poke d (pixel_index d x y)
            (u8 (Z.land (byte_at d (pixel_index d x y))
                        (Z.lnot (Z.shiftl 1 (y mod 8)))))).
Proof.
  intros Hwf Hv. unfold clear_pixel. rewrite (guard_in_view d x y Hv).
  destruct (pixel_addr d x y Hwf Hv) as (-> & Hlt & -> & _).
  cbv zeta. rewrite (load_lookup _ _ Hlt). simpl.
  rewrite (store_insert _ _ _ Hlt). reflexivity.
Qed.

Lemma poke_wf d i v : wf d -> is_u8 v -> wf (poke d i v).
Proof.
  intros [H1 H2 H3 H4 H5 H6] Hv. constructor; simpl; try assumption.
  - rewrite length_insert. assumption.
  - destruct (decide (i < length (screen_buffer d))%nat) as [Hi | Hi].
    + apply Forall_insert; assumption.
    + rewrite list_insert_ge by lia. assumption.
Qed.

Lemma poke_byte_at d i v j :
  (i < length (screen_buffer d))%nat ->
  byte_at (poke d i v) j = if decide (j = i) then v else byte_at d j.
Proof.
  intros Hi. unfold byte_at, poke. simpl.
  destruct (decide (j = i)) as [-> | Hne].
  - rewrite list_lookup_insert_eq by assumption. reflexivity.
  - rewrite list_lookup_insert_ne by congruence. reflexivity.
Qed.

Lemma poke_same d i :
  poke d i (byte_at d i) = d.
Proof.
  unfold poke, byte_at.
  destruct (screen_buffer d !! i) as [b |] eqn:Hb; simpl.
  - rewrite list_insert_id by assumption. apply with_screen_id.
  - rewrite list_insert_ge by (apply lookup_ge_None; assumption).
    apply with_screen_id.
Qed.

Lemma poke_poke d i v w : poke (poke d i v) i w = poke d i w.
Proof. unfold poke. simpl. rewrite list_insert_insert_eq. reflexivity. Qed.

Lemma plot_out_of_view p_set d x y :
  x >= width d \/ y >= height d -> plot p_set d x y = Done d.
Proof.
  intros H. unfold plot, set_pixel, clear_pixel.
  rewrite (guard_out_of_view d x y H). destruct p_set; reflexivity.
Qed.

Lemma plot_in_view p_set d x y :
  wf d -> in_view d x y ->
  exists d', plot p_set d x y = Done d' /\ wf d' /\ same_panel d d'
    /\ forall j n, bit_at d' j n
         = if decide (j = pixel_index d x y /\ n = y mod 8) then p_set
           else bit_at d j n.
Proof.
  intros Hwf Hv.
  destruct (pixel_addr d x y Hwf Hv) as (_ & Hlt & _ & Hk).
  pose proof (byte_at_is_u8 d (pixel_index d x y) Hwf) as Hb.
  unfold plot. destruct p_set.
  - rewrite (set_pixel_in_view d x y Hwf Hv). eexists. split; [reflexivity |].
    split; [apply poke_wf; [assumption | apply u8_is_u8] |].
    split; [split; reflexivity |].
    intros j n. unfold bit_at. rewrite (poke_byte_at _ _ _ _ Hlt).
    destruct (decide (j = pixel_index d x y)) as [-> | Hj].
    + rewrite (set_bit_spec _ _ n Hb Hk).
      destruct (Z.eqb_spec n (y mod 8)); destruct (decide _); tauto.
    + destruct (decide _); tauto.
  - rewrite (clear_pixel_in_view d x y Hwf Hv). eexists. split; [reflexivity |].
    split; [apply poke_wf; [assumption | apply u8_is_u8] |].
    split; [split; reflexivity |].
    intros j n. unfold bit_at. rewrite (poke_byte_at _ _ _ _ Hlt).
    destruct (decide (j = pixel_index d x y)) as [-> | Hj].
    + rewrite (clear_bit_spec _ _ n Hb Hk).
      destruct (Z.eqb_spec n (y mod 8)); destruct (decide _); tauto.
    + destruct (decide _); tauto.
Qed.

Lemma pixel_index_inj d x y x' y' :
  wf d -> in_view d x y -> in_view d x' y' ->
  pixel_index d x y = pixel_index d x' y' -> y mod 8 = y' mod 8 ->
  x = x' /\ y = y'.
Proof.
  intros Hwf [Hx Hy] [Hx' Hy'] Hi Hm. unfold pixel_index, screen_ptr in Hi.
  assert (0 <= y / 8) by (apply Z.div_pos; lia).
  assert (0 <= y' / 8) by (apply Z.div_pos; lia).
  apply Z2Nat.inj in Hi; [| nia | nia].
  assert (Hq : y / 8 = y' / 8) by nia.
  pose proof (Z.div_mod y 8). pose proof (Z.div_mod y' 8).
  split; [nia | lia].
Qed.

Lemma byte_eq_bits a b :
  (forall n, Z.testbit a n = Z.testbit b n) -> a = b.
Proof. intros H. apply Z.bits_inj'. intros n _. apply H. Qed.

(** Claim C9.  For every coordinate pair with [x >= width] or
    [y >= height], and whatever the object holds, [set_pixel] and
    [clear_pixel] return normally and leave the object, and with it the
    whole screen buffer, exactly as it was. *)
Theorem pixel_out_of_range_ignored (d : SSD1306) (x y : Z) :
  x >= width d \/ y >= height d ->
  set_pixel d x y = Done d /\ clear_pixel d x y = Done d.
Proof.
  intros H. split.
  - apply (plot_out_of_view true d x y H).
  - apply (plot_out_of_view false d x y H).
Qed.

(** Claim C9 at column 128 of the 128x32 panel. *)
Lemma pixel_out_of_range_ignored_witness :
  (128 >= width demo \/ 0 >= height demo)
  /\ set_pixel demo 128 0 = Done demo /\ clear_pixel demo 128 0 = Done demo.
Proof.
  split; [left; simpl; lia |].
  apply (pixel_out_of_range_ignored demo 128 0). left; simpl; lia.
Defined.

Lemma set_after_clear_byte b k :
  is_u8 b -> 0 <= k < 8 ->
  u8 (Z.lor (u8 (Z.land b (Z.lnot (Z.shiftl 1 k)))) (Z.shiftl 1 k))
  = u8 (Z.lor b (Z.shiftl 1 k)).
Proof.
  intros Hb Hk. apply byte_eq_bits. intros n.
  rewrite !set_bit_spec, clear_bit_spec by (assumption || apply u8_is_u8).
  destruct (n =? k); reflexivity.
Qed.

Lemma clear_after_set_byte b k :
  is_u8 b -> 0 <= k < 8 ->
  u8 (Z.land (u8 (Z.lor b (Z.shiftl 1 k))) (Z.lnot (Z.shiftl 1 k)))
  = u8 (Z.land b (Z.lnot (Z.shiftl 1 k))).
Proof.
  intros Hb Hk. apply byte_eq_bits. intros n.
  rewrite !clear_bit_spec, set_bit_spec by (assumption || apply u8_is_u8).
  destruct (n =? k); reflexivity.
Qed.

Lemma set_byte_id b k :
  is_u8 b -> 0 <= k < 8 -> Z.testbit b k = true ->
  u8 (Z.lor b (Z.shiftl 1 k)) = b.
Proof.
  intros Hb Hk Hbit. apply byte_eq_bits. intros n.
  rewrite set_bit_spec by assumption.
  destruct (Z.eqb_spec n k) as [-> |]; congruence.
Qed.

Lemma clear_byte_id b k :
  is_u8 b -> 0 <= k < 8 -> Z.testbit b k = false ->
  u8 (Z.land b (Z.lnot (Z.shiftl 1 k))) = b.
Proof.
  intros Hb Hk Hbit. apply byte_eq_bits. intros n.
  rewrite clear_bit_spec by assumption.
  destruct (Z.eqb_spec n k) as [-> |]; congruence.
Qed.

(** Claim C10 as stated does not hold: on a well-formed 128x32 object
    whose pixel (0,0) is lit, [set_pixel] followed by [clear_pixel] at
    (0,0) does not give back the prior content. *)
Lemma set_then_clear_loses_lit_pixel :
  wf lit_corner /\ in_view lit_corner 0 0
  /\ (do d <- set_pixel lit_corner 0 0 in clear_pixel d 0 0) <> Done lit_corner.
Proof.
  split; [| split].
  - apply wfb_wf. vm_compute. reflexivity.
  - vm_compute. intuition congruence.
  - intros H.
    assert (Hp : match (do d <- set_pixel lit_corner 0 0 in clear_pixel d 0 0) with
                 | Done d => get_pixel d 0 0 | Fault _ => true end = get_pixel lit_corner 0 0)
      by (rewrite H; reflexivity).
    vm_compute in Hp. discriminate Hp.
Qed.

(** Claim C10, amended.  For every in-range [(x, y)] of a well-formed
    object both operations succeed; [set_pixel] then [clear_pixel] gives
    what [clear_pixel] alone gives (pixel off) and [clear_pixel] then
    [set_pixel] gives what [set_pixel] alone gives (pixel on), so the
    prior content comes back exactly when the pixel was off, respectively
    on, before; and each operation leaves every bit of the buffer other
    than bit [y mod 8] of the byte at column [x], page [y / 8]
    unchanged. *)
Theorem set_clear_pixel_single_bit (d : SSD1306) (x y : Z) :
  wf d -> in_view d x y ->
  exists d_on d_off,
    set_pixel d x y = Done d_on /\ clear_pixel d x y = Done d_off
    /\ clear_pixel d_on x y = Done d_off /\ set_pixel d_off x y = Done d_on
    /\ get_pixel d_on x y = true /\ get_pixel d_off x y = false
    /\ (get_pixel d x y = true -> d_on = d)
    /\ (get_pixel d x y = false -> d_off = d)
    /\ forall j n, ~ (j = pixel_index d x y /\ n = y mod 8) ->
         bit_at d_on j n = bit_at d j n /\ bit_at d_off j n = bit_at d j n.
Proof.
  intros Hwf Hv.
  destruct (pixel_addr d x y Hwf Hv) as (_ & Hlt & _ & Hk).
  pose proof (byte_at_is_u8 d (pixel_index d x y) Hwf) as Hb.
  set (i := pixel_index d x y) in *. set (b := byte_at d i) in *.
  set (d_on := poke d i (u8 (Z.lor b (Z.shiftl 1 (y mod 8))))).
  set (d_off := poke d i (u8 (Z.land b (Z.lnot (Z.shiftl 1 (y mod 8)))))).
  assert (Hwf_on : wf d_on) by (apply poke_wf; [assumption | apply u8_is_u8]).
  assert (Hwf_off : wf d_off) by (apply poke_wf; [assumption | apply u8_is_u8]).
  assert (Hon : forall n, bit_at d_on i n = if n =? y mod 8 then true else Z.testbit b n).
  { intros n. unfold bit_at, d_on. rewrite (poke_byte_at _ _ _ _ Hlt).
    destruct (decide (i = i)); [| congruence]. apply set_bit_spec; assumption. }
  assert (Hoff : forall n, bit_at d_off i n = if n =? y mod 8 then false else Z.testbit b n).
  { intros n. unfold bit_at, d_off. rewrite (poke_byte_at _ _ _ _ Hlt).
    destruct (decide (i = i)); [| congruence]. apply clear_bit_spec; assumption. }
  assert (Hbyte_on : byte_at d_on i = u8 (Z.lor b (Z.shiftl 1 (y mod 8)))).
  { unfold d_on. rewrite (poke_byte_at d i _ i Hlt).
    destruct (decide (i = i)); [reflexivity | congruence]. }
  assert (Hbyte_off : byte_at d_off i = u8 (Z.land b (Z.lnot (Z.shiftl 1 (y mod 8))))).
  { unfold d_off. rewrite (poke_byte_at d i _ i Hlt).
    destruct (decide (i = i)); [reflexivity | congruence]. }
  exists d_on, d_off. repeat apply conj.
  - apply set_pixel_in_view; assumption.
  - apply clear_pixel_in_view; assumption.
  - rewrite (clear_pixel_in_view d_on x y Hwf_on Hv).
    change (pixel_index d_on x y) with i.
    rewrite Hbyte_on, clear_after_set_byte by assumption.
    unfold d_on. rewrite poke_poke. reflexivity.
  - rewrite (set_pixel_in_view d_off x y Hwf_off Hv).
    change (pixel_index d_off x y) with i.
    rewrite Hbyte_off, set_after_clear_byte by assumption.
    unfold d_off. rewrite poke_poke. reflexivity.
  - unfold get_pixel. change (pixel_index d_on x y) with i.
    rewrite Hon, Z.eqb_refl. reflexivity.
  - unfold get_pixel. change (pixel_index d_off x y) with i.
    rewrite Hoff, Z.eqb_refl. reflexivity.
  - intros Hp. unfold d_on. rewrite set_byte_id; [apply poke_same | assumption .. ].
  - intros Hp. unfold d_off. rewrite clear_byte_id; [apply poke_same | assumption .. ].
  - intros j n Hne. split.
    + unfold bit_at, d_on. rewrite (poke_byte_at d i _ j Hlt).
      destruct (decide (j = i)) as [-> | Hj]; [| reflexivity].
      fold b. rewrite set_bit_spec by assumption.
      destruct (Z.eqb_spec n (y mod 8)); [tauto | reflexivity].
    + unfold bit_at, d_off. rewrite (poke_byte_at d i _ j Hlt).
      destruct (decide (j = i)) as [-> | Hj]; [| reflexivity].
      fold b. rewrite clear_bit_spec by assumption.
      destruct (Z.eqb_spec n (y mod 8)); [tauto | reflexivity].
Qed.

(** Claim C10 (amended) at pixel (5,9) of the blank 128x32 panel. *)
Lemma set_clear_pixel_single_bit_witness :
  (wf demo /\ in_view demo 5 9)
  /\ exists d_on d_off,
       set_pixel demo 5 9 = Done d_on /\ clear_pixel demo 5 9 = Done d_off
       /\ clear_pixel d_on 5 9 = Done d_off /\ set_pixel d_off 5 9 = Done d_on
       /\ get_pixel d_on 5 9 = true /\ get_pixel d_off 5 9 = false
       /\ (get_pixel demo 5 9 = true -> d_on = demo)
       /\ (get_pixel demo 5 9 = false -> d_off = demo)
       /\ forall j n, ~ (j = pixel_index demo 5 9 /\ n = 9 mod 8) ->
            bit_at d_on j n = bit_at demo j n /\ bit_at d_off j n = bit_at demo j n.
Proof.
  assert (Hv : in_view demo 5 9) by (unfold in_view; simpl; lia).
  split; [exact (conj demo_wf Hv) |].
  exact (set_clear_pixel_single_bit demo 5 9 demo_wf Hv).
Defined.

(* ================================================================== *)
(** * Lines: the loop of [draw_line] always reaches its end point *)
(* ================================================================== *)

(** Products that occur in the error term of the line loop, bounded by
    the full product. *)
Lemma err_products dx ady i j :
  0 <= i <= dx -> 0 <= j <= ady ->
  0 <= j * dx <= ady * dx /\ 0 <= i * ady <= ady * dx
  /\ (j < ady -> j * dx + dx <= ady * dx)
  /\ (i < dx -> i * ady + ady <= ady * dx)
  /\ (j = ady -> j * dx = ady * dx)
  /\ (i = dx -> i * ady = ady * dx).
Proof. intros Hi Hj. repeat split; intros; subst; nia. Qed.

Lemma u8_step x x2 s n :
  is_u8 x -> is_u8 x2 -> s = 1 \/ s = -1 -> 0 < n -> x2 = x + s * n ->
  u8 (x + s) = x + s.
Proof.
  intros Hx Hx2 Hs Hn Heq. apply u8_small. unfold is_u8 in *.
  destruct Hs; subst s; lia.
Qed.

Lemma line_trace_total fuel x2 y2 dx ady sx sy :
  sx = 1 \/ sx = -1 -> sy = 1 \/ sy = -1 ->
  0 <= dx <= 255 -> 0 <= ady <= 255 -> is_u8 x2 -> is_u8 y2 ->
  forall i j err x y,
    0 <= i <= dx -> 0 <= j <= ady ->
    err = (j + 1) * dx - (i + 1) * ady ->
    - 2 * ady <= err <= 2 * dx ->
    x2 = x + sx * (dx - i) -> y2 = y + sy * (ady - j) ->
    is_u8 x -> is_u8 y ->
    (dx - i) + (ady - j) < Z.of_nat fuel ->
    exists pts,
      line_trace fuel x2 y2 dx (- ady) sx sy err x y = Done ((x, y) :: pts)
      /\ walk sx sy (dx - i) (ady - j) x y pts.
Proof.
  intros Hsx Hsy Hdx Hady Hx2 Hy2.
  induction fuel as [| fuel IH]; intros i j err x y Hi Hj Herr Hb Hx Hy Hux Huy Hfuel.
  - simpl in Hfuel. lia.
  - cbn [line_trace].
    destruct (err_products dx ady i j Hi Hj) as (HP & HQ & HP' & HQ' & HPe & HQe).
    assert (Hend : ((x =? x2) && (y =? y2) = true /\ i = dx /\ j = ady)
                   \/ ((x =? x2) && (y =? y2) = false /\ (i < dx \/ j < ady))).
    { destruct (Z.eqb_spec x x2) as [Hxe | Hxe];
        [destruct (Z.eqb_spec y y2) as [Hye | Hye] |]; cbn [andb].
      - left. split; [reflexivity |].
        destruct Hsx, Hsy; subst sx sy; lia.
      - right. split; [reflexivity |]. right. destruct Hsy; subst sy; lia.
      - right. split; [reflexivity |]. left. destruct Hsx; subst sx; lia. }
    destruct Hend as [(-> & -> & ->) | (-> & Hmore)].
    + exists []. split; [reflexivity |]. rewrite !Z.sub_diag. constructor.
    + rewrite (i16_small (err * 2)) by lia.
      rewrite Z.geb_leb.
      destruct (Z.leb_spec (- ady) (err * 2)) as [Hxs | Hxs].
      * assert (Hi' : i < dx) by lia.
        rewrite (i16_small (err + - ady)) by lia.
        assert (Hux' : u8 (x + sx) = x + sx)
          by (apply (u8_step x x2 sx (dx - i)); (assumption || lia)).
        assert (Hux'' : is_u8 (x + sx)) by (rewrite <- Hux'; apply u8_is_u8).
        rewrite Hux'.
        destruct (Z.leb_spec (err * 2) dx) as [Hys | Hys].
        -- assert (Hj' : j < ady) by lia.
           rewrite (i16_small (err + - ady + dx)) by lia.
           assert (Huy' : u8 (y + sy) = y + sy)
             by (apply (u8_step y y2 sy (ady - j)); (assumption || lia)).
           assert (Huy'' : is_u8 (y + sy)) by (rewrite <- Huy'; apply u8_is_u8).
           rewrite Huy'.
           assert (Hrec := IH (i + 1) (j + 1) (err + - ady + dx) (x + sx) (y + sy)).
           destruct Hrec as (pts & -> & Hwalk); try assumption; try lia.
           exists ((x + sx, y + sy) :: pts). cbn [bind]. split; [reflexivity |].
           apply walk_xy; [lia | lia |].
           replace (dx - i - 1) with (dx - (i + 1)) by lia.
           replace (ady - j - 1) with (ady - (j + 1)) by lia. exact Hwalk.
        -- assert (Hrec := IH (i + 1) j (err + - ady) (x + sx) y).
           destruct Hrec as (pts & -> & Hwalk); try assumption; try lia.
           exists ((x + sx, y) :: pts). cbn [bind]. split; [reflexivity |].
           apply walk_x; [lia | lia |].
           replace (dx - i - 1) with (dx - (i + 1)) by lia. exact Hwalk.
      * destruct (Z.leb_spec (err * 2) dx) as [Hys | Hys]; [| lia].
        assert (Hj' : j < ady) by lia.
        rewrite (i16_small (err + dx)) by lia.
        assert (Huy' : u8 (y + sy) = y + sy)
          by (apply (u8_step y y2 sy (ady - j)); (assumption || lia)).
        assert (Huy'' : is_u8 (y + sy)) by (rewrite <- Huy'; apply u8_is_u8).
        rewrite Huy'.
        assert (Hrec := IH i (j + 1) (err + dx) x (y + sy)).
        destruct Hrec as (pts & -> & Hwalk); try assumption; try lia.
        exists ((x, y + sy) :: pts). cbn [bind]. split; [reflexivity |].
        apply walk_y; [lia | lia |].
        replace (ady - j - 1) with (ady - (j + 1)) by lia. exact Hwalk.
Qed.

(** Consequences of being a walk. *)
Lemma walk_nonneg sx sy n m x y pts : walk sx sy n m x y pts -> 0 <= n /\ 0 <= m.
Proof. induction 1; lia. Qed.

Lemma walk_last sx sy n m x y pts :
  walk sx sy n m x y pts ->
  last ((x, y) :: pts) = Some (x + sx * n, y + sy * m).
Proof.
  induction 1 as [x y | n m x y pts Hn Hm Hw IH | n m x y pts Hn Hm Hw IH
                  | n m x y pts Hn Hm Hw IH].
  - simpl. f_equal. f_equal; lia.
  - rewrite last_cons_cons, IH. f_equal. f_equal; lia.
  - rewrite last_cons_cons, IH. f_equal. f_equal; lia.
  - rewrite last_cons_cons, IH. f_equal. f_equal; lia.
Qed.

(** Every point of the walk lies in the box spanned by its two ends. *)
Lemma walk_box sx sy n m x y pts :
  walk sx sy n m x y pts ->
  Forall (fun p => exists k l, 0 <= k <= n /\ 0 <= l <= m
                      /\ p = (x + sx * k, y + sy * l)) ((x, y) :: pts).
Proof.
  induction 1 as [x y | n m x y pts Hn Hm Hw IH | n m x y pts Hn Hm Hw IH
                  | n m x y pts Hn Hm Hw IH].
  - constructor; [| constructor]. exists 0, 0. split; [lia |]. split; [lia |].
    f_equal; lia.
  - pose proof (walk_nonneg _ _ _ _ _ _ _ Hw).
    constructor.
    + exists 0, 0. split; [lia |]. split; [lia |]. f_equal; lia.
    + eapply Forall_impl; [exact IH |]. intros p (k & l & Hk & Hl & ->).
      exists (k + 1), l. split; [lia |]. split; [lia |]. f_equal; lia.
  - pose proof (walk_nonneg _ _ _ _ _ _ _ Hw).
    constructor.
    + exists 0, 0. split; [lia |]. split; [lia |]. f_equal; lia.
    + eapply Forall_impl; [exact IH |]. intros p (k & l & Hk & Hl & ->).
      exists k, (l + 1). split; [lia |]. split; [lia |]. f_equal; lia.
  - pose proof (walk_nonneg _ _ _ _ _ _ _ Hw).
    constructor.
    + exists 0, 0. split; [lia |]. split; [lia |]. f_equal; lia.
    + eapply Forall_impl; [exact IH |]. intros p (k & l & Hk & Hl & ->).
      exists (k + 1), (l + 1). split; [lia |]. split; [lia |]. f_equal; lia.
Qed.

Lemma on_points_cons p pts x y :
  on_points (p :: pts) x y = ((p.1 =? x) && (p.2 =? y)) || on_points pts x y.
Proof. reflexivity. Qed.

(** Every column between the two ends is visited. *)
Lemma walk_cover_x sx sy n m x y pts :
  walk sx sy n m x y pts ->
  forall k, 0 <= k <= n ->
  exists l, 0 <= l <= m /\ on_points ((x, y) :: pts) (x + sx * k) (y + sy * l) = true.
Proof.
  induction 1 as [x y | n m x y pts Hn Hm Hw IH | n m x y pts Hn Hm Hw IH
                  | n m x y pts Hn Hm Hw IH]; intros k Hk.
  - exists 0. split; [lia |]. rewrite on_points_cons. simpl.
    replace k with 0 by lia. rewrite !Z.mul_0_r, !Z.add_0_r, !Z.eqb_refl. reflexivity.
  - pose proof (walk_nonneg _ _ _ _ _ _ _ Hw).
    destruct (Z.eq_dec k 0) as [-> | Hk0].
    + exists 0. split; [lia |]. rewrite on_points_cons. simpl.
      rewrite !Z.mul_0_r, !Z.add_0_r, !Z.eqb_refl. reflexivity.
    + destruct (IH (k - 1)) as (l & Hl & Hon); [lia |].
      exists l. split; [lia |]. rewrite on_points_cons, orb_true_iff. right.
      replace (x + sx * k) with (x + sx + sx * (k - 1)) by lia. exact Hon.
  - pose proof (walk_nonneg _ _ _ _ _ _ _ Hw).
    destruct (IH k) as (l & Hl & Hon); [lia |].
    exists (l + 1). split; [lia |]. rewrite on_points_cons, orb_true_iff. right.
    replace (y + sy * (l + 1)) with (y + sy + sy * l) by lia. exact Hon.
  - pose proof (walk_nonneg _ _ _ _ _ _ _ Hw).
    destruct (Z.eq_dec k 0) as [-> | Hk0].
    + exists 0. split; [lia |]. rewrite on_points_cons. simpl.
      rewrite !Z.mul_0_r, !Z.add_0_r, !Z.eqb_refl. reflexivity.
    + destruct (IH (k - 1)) as (l & Hl & Hon); [lia |].
      exists (l + 1). split; [lia |]. rewrite on_points_cons, orb_true_iff. right.
      replace (x + sx * k) with (x + sx + sx * (k - 1)) by lia.
      replace (y + sy * (l + 1)) with (y + sy + sy * l) by lia. exact Hon.
Qed.

Lemma same_panel_refl d : same_panel d d.
Proof. split; reflexivity. Qed.

Lemma same_panel_trans d1 d2 d3 :
  same_panel d1 d2 -> same_panel d2 d3 -> same_panel d1 d3.
Proof. intros [H1 H2] [H3 H4]. split; congruence. Qed.

Lemma same_panel_in_view d d' x y :
  same_panel d d' -> in_view d x y -> in_view d' x y.
Proof. intros [Hw Hh] Hv. unfold in_view in *. rewrite Hw, Hh. exact Hv. Qed.

(** One plotted point, seen through [get_pixel]. *)
Lemma plot_get_pixel p_set d x y :
  wf d -> is_u8 x -> is_u8 y ->
  exists d', plot p_set d x y = Done d' /\ wf d' /\ same_panel d d'
    /\ forall x' y', in_view d x' y' ->
         get_pixel d' x' y'
         = if (x =? x') && (y =? y') then p_set else get_pixel d x' y'.
Proof.
  intros Hwf Hx Hy. unfold is_u8 in *.
  destruct (Z.lt_ge_cases x (width d)) as [Hxw | Hxw];
    [destruct (Z.lt_ge_cases y (height d)) as [Hyh | Hyh] |].
  - assert (Hv : in_view d x y) by (unfold in_view; lia).
    destruct (plot_in_view p_set d x y Hwf Hv) as (d' & Hp & Hwf' & Hsp & Hbits).
    exists d'. do 3 (split; [assumption |]).
    intros x' y' Hv'. unfold get_pixel.
    replace (pixel_index d' x' y') with (pixel_index d x' y')
      by (unfold pixel_index; destruct Hsp as [-> _]; reflexivity).
    rewrite Hbits.
    destruct (decide _) as [[Hi Hm] | Hne].
    + destruct (pixel_index_inj d x' y' x y Hwf Hv' Hv Hi Hm) as [-> ->].
      rewrite !Z.eqb_refl. reflexivity.
    + destruct (Z.eqb_spec x x') as [<- |]; [| reflexivity].
      destruct (Z.eqb_spec y y') as [<- |]; [| reflexivity].
      exfalso. apply Hne. split; reflexivity.
  - exists d. rewrite plot_out_of_view by lia.
    split; [reflexivity |]. split; [assumption |].
    split; [apply same_panel_refl |]. intros x' y' [Hx' Hy'].
    destruct (Z.eqb_spec y y'); [lia |]. rewrite andb_false_r. reflexivity.
  - exists d. rewrite plot_out_of_view by lia.
    split; [reflexivity |]. split; [assumption |].
    split; [apply same_panel_refl |]. intros x' y' [Hx' Hy'].
    destruct (Z.eqb_spec x x'); [lia |]. reflexivity.
Qed.

Lemma plot_all_spec p_set pts :
  Forall u8_point pts ->
  forall d, wf d ->
  exists d', plot_all p_set d pts = Done d' /\ wf d' /\ same_panel d d'
    /\ forall x y, in_view d x y ->
         get_pixel d' x y
         = if on_points pts x y then p_set else get_pixel d x y.
Proof.
  induction 1 as [| [px py] pts [Hpx Hpy] Hall IH]; intros d Hwf.
  - exists d. split; [reflexivity |]. split; [assumption |].
    split; [apply same_panel_refl |]. reflexivity.
  - cbn [plot_all]. simpl in Hpx, Hpy.
    destruct (plot_get_pixel p_set d px py Hwf Hpx Hpy) as (d1 & -> & Hwf1 & Hsp1 & Hpix1).
    cbn [bind].
    destruct (IH d1 Hwf1) as (d' & -> & Hwf' & Hsp' & Hpix').
    exists d'. split; [reflexivity |]. split; [assumption |].
    split; [exact (same_panel_trans _ _ _ Hsp1 Hsp') |].
    intros x y Hv.
    rewrite Hpix' by (apply (same_panel_in_view d); assumption).
    rewrite Hpix1 by assumption.
    unfold on_points. cbn [existsb fst snd].
    destruct (existsb _ pts); [rewrite orb_true_r; reflexivity |].
    rewrite orb_false_r. reflexivity.
Qed.

Lemma plot_all_app p_set pts1 pts2 d :
  plot_all p_set d (pts1 ++ pts2)
  = do d1 <- plot_all p_set d pts1 in plot_all p_set d1 pts2.
Proof.
  revert d. induction pts1 as [| [x y] pts1 IH]; intros d; [reflexivity |].
  cbn [plot_all app]. destruct (plot p_set d x y) as [d1 | f]; [| reflexivity].
  cbn [bind]. apply IH.
Qed.

(** The loop writes exactly the points of its trace, in order. *)
Lemma draw_line_loop_trace p_set x2 y2 dx dy sx sy fuel :
  forall d err x y, wf d -> is_u8 x -> is_u8 y ->
  draw_line_loop fuel d x2 y2 p_set dx dy sx sy err x y
  = do pts <- line_trace fuel x2 y2 dx dy sx sy err x y in plot_all p_set d pts.
Proof.
  induction fuel as [| fuel IH]; intros d err x y Hwf Hx Hy; [reflexivity |].
  cbn [draw_line_loop line_trace].
  destruct (plot_get_pixel p_set d x y Hwf Hx Hy) as (d1 & Hp & Hwf1 & _ & _).
  rewrite Hp. cbn [bind].
  destruct ((x =? x2) && (y =? y2)).
  - cbn [bind plot_all]. rewrite Hp. reflexivity.
  - set (e2 := i16 (err * 2)).
    destruct (e2 >=? dy); destruct (e2 <=? dx);
      (rewrite IH by (assumption || apply u8_is_u8);
       match goal with
       | |- context [line_trace fuel ?a ?b ?c ?e ?f ?g ?h ?i ?j] =>
           destruct (line_trace fuel a b c e f g h i j) as [rest | f0]
       end; cbn [bind plot_all]; [rewrite Hp |]; reflexivity).
Qed.

Lemma line_points_walk x1 y1 x2 y2 :
  is_u8 x1 -> is_u8 y1 -> is_u8 x2 -> is_u8 y2 ->
  exists pts,
    line_points x1 y1 x2 y2 = Done ((x1, y1) :: pts)
    /\ walk (if x1 <? x2 then 1 else -1) (if y1 <? y2 then 1 else -1)
            (Z.abs (x2 - x1)) (Z.abs (y2 - y1)) x1 y1 pts.
Proof.
  intros Hx1 Hy1 Hx2 Hy2. unfold line_points, draw_line_fuel.
  pose proof Hx1 as Hx1'. pose proof Hy1 as Hy1'.
  pose proof Hx2 as Hx2'. pose proof Hy2 as Hy2'.
  unfold is_u8 in Hx1', Hy1', Hx2', Hy2'.
  rewrite (i16_small (Z.abs (x2 - x1))) by lia.
  replace (Z.abs (y2 - y1) * -1) with (- Z.abs (y2 - y1)) by lia.
  rewrite (i16_small (- Z.abs (y2 - y1))) by lia.
  rewrite (i16_small (Z.abs (x2 - x1) + - Z.abs (y2 - y1))) by lia.
  destruct (line_trace_total 511 x2 y2 (Z.abs (x2 - x1)) (Z.abs (y2 - y1))
              (if x1 <? x2 then 1 else -1) (if y1 <? y2 then 1 else -1))
    with (i := 0) (j := 0) (x := x1) (y := y1)
         (err := Z.abs (x2 - x1) + - Z.abs (y2 - y1))
    as (pts & Htrace & Hwalk); try assumption; try lia.
  - destruct (x1 <? x2); [left | right]; reflexivity.
  - destruct (y1 <? y2); [left | right]; reflexivity.
  - destruct (Z.ltb_spec x1 x2); lia.
  - destruct (Z.ltb_spec y1 y2); lia.
  - exists pts. split; [exact Htrace |].
    rewrite !Z.sub_0_r in Hwalk. exact Hwalk.
Qed.

Lemma on_points_head x y pts : on_points ((x, y) :: pts) x y = true.
Proof. unfold on_points. cbn [existsb fst snd]. rewrite !Z.eqb_refl. reflexivity. Qed.

Lemma on_points_last pts x y : last pts = Some (x, y) -> on_points pts x y = true.
Proof.
  intros Hl. unfold on_points. apply existsb_exists. exists (x, y).
  split; [| simpl; rewrite !Z.eqb_refl; reflexivity].
  apply list_elem_of_In. apply last_Some_elem_of. exact Hl.
Qed.

Lemma on_points_elem pts x y : on_points pts x y = true <-> (x, y) ∈ pts.
Proof.
  unfold on_points. rewrite existsb_exists. split.
  - intros ([px py] & Hin & Heq). simpl in Heq.
    apply andb_true_iff in Heq as [H1 H2].
    apply Z.eqb_eq in H1, H2. subst. apply list_elem_of_In. exact Hin.
  - intros Hin. exists (x, y). split; [apply list_elem_of_In; exact Hin |].
    simpl. rewrite !Z.eqb_refl. reflexivity.
Qed.

Lemma on_points_app pts1 pts2 x y :
  on_points (pts1 ++ pts2) x y = on_points pts1 x y || on_points pts2 x y.
Proof. unfold on_points. apply existsb_app. Qed.

(** The points of a line: both ends are among them, all lie in the box
    spanned by the ends, and every column of that box is visited. *)
Lemma line_points_spec x1 y1 x2 y2 :
  is_u8 x1 -> is_u8 y1 -> is_u8 x2 -> is_u8 y2 ->
  exists pts,
    line_points x1 y1 x2 y2 = Done pts
    /\ Forall u8_point pts
    /\ on_points pts x1 y1 = true /\ on_points pts x2 y2 = true
    /\ (forall x y, on_points pts x y = true ->
          Z.min x1 x2 <= x <= Z.max x1 x2 /\ Z.min y1 y2 <= y <= Z.max y1 y2)
    /\ (forall c, Z.min x1 x2 <= c <= Z.max x1 x2 ->
          exists r, Z.min y1 y2 <= r <= Z.max y1 y2 /\ on_points pts c r = true).
Proof.
  intros Hx1 Hy1 Hx2 Hy2.
  destruct (line_points_walk x1 y1 x2 y2 Hx1 Hy1 Hx2 Hy2) as (pts & Hpts & Hwalk).
  pose proof (walk_last _ _ _ _ _ _ _ Hwalk) as Hlast.
  pose proof (walk_box _ _ _ _ _ _ _ Hwalk) as Hbox.
  pose proof (walk_cover_x _ _ _ _ _ _ _ Hwalk) as Hcover.
  unfold is_u8 in Hx1, Hy1, Hx2, Hy2.
  assert (Hex : x1 + (if x1 <? x2 then 1 else -1) * Z.abs (x2 - x1) = x2)
    by (destruct (Z.ltb_spec x1 x2); lia).
  assert (Hey : y1 + (if y1 <? y2 then 1 else -1) * Z.abs (y2 - y1) = y2)
    by (destruct (Z.ltb_spec y1 y2); lia).
  assert (Hin : forall x y, on_points ((x1, y1) :: pts) x y = true ->
            Z.min x1 x2 <= x <= Z.max x1 x2 /\ Z.min y1 y2 <= y <= Z.max y1 y2).
  { intros x y Hon. apply on_points_elem in Hon.
    rewrite Forall_forall in Hbox.
    destruct (Hbox _ Hon) as (k & l & Hk & Hl & Heq).
    injection Heq as -> ->.
    destruct (Z.ltb_spec x1 x2); destruct (Z.ltb_spec y1 y2); lia. }
  exists ((x1, y1) :: pts). split; [exact Hpts |].
  split; [| split; [apply on_points_head | split; [| split; [exact Hin |]]]].
  - apply Forall_forall. intros [x y] Hel. apply on_points_elem in Hel.
    apply Hin in Hel. unfold u8_point, is_u8. simpl. lia.
  - apply on_points_last. rewrite Hlast, Hex, Hey. reflexivity.
  - intros c Hc.
    destruct (Hcover (Z.abs (c - x1))) as (l & Hl & Hon); [lia |].
    exists (y1 + (if y1 <? y2 then 1 else -1) * l). split.
    + destruct (Z.ltb_spec y1 y2); lia.
    + replace c with (x1 + (if x1 <? x2 then 1 else -1) * Z.abs (c - x1))
        by (destruct (Z.ltb_spec x1 x2); lia).
      exact Hon.
Qed.

(** What [draw_line] does to a well-formed object. *)
Lemma draw_line_spec d x1 y1 x2 y2 p_set :
  wf d -> is_u8 x1 -> is_u8 y1 -> is_u8 x2 -> is_u8 y2 ->
  exists pts d',
    line_points x1 y1 x2 y2 = Done pts
    /\ Forall u8_point pts
    /\ draw_line d x1 y1 x2 y2 p_set = Done d'
    /\ plot_all p_set d pts = Done d'
    /\ wf d' /\ same_panel d d'
    /\ forall x y, in_view d x y ->
         get_pixel d' x y = if on_points pts x y then p_set else get_pixel d x y.
Proof.
  intros Hwf Hx1 Hy1 Hx2 Hy2.
  destruct (line_points_spec x1 y1 x2 y2 Hx1 Hy1 Hx2 Hy2) as (pts & Hpts & Hall & _).
  destruct (plot_all_spec p_set _ Hall d Hwf) as (d' & Hplot & Hwf' & Hsp & Hpix).
  exists pts, d'.
  split; [exact Hpts |]. split; [exact Hall |].
  split; [| split; [exact Hplot | split; [exact Hwf' | split; [exact Hsp | exact Hpix]]]].
  unfold draw_line. rewrite draw_line_loop_trace by assumption.
  unfold line_points in Hpts. rewrite Hpts. cbn [bind]. exact Hplot.
Qed.

(** Claim C7.  For every pair of [uint8_t] end points, on a well-formed
    object, [draw_line] finishes (the loop ends within its fuel, with no
    fault), and afterwards the pixels at [(x1, y1)] and at [(x2, y2)] hold
    [p_set] whenever they lie inside the visible area.  The single point,
    the horizontal and the vertical line are instances: the loop has no
    case of its own for them. *)
Theorem draw_line_endpoints (d : SSD1306) (x1 y1 x2 y2 : Z) (p_set : bool) :
  wf d -> is_u8 x1 -> is_u8 y1 -> is_u8 x2 -> is_u8 y2 ->
  exists d',
    draw_line d x1 y1 x2 y2 p_set = Done d'
    /\ wf d' /\ same_panel d d'
    /\ (in_view d x1 y1 -> get_pixel d' x1 y1 = p_set)
    /\ (in_view d x2 y2 -> get_pixel d' x2 y2 = p_set).
Proof.
  intros Hwf Hx1 Hy1 Hx2 Hy2.
  destruct (draw_line_spec d x1 y1 x2 y2 p_set Hwf Hx1 Hy1 Hx2 Hy2)
    as (pts & d' & Hpts & _ & Hdraw & _ & Hwf' & Hsp & Hpix).
  destruct (line_points_spec x1 y1 x2 y2 Hx1 Hy1 Hx2 Hy2)
    as (pts' & Hpts' & _ & Hfirst & Hlast & _).
  assert (pts' = pts) as -> by congruence.
  exists d'. split; [exact Hdraw |]. split; [exact Hwf' |]. split; [exact Hsp |].
  split; intros Hv; rewrite (Hpix _ _ Hv).
  - rewrite Hfirst. reflexivity.
  - rewrite Hlast. reflexivity.
Qed.

(** Claim C7 for the line from (3,3) to (7,5) on the blank 128x32 panel. *)
Lemma draw_line_endpoints_witness :
  (wf demo /\ is_u8 3 /\ is_u8 7 /\ is_u8 5)
  /\ exists d',
       draw_line demo 3 3 7 5 true = Done d'
       /\ wf d' /\ same_panel demo d'
       /\ (in_view demo 3 3 -> get_pixel d' 3 3 = true)
       /\ (in_view demo 7 5 -> get_pixel d' 7 5 = true).
Proof.
  assert (H3 : is_u8 3) by (unfold is_u8; lia).
  assert (H7 : is_u8 7) by (unfold is_u8; lia).
  assert (H5 : is_u8 5) by (unfold is_u8; lia).
  split; [exact (conj demo_wf (conj H3 (conj H7 H5))) |].
  exact (draw_line_endpoints demo 3 3 7 5 true demo_wf H3 H3 H7 H5).
Defined.

(* ================================================================== *)
(** * Boxes *)
(* ================================================================== *)

Lemma draw_box_rows_spec p_x p_y p_width fuel :
  is_u8 p_x -> is_u8 p_y ->
  forall d l_index, wf d -> is_u8 l_index ->
  Z.max 0 (l_index - p_y) < Z.of_nat fuel ->
  exists pts d',
    box_rows_points fuel p_x p_y p_width l_index = Done pts
    /\ Forall u8_point pts
    /\ draw_box_rows fuel d p_x p_y p_width l_index = Done d'
    /\ plot_all true d pts = Done d'
    /\ (forall x y, on_points pts x y = true -> p_y <= y < l_index)
    /\ (forall x y, p_y <= y < l_index ->
          Z.min p_x (u8 (p_x + p_width)) <= x <= Z.max p_x (u8 (p_x + p_width)) ->
          on_points pts x y = true).
Proof.
  intros Hx Hy. pose proof (u8_is_u8 (p_x + p_width)) as Hx2.
  induction fuel as [| fuel IH]; intros d l_index Hwf Hl Hfuel.
  - unfold is_u8 in *. simpl in Hfuel. lia.
  - cbn [box_rows_points draw_box_rows]. rewrite Z.gtb_ltb.
    destruct (Z.ltb_spec p_y l_index) as [Hgt | Hle].
    + assert (Hr : u8 (l_index - 1) = l_index - 1)
        by (apply u8_small; unfold is_u8 in *; lia).
      assert (Hru : is_u8 (l_index - 1)) by (rewrite <- Hr; apply u8_is_u8).
      rewrite Hr.
      destruct (draw_line_spec d p_x (l_index - 1) (u8 (p_x + p_width)) (l_index - 1)
                  true Hwf Hx Hru Hx2 Hru)
        as (row & d1 & Hrow & Hrow_u8 & Hdraw & Hplot & Hwf1 & _ & _).
      destruct (line_points_spec p_x (l_index - 1) (u8 (p_x + p_width)) (l_index - 1)
                  Hx Hru Hx2 Hru)
        as (row' & Hrow' & _ & _ & _ & Hbox & Hcover).
      assert (row' = row) as -> by congruence.
      destruct (IH d1 (l_index - 1) Hwf1 Hru) as
        (rest & d' & Hrest & Hrest_u8 & Hdraw' & Hplot' & Hin & Hall); [lia |].
      rewrite Hrow, Hdraw, Hrest. cbn [bind].
      exists (row ++ rest), d'. split; [reflexivity |].
      split; [apply Forall_app; split; assumption |].
      split; [exact Hdraw' |].
      split; [rewrite plot_all_app, Hplot; exact Hplot' |].
      split.
      * intros x y. rewrite on_points_app, orb_true_iff. intros [Hon | Hon].
        -- apply Hbox in Hon. lia.
        -- apply Hin in Hon. lia.
      * intros x y Hyr Hxr. rewrite on_points_app, orb_true_iff.
        destruct (Z.eq_dec y (l_index - 1)) as [-> | Hne].
        -- left. destruct (Hcover x Hxr) as (r & Hr' & Hon).
           replace r with (l_index - 1) in Hon by lia. exact Hon.
        -- right. apply Hall; [lia | exact Hxr].
    + exists [], d. split; [reflexivity |]. split; [constructor |].
      split; [reflexivity |]. split; [reflexivity |].
      split; [intros x y Hon; discriminate Hon | intros x y Hyr; lia].
Qed.

(** [draw_box] plots the points of [box_points]: with [true] when filled,
    with [p_set] otherwise. *)
Lemma draw_box_spec d p_x p_y p_width p_height p_filled p_set :
  wf d -> is_u8 p_x -> is_u8 p_y ->
  exists pts d',
    box_points p_x p_y p_width p_height p_filled = Done pts
    /\ draw_box d p_x p_y p_width p_height p_filled p_set = Done d'
    /\ wf d' /\ same_panel d d'
    /\ forall x y, in_view d x y ->
         get_pixel d' x y
         = if on_points pts x y then (if p_filled then true else p_set)
           else get_pixel d x y.
Proof.
  intros Hwf Hx Hy. unfold box_points, draw_box.
  pose proof (u8_is_u8 (p_x + p_width)) as Hx2.
  pose proof (u8_is_u8 (p_y + p_height)) as Hy2.
  destruct p_filled.
  - pose proof (u8_is_u8 (p_y + p_height + 1)) as Hl.
    destruct (draw_box_rows_spec p_x p_y p_width draw_box_fuel Hx Hy d _ Hwf Hl)
      as (pts & d' & Hpts & Hu8 & Hdraw & Hplot & _).
    { unfold draw_box_fuel, is_u8 in *. lia. }
    destruct (plot_all_spec true pts Hu8 d Hwf) as (d'' & Hplot' & Hwf' & Hsp & Hpix).
    assert (d'' = d') as -> by congruence.
    exists pts, d'. auto.
  - destruct (draw_line_spec d p_x p_y _ p_y p_set Hwf Hx Hy Hx2 Hy)
      as (top & d1 & -> & Hu1 & -> & Hp1 & Hwf1 & _ & _).
    cbn [bind].
    destruct (draw_line_spec d1 p_x _ _ _ p_set Hwf1 Hx Hy2 Hx2 Hy2)
      as (bottom & d2 & -> & Hu2 & -> & Hp2 & Hwf2 & _ & _).
    cbn [bind].
    destruct (draw_line_spec d2 p_x p_y p_x _ p_set Hwf2 Hx Hy Hx Hy2)
      as (left & d3 & -> & Hu3 & -> & Hp3 & Hwf3 & _ & _).
    cbn [bind].
    destruct (draw_line_spec d3 _ p_y _ _ p_set Hwf3 Hx2 Hy Hx2 Hy2)
      as (right & d4 & -> & Hu4 & -> & Hp4 & Hwf4 & _ & _).
    cbn [bind].
    assert (Hu : Forall u8_point (top ++ bottom ++ left ++ right))
      by (repeat (apply Forall_app; split); assumption).
    destruct (plot_all_spec p_set _ Hu d Hwf) as (d' & Hplot & Hwf' & Hsp & Hpix).
    assert (d' = d4) as ->.
    { rewrite plot_all_app, Hp1 in Hplot. cbn [bind] in Hplot.
      rewrite plot_all_app, Hp2 in Hplot. cbn [bind] in Hplot.
      rewrite plot_all_app, Hp3 in Hplot. cbn [bind] in Hplot. congruence. }
    exists (top ++ bottom ++ left ++ right), d4. auto.
Qed.

Lemma same_on_u8_spec f g :
  same_on_u8 f g = true ->
  forall x y, is_u8 x -> is_u8 y -> f x y = g x y.
Proof.
  unfold same_on_u8. rewrite forallb_forall. intros Hall x y Hx Hy.
  assert (Hinx : In x (seqZ 0 256))
    by (apply list_elem_of_In, elem_of_seqZ; unfold is_u8 in Hx; lia).
  specialize (Hall x Hinx). rewrite forallb_forall in Hall.
  assert (Hiny : In y (seqZ 0 256))
    by (apply list_elem_of_In, elem_of_seqZ; unfold is_u8 in Hy; lia).
  specialize (Hall y Hiny). apply eqb_prop in Hall. exact Hall.
Qed.

Lemma in_view_u8 d x y : wf d -> in_view d x y -> is_u8 x /\ is_u8 y.
Proof.
  intros Hwf [Hx Hy]. pose proof (wf_width d Hwf). pose proof (wf_height d Hwf).
  unfold is_u8 in *. lia.
Qed.

(** Claim C8.  On a well-formed object, [draw_box(10, 10, 20, 6, false)]
    turns on exactly the border of the 21-column by 7-row rectangle with
    corners (10,10) and (30,16), and [draw_box(10, 10, 20, 6, true)] turns
    on every pixel of that same rectangle; every other visible pixel keeps
    its value. *)
Theorem draw_box_21x7 (d : SSD1306) :
  wf d ->
  exists d_outline d_filled,
    draw_box d 10 10 20 6 false true = Done d_outline
    /\ draw_box d 10 10 20 6 true true = Done d_filled
    /\ forall x y, in_view d x y ->
         get_pixel d_outline x y
         = (if on_perimeter_21x7 x y then true else get_pixel d x y)
         /\ get_pixel d_filled x y
            = (if in_rect_21x7 x y then true else get_pixel d x y).
Proof.
  intros Hwf.
  assert (H10 : is_u8 10) by (unfold is_u8; lia).
  destruct (draw_box_spec d 10 10 20 6 false true Hwf H10 H10)
    as (po & d_outline & Hpo & Hdo & _ & _ & Hpixo).
  destruct (draw_box_spec d 10 10 20 6 true true Hwf H10 H10)
    as (pf & d_filled & Hpf & Hdf & _ & _ & Hpixf).
  assert (Hco : match box_points 10 10 20 6 false with
                | Done pts => same_on_u8 (on_points pts) on_perimeter_21x7
                | Fault _ => false
                end = true) by (vm_compute; reflexivity).
  assert (Hcf : match box_points 10 10 20 6 true with
                | Done pts => same_on_u8 (on_points pts) in_rect_21x7
                | Fault _ => false
                end = true) by (vm_compute; reflexivity).
  rewrite Hpo in Hco. rewrite Hpf in Hcf.
  exists d_outline, d_filled. split; [exact Hdo |]. split; [exact Hdf |].
  intros x y Hv. destruct (in_view_u8 d x y Hwf Hv) as [Hx Hy].
  rewrite (Hpixo x y Hv), (Hpixf x y Hv).
  rewrite (same_on_u8_spec _ _ Hco x y Hx Hy), (same_on_u8_spec _ _ Hcf x y Hx Hy).
  split; reflexivity.
Qed.

(** Claim C8 on the blank 128x32 panel. *)
Lemma draw_box_21x7_witness :
  wf demo
  /\ exists d_outline d_filled,
       draw_box demo 10 10 20 6 false true = Done d_outline
       /\ draw_box demo 10 10 20 6 true true = Done d_filled
       /\ forall x y, in_view demo x y ->
            get_pixel d_outline x y
            = (if on_perimeter_21x7 x y then true else get_pixel demo x y)
            /\ get_pixel d_filled x y
               = (if in_rect_21x7 x y then true else get_pixel demo x y).
Proof. split; [exact demo_wf | exact (draw_box_21x7 demo demo_wf)]. Defined.





(* ================================================================== *)
(** * Glyphs and text *)
(* ================================================================== *)

(** Any character outside 0x20..0x7E selects row 0x7F of [l_font]. *)
Lemma draw_char_unprintable d x y c p_set :
  c < 0x20 \/ c > 0x7E -> draw_char d x y c p_set = Fault OutOfBounds.
Proof.
  intros Hc. unfold draw_char.
  assert (Hsel : (c <? 0x20) || (c >? 0x7E) = true).
  { rewrite Z.gtb_ltb. destruct (Z.ltb_spec c 0x20); [reflexivity |].
    destruct (Z.ltb_spec 0x7E c); [reflexivity | lia]. }
  rewrite Hsel. reflexivity.
Qed.

(** Claim C1 fails on the code.  [l_font] has 96 rows and the [undef]
    glyph is row 95 (0x5F); for the control character 0x01 [draw_char]
    selects row 0x7F = 127, which is outside the table, so the read has no
    defined result and the [undef] pattern is not what is drawn. *)
Theorem draw_char_control_code_leaves_font_table :
  length l_font = 96%nat
  /\ l_font !! 95%nat = Some [0x06; 0x09; 0x51; 0x01; 0x02]
  /\ l_font !! 127%nat = None
  /\ draw_char demo 0 0 0x01 true = Fault OutOfBounds.
Proof.
  split; [reflexivity |]. split; [reflexivity |]. split; [reflexivity |].
  apply draw_char_unprintable. left. lia.
Qed.

(** Claim C3 fails on the code.  On the blank 128x32 panel,
    [draw_text(250, 0, "AB")] clips the 'A' at x-origin 250, but the
    x-origin of 'B', 250 + 6 = 256, is cut to [uint8_t] and becomes 0: the
    result is the panel with 'B' drawn at (0,0), and pixel (0,0) is lit. *)
Theorem draw_text_wraps_past_255 :
  width demo = 128
  /\ get_pixel demo 0 0 = false
  /\ draw_char demo 250 0 65 true = Done demo
  /\ exists d',
       draw_text demo 250 0 (c_str "AB") true = Done d'
       /\ draw_char demo 0 0 66 true = Done d'
       /\ get_pixel d' 0 0 = true.
Proof.
  split; [reflexivity |]. split; [reflexivity |].
  split; [vm_compute; reflexivity |].
  eexists. split; [vm_compute; reflexivity |].
  split; vm_compute; reflexivity.
Qed.

(* ================================================================== *)
(** * Command framing, initialisation and [render] *)
(* ================================================================== *)

Lemma u8_cmd_value c : u8 (cmd_value c) = cmd_value c.
Proof. destruct c; reflexivity. Qed.

Lemma u8_land_255 a : u8 (Z.land a 0xFF) = Z.land a 0xFF.
Proof.
  apply u8_small. unfold is_u8. change 0xFF with (Z.ones 8).
  rewrite Z.land_ones by lia. pose proof (Z.mod_pos_bound a (2 ^ 8)). lia.
Qed.

Lemma land_255_small a : is_u8 a -> Z.land a 0xFF = a.
Proof.
  intros Ha. change 0xFF with (Z.ones 8). rewrite Z.land_ones by lia.
  apply Z.mod_small. unfold is_u8 in Ha. lia.
Qed.

(** [write_cmd] is [send_units] applied to the units of the command. *)
Lemma write_cmd_send_units bus d p_cmd p_arg1 p_arg2 log :
  write_cmd bus d p_cmd p_arg1 p_arg2 log
  = send_units bus (address d) (cmd_units p_cmd p_arg1 p_arg2) log.
Proof.
  unfold write_cmd, cmd_units, seq_bus, write_buffer, ret.
  rewrite u8_cmd_value, !u8_land_255.
  destruct (p_arg1 >=? 0); destruct (p_arg2 >=? 0); cbn [app send_units];
    repeat match goal with
           | |- context [?b >? 0] => destruct (b >? 0); cbn [negb]
           end; reflexivity.
Qed.

Lemma send_units_all_ok bus addr units :
  forall log,
    (forall pre u post, units = pre ++ u :: post ->
       bus (log ++ to_address addr pre) addr u > 0) ->
    send_units bus addr units log = (true, log ++ to_address addr units).
Proof.
  induction units as [| u units IH]; intros log Hok.
  - simpl. unfold ret. rewrite app_nil_r. reflexivity.
  - cbn [send_units].
    pose proof (Hok [] u units eq_refl) as Hu. simpl in Hu. rewrite app_nil_r in Hu.
    destruct (Z.gtb_spec (bus log addr u) 0) as [_ | Hle]; [| lia].
    rewrite IH.
    + unfold to_address. cbn [map]. rewrite <- app_assoc. reflexivity.
    + intros pre u' post ->. rewrite <- app_assoc.
      apply (Hok (u :: pre) u' post). reflexivity.
Qed.

Lemma send_units_first_failure bus addr pre u post :
  forall log,
    (forall pre' u' post', pre = pre' ++ u' :: post' ->
       bus (log ++ to_address addr pre') addr u' > 0) ->
    bus (log ++ to_address addr pre) addr u <= 0 ->
    send_units bus addr (pre ++ u :: post) log
    = (false, log ++ to_address addr (pre ++ [u])).
Proof.
  induction pre as [| v pre IH]; intros log Hok Hfail.
  - simpl in *. rewrite app_nil_r in Hfail.
    destruct (Z.gtb_spec (bus log addr u) 0) as [Hgt | _]; [lia | reflexivity].
  - cbn [app send_units].
    pose proof (Hok [] v pre eq_refl) as Hv. simpl in Hv. rewrite app_nil_r in Hv.
    destruct (Z.gtb_spec (bus log addr v) 0) as [_ | Hle]; [| lia].
    rewrite IH.
    + unfold to_address. cbn [map app]. rewrite <- app_assoc. reflexivity.
    + intros pre' u' post' ->. rewrite <- app_assoc.
      apply (Hok (v :: pre') u' post'). reflexivity.
    + rewrite <- app_assoc. exact Hfail.
Qed.

(** Claim C5.  [write_cmd] sends the units of the command one by one,
    stopping at the first failed write.  With no, one or two arguments
    (an argument is present when it is not negative) the units are one,
    two or three 2-byte strings, each [0x00] followed by the opcode or the
    argument byte.  When every write succeeds exactly these units are
    written and the result is [true]; when the write of some unit is the
    first to fail, the units before it and that unit are the only ones
    written, and the result is [false]. *)
Theorem write_cmd_framing (bus : list xfer -> Z -> list Z -> Z)
    (d : SSD1306) (p_cmd : ssd1306_cmd_t) (p_arg1 p_arg2 : Z) (log : list xfer) :
  let units := cmd_units p_cmd p_arg1 p_arg2 in
  write_cmd bus d p_cmd p_arg1 p_arg2 log = send_units bus (address d) units log
  /\ (p_arg1 < 0 -> p_arg2 < 0 -> units = [[0x00; cmd_value p_cmd]])
  /\ (0 <= p_arg1 -> p_arg2 < 0 ->
      units = [[0x00; cmd_value p_cmd]; [0x00; Z.land p_arg1 0xFF]])
  /\ (0 <= p_arg1 -> 0 <= p_arg2 ->
      units = [[0x00; cmd_value p_cmd]; [0x00; Z.land p_arg1 0xFF];
               [0x00; Z.land p_arg2 0xFF]])
  /\ ((forall pre u post, units = pre ++ u :: post ->
         bus (log ++ to_address (address d) pre) (address d) u > 0) ->
      write_cmd bus d p_cmd p_arg1 p_arg2 log
      = (true, log ++ to_address (address d) units))
  /\ (forall pre u post, units = pre ++ u :: post ->
        (forall pre' u' post', pre = pre' ++ u' :: post' ->
           bus (log ++ to_address (address d) pre') (address d) u' > 0) ->
        bus (log ++ to_address (address d) pre) (address d) u <= 0 ->
        write_cmd bus d p_cmd p_arg1 p_arg2 log
        = (false, log ++ to_address (address d) (pre ++ [u]))).
Proof.
  intros units. pose proof (write_cmd_send_units bus d p_cmd p_arg1 p_arg2 log) as Heq.
  fold units in Heq.
  split; [exact Heq |].
  split; [| split; [| split; [| split]]].
  - intros H1 H2. unfold units, cmd_units. rewrite !Z.geb_leb.
    destruct (Z.leb_spec 0 p_arg1); [lia |].
    destruct (Z.leb_spec 0 p_arg2); [lia | reflexivity].
  - intros H1 H2. unfold units, cmd_units. rewrite !Z.geb_leb.
    destruct (Z.leb_spec 0 p_arg1); [| lia].
    destruct (Z.leb_spec 0 p_arg2); [lia | reflexivity].
  - intros H1 H2. unfold units, cmd_units. rewrite !Z.geb_leb.
    destruct (Z.leb_spec 0 p_arg1); [| lia].
    destruct (Z.leb_spec 0 p_arg2); [reflexivity | lia].
  - intros Hok. rewrite Heq. apply send_units_all_ok. exact Hok.
  - intros pre u post Hsplit Hok Hfail. rewrite Heq, Hsplit.
    apply send_units_first_failure; assumption.
Qed.

Lemma seq_bus_eq {A B : Type} (m : Bus A) (k : A -> Bus B) log :
  seq_bus m k log = k (m log).1 (m log).2.
Proof. unfold seq_bus. destruct (m log); reflexivity. Qed.

Lemma send_units_good bus addr units log :
  (forall log' u, length u = 2%nat -> bus log' addr u > 0) ->
  Forall (fun u => length u = 2%nat) units ->
  send_units bus addr units log = (true, log ++ to_address addr units).
Proof.
  intros Hok Hlen. apply send_units_all_ok. intros pre u post ->.
  apply Hok. rewrite Forall_app, Forall_cons in Hlen. tauto.
Qed.

Lemma cmd_units_length p_cmd p_arg1 p_arg2 :
  Forall (fun u => length u = 2%nat) (cmd_units p_cmd p_arg1 p_arg2).
Proof.
  unfold cmd_units. destruct (p_arg1 >=? 0); destruct (p_arg2 >=? 0);
    repeat constructor.
Qed.

Lemma send_sequence_good bus addr cmds :
  (forall log' u, length u = 2%nat -> bus log' addr u > 0) ->
  forall log,
    send_sequence bus addr cmds log
    = log ++ to_address addr
               (concat (map (fun c => cmd_units c.1 (nth 0 c.2 (-1)) (nth 1 c.2 (-1)))
                            cmds)).
Proof.
  intros Hok. induction cmds as [| c cmds IH]; intros log.
  - simpl. rewrite app_nil_r. reflexivity.
  - cbn [send_sequence map concat]. rewrite send_units_good by (exact Hok || apply cmd_units_length).
    cbn [snd]. rewrite IH. unfold to_address. rewrite map_app, app_assoc.
    reflexivity.
Qed.

(** With every argument a byte, the units of the code are those of the
    specification. *)
Lemma init_sequence_units p_height p_ext_vcc :
  1 <= p_height <= 255 ->
  concat (map (fun c => cmd_units c.1 (nth 0 c.2 (-1)) (nth 1 c.2 (-1)))
              (init_sequence p_height p_ext_vcc))
  = concat (map units_of (init_sequence p_height p_ext_vcc)).
Proof.
  intros Hh. unfold init_sequence, units_of, cmd_units.
  cbn [map concat nth fst snd app].
  assert (Hge : (p_height - 1 >=? 0) = true)
    by (rewrite Z.geb_leb; apply Z.leb_le; lia).
  rewrite Hge, (land_255_small (p_height - 1)) by (unfold is_u8; lia).
  destruct p_ext_vcc; destruct (p_height =? 64); reflexivity.
Qed.

(** The constructor in one equation: the object it builds, and the
    sixteen commands sent through [send_units] in the order of
    [init_sequence]. *)
Lemma SSD1306_new_eq bus p_width p_height p_address p_ext_vcc heap log :
  is_u8 p_height ->
  SSD1306_new bus p_width p_height p_address p_ext_vcc heap log
  = (mkSSD1306 p_width p_height (u8 ((p_height + 7) / 8)) p_address p_ext_vcc
               heap (p_width * u8 ((p_height + 7) / 8) + 1),
     send_sequence bus p_address (init_sequence p_height p_ext_vcc) log).
Proof.
  intros Hh. unfold SSD1306_new. rewrite !seq_bus_eq, !write_cmd_send_units.
  cbn [height external_vcc address].
  rewrite (i16_small (p_height - 1)) by (unfold is_u8 in Hh; lia).
  reflexivity.
Qed.

(** Claim C6.  Construction sends the sixteen initialisation commands in
    the order display-off, clock divider, multiplex ratio [height - 1],
    display offset 0, start line, charge pump (0x10 with external power,
    else 0x14), memory mode 0 (page-horizontal), segment remap, COM scan
    direction, COM pins (0x12 when [height = 64], else 0x02), contrast
    0xFF, pre-charge (0x22 with external power, else 0xF1), VCOM deselect
    level, display-all-on, normal display, display-on.  For any transport
    the traffic is that of these commands taken one after the other; when
    the transport accepts every 2-byte write and [height >= 1], the bus
    carries exactly their units, opcode then argument, in this order. *)
Theorem SSD1306_new_init_sequence (bus : list xfer -> Z -> list Z -> Z)
    (p_width p_height p_address : Z) (p_ext_vcc : bool) (heap : list Z)
    (log : list xfer) :
  is_u8 p_height ->
  SSD1306_new bus p_width p_height p_address p_ext_vcc heap log
  = (mkSSD1306 p_width p_height (u8 ((p_height + 7) / 8)) p_address p_ext_vcc
               heap (p_width * u8 ((p_height + 7) / 8) + 1),
     send_sequence bus p_address (init_sequence p_height p_ext_vcc) log)
  /\ ((forall log' u, length u = 2%nat -> bus log' p_address u > 0) ->
      1 <= p_height ->
      send_sequence bus p_address (init_sequence p_height p_ext_vcc) log
      = log ++ to_address p_address
                 (concat (map units_of (init_sequence p_height p_ext_vcc)))).
Proof.
  intros Hh. split.
  - apply SSD1306_new_eq. exact Hh.
  - intros Hok H1. rewrite send_sequence_good by exact Hok.
    rewrite init_sequence_units by (unfold is_u8 in Hh; lia). reflexivity.
Qed.

(** Claim C6 on a 128x32 panel with internal power, on a transport that
    accepts every write. *)
Lemma SSD1306_new_init_sequence_witness :
  is_u8 32
  /\ (SSD1306_new good_bus 128 32 0x3C false (replicate 513 0) []).2
     = to_address 0x3C
         [ [0x00; 0xAE]; [0x00; 0xD5]; [0x00; 0x80]; [0x00; 0xA8]; [0x00; 31];
           [0x00; 0xD3]; [0x00; 0x00]; [0x00; 0x40]; [0x00; 0x8D]; [0x00; 0x14];
           [0x00; 0x20]; [0x00; 0x00]; [0x00; 0xA1]; [0x00; 0xC8];
           [0x00; 0xDA]; [0x00; 0x02]; [0x00; 0x81]; [0x00; 0xFF];
           [0x00; 0xD9]; [0x00; 0xF1]; [0x00; 0xDB]; [0x00; 0x40];
           [0x00; 0xA4]; [0x00; 0xA6]; [0x00; 0xAF] ].
Proof.
  assert (H32 : is_u8 32) by (unfold is_u8; lia).
  split; [exact H32 |].
  destruct (SSD1306_new_init_sequence good_bus 128 32 0x3C false
              (replicate 513 0) [] H32) as [Hnew Hwire].
  rewrite Hnew. cbn [snd]. rewrite Hwire.
  - reflexivity.
  - intros log' u Hu. unfold good_bus. rewrite Hu. lia.
  - lia.
Defined.

(** The object built by the constructor is well formed. *)
Lemma SSD1306_new_wf bus p_width p_height p_address p_ext_vcc heap log :
  is_u8 p_width -> is_u8 p_height ->
  Z.of_nat (length heap) = p_width * ((p_height + 7) / 8) + 1 ->
  Forall is_u8 heap ->
  wf (SSD1306_new bus p_width p_height p_address p_ext_vcc heap log).1.
Proof.
  intros Hw Hh Hlen Hbytes.
  rewrite (SSD1306_new_eq bus p_width p_height p_address p_ext_vcc heap log Hh).
  cbn [fst].
  assert (Hp : u8 ((p_height + 7) / 8) = (p_height + 7) / 8).
  { apply u8_small. unfold is_u8 in *. split; [apply Z.div_pos; lia |].
    apply Z.div_lt_upper_bound; lia. }
  constructor; cbn; rewrite ?Hp; try assumption; reflexivity.
Qed.

(** Claim C2 as stated does not hold: on a transport where every write
    fails, the first write of [render] (the page-address opcode) fails,
    yet it is not the only write of that [render]. *)
Lemma render_continues_after_failed_write :
  ~ (dead_bus [] (address demo) [0x00; cmd_value PAGEADDR] <= 0 ->
     (render dead_bus demo []).2 = [(address demo, [0x00; cmd_value PAGEADDR])]).
Proof.
  intros H.
  assert (Hfail : dead_bus [] (address demo) [0x00; cmd_value PAGEADDR] <= 0)
    by (unfold dead_bus; lia).
  specialize (H Hfail). apply (f_equal length) in H.
  vm_compute in H. discriminate H.
Qed.

(** Claim C2, amended.  Whatever the transport answers, [render] runs
    the page-address command, then the column-address command (a failed
    write ends only the command it belongs to), then always writes the
    screen buffer with its first byte set to 0x40 as the last bus write;
    what it hands back, the object with that byte set, is the same for
    every transport: no failure is reported to the caller. *)
Theorem render_ignores_write_failures (bus : list xfer -> Z -> list Z -> Z)
    (d : SSD1306) (log : list xfer) :
  let framed := <[0%nat := 0x40]> (screen_buffer d) in
  let log1 :=
    (send_units bus (address d)
       (cmd_units PAGEADDR 0 (i16 (pagesize d - 1))) log).2 in
  let log2 :=
    (send_units bus (address d)
       (cmd_units COLUMNADDR 0 (i16 (width d - 1))) log1).2 in
  render bus d log
  = (with_screen d framed,
     log2 ++ [(address d, take (Z.to_nat (screen_buffer_sz d)) framed)]).
Proof.
  cbv zeta. unfold render. rewrite !seq_bus_eq, !write_cmd_send_units.
  reflexivity.
Qed.

(* ================================================================== *)
(** * Further properties: [clear] and [render] *)
(* ================================================================== *)

Lemma lit_corner_wf : wf lit_corner.
Proof. apply wfb_wf. vm_compute. reflexivity. Qed.

Lemma byte_at_replicate_zero d n :
  screen_buffer d = replicate n 0 -> forall i, byte_at d i = 0.
Proof.
  intros Hbuf i. unfold byte_at. rewrite Hbuf.
  destruct (replicate n 0 !! i) as [b |] eqn:Hb; [| reflexivity].
  apply lookup_replicate in Hb as [-> _]. reflexivity.
Qed.

(** [clear] on a well-formed object: every byte of the block is zero
    afterwards (the leading control byte too), so every pixel is off, and
    the dimensions and the size of the block are kept. *)
Theorem clear_zeroes (d : SSD1306) :
  wf d ->
  wf (clear d) /\ same_panel d (clear d)
  /\ screen_buffer (clear d) = replicate (length (screen_buffer d)) 0
  /\ (forall i, byte_at (clear d) i = 0)
  /\ (forall x y, get_pixel (clear d) x y = false).
Proof.
  intros Hwf. pose proof (wf_length d Hwf) as Hlen.
  assert (Hbuf : screen_buffer (clear d) = replicate (length (screen_buffer d)) 0).
  { unfold clear. cbn [screen_buffer with_screen].
    rewrite <- Hlen, Nat2Z.id, drop_all, app_nil_r. reflexivity. }
  split; [| split; [split; reflexivity | split; [exact Hbuf | split]]].
  - destruct Hwf as [H1 H2 H3 H4 H5 H6].
    constructor; try assumption.
    + rewrite Hbuf, length_replicate. exact H5.
    + rewrite Hbuf. apply Forall_replicate. unfold is_u8. lia.
  - apply (byte_at_replicate_zero _ _ Hbuf).
  - intros x y. unfold get_pixel, bit_at.
    rewrite (byte_at_replicate_zero _ _ Hbuf). apply Z.bits_0.
Qed.

Lemma clear_zeroes_witness :
  wf lit_corner
  /\ get_pixel lit_corner 0 0 = true
  /\ get_pixel (clear lit_corner) 0 0 = false.
Proof.
  pose proof lit_corner_wf as Hwf.
  split; [exact Hwf |]. split; [reflexivity |].
  destruct (clear_zeroes lit_corner Hwf) as (_ & _ & _ & _ & Hpix).
  apply Hpix.
Defined.

(** [render] in one equation (for every transport). *)
Lemma render_eq bus d log :
  render bus d log
  = (with_screen d (<[0%nat := 0x40]> (screen_buffer d)),
     (send_units bus (address d) (cmd_units COLUMNADDR 0 (i16 (width d - 1)))
        (send_units bus (address d)
           (cmd_units PAGEADDR 0 (i16 (pagesize d - 1))) log).2).2
     ++ [(address d,
          take (Z.to_nat (screen_buffer_sz d))
               (<[0%nat := 0x40]> (screen_buffer d)))]).
Proof.
  unfold render. rewrite !seq_bus_eq, !write_cmd_send_units. reflexivity.
Qed.

(** [render] touches no pixel: whatever the transport answers, the object
    it leaves is well formed, has the same dimensions, holds 0x40 in the
    leading control byte and has every other byte, hence every pixel, as
    before. *)
Theorem render_keeps_pixels (bus : list xfer -> Z -> list Z -> Z)
    (d : SSD1306) (log : list xfer) :
  wf d ->
  let d' := (render bus d log).1 in
  wf d' /\ same_panel d d'
  /\ byte_at d' 0 = 0x40
  /\ (forall i, (0 < i)%nat -> byte_at d' i = byte_at d i)
  /\ (forall x y, in_view d x y -> get_pixel d' x y = get_pixel d x y).
Proof.
  intros Hwf d'. subst d'. rewrite render_eq. cbn [fst].
  change (with_screen d (<[0%nat := 0x40]> (screen_buffer d))) with (poke d 0 0x40).
  assert (Hlt : (0 < length (screen_buffer d))%nat).
  { pose proof (wf_length d Hwf). pose proof (wf_size d Hwf).
    pose proof (wf_pagesize d Hwf). pose proof (wf_width d Hwf).
    pose proof (wf_height d Hwf). unfold is_u8 in *.
    assert (0 <= (height d + 7) / 8) by (apply Z.div_pos; lia). nia. }
  split; [apply poke_wf; [exact Hwf | unfold is_u8; lia] |].
  split; [split; reflexivity |].
  split; [rewrite (poke_byte_at d 0 _ 0%nat Hlt); reflexivity |].
  split.
  - intros i Hi. rewrite (poke_byte_at d 0 _ i Hlt).
    destruct (decide (i = 0%nat)); [lia | reflexivity].
  - intros x y Hv. unfold get_pixel, bit_at.
    change (pixel_index (poke d 0 0x40) x y) with (pixel_index d x y).
    rewrite (poke_byte_at d 0 _ _ Hlt).
    destruct (decide (pixel_index d x y = 0%nat)) as [H0 | _]; [| reflexivity].
    exfalso. unfold pixel_index, screen_ptr in H0. destruct Hv as [Hx Hy].
    pose proof (wf_width d Hwf) as Hw. unfold is_u8 in Hw.
    assert (0 <= y / 8) by (apply Z.div_pos; lia). nia.
Qed.

Lemma render_keeps_pixels_witness :
  wf lit_corner /\ get_pixel (render dead_bus lit_corner []).1 0 0 = true.
Proof.
  pose proof lit_corner_wf as Hwf.
  split; [exact Hwf |].
  destruct (render_keeps_pixels dead_bus lit_corner [] Hwf) as (_ & _ & _ & _ & Hpix).
  rewrite Hpix; [reflexivity | unfold in_view; simpl; lia].
Defined.

(* ================================================================== *)
(** * Further properties: the command side *)
(* ================================================================== *)

Lemma pagesize_bounds d : wf d -> 1 <= height d -> 1 <= pagesize d <= 32.
Proof.
  intros Hwf Hh. rewrite (wf_pagesize d Hwf).
  pose proof (wf_height d Hwf) as Hu. unfold is_u8 in Hu.
  Z.div_mod_to_equations. lia.
Qed.

(** Render framing.  On a well-formed object with at least one column and
    one row, over a transport that accepts the 2-byte command units,
    [render] writes, in this order: the page-address command with range
    [0 .. pagesize - 1], the column-address command with range
    [0 .. width - 1], each as three 2-byte units, and then one write of
    [width * pagesize + 1] bytes: 0x40 followed by the pixel bytes. *)
Theorem render_framing (bus : list xfer -> Z -> list Z -> Z)
    (d : SSD1306) (log : list xfer) :
  wf d -> 1 <= width d -> 1 <= height d ->
  (forall log' u, length u = 2%nat -> bus log' (address d) u > 0) ->
  (render bus d log).2
  = log ++ to_address (address d)
             [ [0x00; 0x22]; [0x00; 0]; [0x00; pagesize d - 1];
               [0x00; 0x21]; [0x00; 0]; [0x00; width d - 1];
               0x40 :: tail (screen_buffer d) ]
  /\ Z.of_nat (length (0x40 :: tail (screen_buffer d)))
     = width d * pagesize d + 1.
Proof.
  intros Hwf Hw Hh Hok.
  pose proof (pagesize_bounds d Hwf Hh) as Hp.
  pose proof (wf_width d Hwf) as Hwu. unfold is_u8 in Hwu.
  pose proof (wf_length d Hwf) as Hlen. pose proof (wf_size d Hwf) as Hsz.
  destruct (screen_buffer d) as [| b0 rest] eqn:Hbuf.
  { simpl in Hlen. nia. }
  split.
  - rewrite render_eq. cbn [snd].
    rewrite (i16_small (pagesize d - 1)), (i16_small (width d - 1)) by lia.
    rewrite !send_units_good by (exact Hok || apply cmd_units_length).
    cbn [snd]. unfold cmd_units.
    assert (Hg1 : (pagesize d - 1 >=? 0) = true)
      by (rewrite Z.geb_leb; apply Z.leb_le; lia).
    assert (Hg2 : (width d - 1 >=? 0) = true)
      by (rewrite Z.geb_leb; apply Z.leb_le; lia).
    rewrite Hg1, Hg2.
    rewrite (land_255_small (pagesize d - 1)), (land_255_small (width d - 1))
      by (unfold is_u8; lia).
    rewrite Hbuf. cbn [tail].
    replace (take (Z.to_nat (screen_buffer_sz d)) (<[0%nat:=64]> (b0 :: rest)))
      with (64 :: rest).
    + unfold to_address. cbn. rewrite <- !app_assoc. reflexivity.
    + rewrite <- Hlen, Nat2Z.id. cbn [length]. cbn. rewrite take_ge by lia.
      reflexivity.
  - cbn [tail length] in *. lia.
Qed.

Lemma render_framing_witness :
  (wf demo /\ 1 <= width demo /\ 1 <= height demo)
  /\ (render good_bus demo []).2
     = to_address 0x3C
         [ [0x00; 0x22]; [0x00; 0]; [0x00; 3];
           [0x00; 0x21]; [0x00; 0]; [0x00; 127];
           0x40 :: replicate 512 0 ].
Proof.
  assert (H1 : 1 <= width demo) by (simpl; lia).
  assert (H2 : 1 <= height demo) by (simpl; lia).
  split; [exact (conj demo_wf (conj H1 H2)) |].
  destruct (render_framing good_bus demo [] demo_wf H1 H2) as [Hwire _].
  - intros log' u Hu. unfold good_bus. rewrite Hu. lia.
  - rewrite Hwire. reflexivity.
Defined.

(** What [send_units] leaves on the bus: a non-empty initial part of the
    units, all of them when it reports success. *)
Lemma send_units_sent bus addr units :
  forall log, exists k,
    (k <= length units)%nat
    /\ (units <> [] -> (1 <= k)%nat)
    /\ (send_units bus addr units log).2 = log ++ to_address addr (take k units)
    /\ ((send_units bus addr units log).1 = true -> k = length units).
Proof.
  induction units as [| u units IH]; intros log.
  - exists 0%nat. simpl. rewrite app_nil_r. repeat split; try lia. congruence.
  - cbn [send_units]. destruct (bus log addr u >? 0).
    + destruct (IH (log ++ [(addr, u)])) as (k & Hk & _ & Hlog & Hres).
      exists (S k). cbn [length take]. split; [lia |]. split; [lia |].
      split.
      * rewrite Hlog. unfold to_address. cbn [map]. rewrite <- app_assoc.
        reflexivity.
      * intros Ht. rewrite (Hres Ht). reflexivity.
    + exists 1%nat. cbn [length take fst snd]. split; [lia |]. split; [lia |].
      split; [rewrite take_0; reflexivity | discriminate].
Qed.

(** [write_cmd] never writes fewer than one or more than three times;
    every write is to the device's own address and is a 2-byte string
    that starts with the control byte 0x00, the first one carrying the
    opcode; earlier traffic is left as it was; and the result is [true]
    only when every unit of the command was written. *)
Theorem write_cmd_writes (bus : list xfer -> Z -> list Z -> Z)
    (d : SSD1306) (p_cmd : ssd1306_cmd_t) (p_arg1 p_arg2 : Z) (log : list xfer) :
  exists sent,
    (write_cmd bus d p_cmd p_arg1 p_arg2 log).2
    = log ++ to_address (address d) sent
    /\ (1 <= length sent <= 3)%nat
    /\ head sent = Some [0x00; cmd_value p_cmd]
    /\ Forall (fun u => exists b, u = [0x00; b] /\ is_u8 b) sent
    /\ ((write_cmd bus d p_cmd p_arg1 p_arg2 log).1 = true ->
        sent = cmd_units p_cmd p_arg1 p_arg2).
Proof.
  rewrite write_cmd_send_units.
  destruct (send_units_sent bus (address d) (cmd_units p_cmd p_arg1 p_arg2) log)
    as (k & Hk & Hk1 & Hlog & Hres).
  assert (Hne : cmd_units p_cmd p_arg1 p_arg2 <> []) by (unfold cmd_units; discriminate).
  specialize (Hk1 Hne).
  assert (Hlen : (length (cmd_units p_cmd p_arg1 p_arg2) <= 3)%nat).
  { unfold cmd_units. destruct (p_arg1 >=? 0); destruct (p_arg2 >=? 0); simpl; lia. }
  assert (Hshape : Forall (fun u => exists b, u = [0x00; b] /\ is_u8 b)
                     (cmd_units p_cmd p_arg1 p_arg2)).
  { assert (Hland : forall a, is_u8 (Z.land a 0xFF))
      by (intros a; rewrite <- u8_land_255; apply u8_is_u8).
    assert (Hcmd : is_u8 (cmd_value p_cmd))
      by (rewrite <- u8_cmd_value; apply u8_is_u8).
    unfold cmd_units. destruct (p_arg1 >=? 0); destruct (p_arg2 >=? 0); cbn [app];
      repeat constructor; eexists; split; try reflexivity; auto. }
  exists (take k (cmd_units p_cmd p_arg1 p_arg2)).
  split; [exact Hlog |].
  split; [rewrite length_take; lia |].
  split.
  - destruct k as [| k]; [lia |]. reflexivity.
  - split; [apply Forall_take; exact Hshape |].
    intros Ht. rewrite (Hres Ht). apply firstn_all.
Qed.


(** [set_contrast] sends the contrast opcode and then, when that write
    was accepted, the value itself as the argument byte: every value of
    the [uint8_t] range, 0 included, goes out unchanged.  The result of
    the second write is not looked at. *)
Theorem set_contrast_traffic (bus : list xfer -> Z -> list Z -> Z)
    (d : SSD1306) (p_contrast : Z) (log : list xfer) :
  is_u8 p_contrast ->
  (set_contrast bus d p_contrast log).2
  = if bus log (address d) [0x00; 0x81] >? 0
    then log ++ to_address (address d) [[0x00; 0x81]; [0x00; p_contrast]]
    else log ++ to_address (address d) [[0x00; 0x81]].
Proof.
  intros Hc. unfold set_contrast. rewrite seq_bus_eq, write_cmd_send_units.
  unfold ret. cbn [snd]. unfold cmd_units.
  assert (Hge : (p_contrast >=? 0) = true)
    by (rewrite Z.geb_leb; apply Z.leb_le; unfold is_u8 in Hc; lia).
  rewrite Hge, (land_255_small p_contrast Hc).
  cbn [Z.geb Z.compare app send_units cmd_value].
  destruct (bus log (address d) [0; 129] >? 0); [| reflexivity].
  destruct (bus _ (address d) [0; p_contrast] >? 0);
    cbn [snd ret]; unfold to_address; cbn [map]; rewrite <- app_assoc; reflexivity.
Qed.

Lemma set_contrast_traffic_witness :
  is_u8 0
  /\ (set_contrast good_bus demo 0 []).2 = to_address 0x3C [[0x00; 0x81]; [0x00; 0]].
Proof.
  assert (H0 : is_u8 0) by (unfold is_u8; lia).
  split; [exact H0 |].
  rewrite (set_contrast_traffic good_bus demo 0 [] H0). reflexivity.
Defined.

(** [set_invert] makes exactly one bus write, whatever the transport
    answers: the invert opcode 0xA7 for [true], the normal-display opcode
    0xA6 for [false]. *)
Theorem set_invert_traffic (bus : list xfer -> Z -> list Z -> Z)
    (d : SSD1306) (p_invert : bool) (log : list xfer) :
  (set_invert bus d p_invert log).2
  = log ++ [(address d, [0x00; if p_invert then 0xA7 else 0xA6])].
Proof.
  unfold set_invert. destruct p_invert;
    rewrite seq_bus_eq, write_cmd_send_units; unfold ret; cbn [snd];
    unfold cmd_units; cbn [Z.geb Z.compare app send_units cmd_value];
    destruct (bus log (address d) _ >? 0); reflexivity.
Qed.

(** The object the constructor builds: the parameters as given, a page
    count of [height] divided by 8 and rounded up, and the heap block
    exactly as it was allocated (it is not cleared).  The object is well
    formed, and it is the same whatever the transport answered to the
    initialisation commands. *)
Theorem SSD1306_new_object (bus : list xfer -> Z -> list Z -> Z)
    (p_width p_height p_address : Z) (p_ext_vcc : bool) (heap : list Z)
    (log : list xfer) :
  is_u8 p_width -> is_u8 p_height ->
  Z.of_nat (length heap) = p_width * ((p_height + 7) / 8) + 1 ->
  Forall is_u8 heap ->
  let d := (SSD1306_new bus p_width p_height p_address p_ext_vcc heap log).1 in
  wf d
  /\ width d = p_width /\ height d = p_height
  /\ pagesize d = (p_height + 7) / 8
  /\ address d = p_address /\ external_vcc d = p_ext_vcc
  /\ screen_buffer d = heap
  /\ forall bus' log',
       (SSD1306_new bus' p_width p_height p_address p_ext_vcc heap log').1 = d.
Proof.
  intros Hw Hh Hlen Hbytes d.
  assert (Hwf : wf d) by (apply SSD1306_new_wf; assumption).
  subst d. rewrite SSD1306_new_eq in * by exact Hh. cbn [fst] in *.
  split; [exact Hwf |].
  split; [reflexivity |]. split; [reflexivity |].
  split; [exact (wf_pagesize _ Hwf) |].
  split; [reflexivity |]. split; [reflexivity |]. split; [reflexivity |].
  intros bus' log'. rewrite SSD1306_new_eq by exact Hh. reflexivity.
Qed.

Lemma SSD1306_new_object_witness :
  (is_u8 128 /\ is_u8 32)
  /\ (SSD1306_new dead_bus 128 32 0x3C false (replicate 513 7) []).1
     = mkSSD1306 128 32 4 0x3C false (replicate 513 7) 513.
Proof.
  assert (H128 : is_u8 128) by (unfold is_u8; lia).
  assert (H32 : is_u8 32) by (unfold is_u8; lia).
  split; [exact (conj H128 H32) |].
  destruct (SSD1306_new_object good_bus 128 32 0x3C false (replicate 513 7) []
              H128 H32) as (_ & _ & _ & _ & _ & _ & _ & Hsame).
  - reflexivity.
  - apply Forall_replicate. unfold is_u8. lia.
  - rewrite (Hsame dead_bus []). reflexivity.
Defined.

Lemma send_units_rejected bus addr u rest log :
  bus log addr u <= 0 ->
  send_units bus addr (u :: rest) log = (false, log ++ [(addr, u)]).
Proof.
  intros Hfail. cbn [send_units].
  destruct (Z.gtb_spec (bus log addr u) 0); [lia | reflexivity].
Qed.

Lemma send_sequence_rejected bus addr cmds :
  (forall log' u, bus log' addr u <= 0) ->
  forall log,
    send_sequence bus addr cmds log
    = log ++ to_address addr (map (fun c => [0x00; cmd_value c.1]) cmds).
Proof.
  intros Hfail. induction cmds as [| c cmds IH]; intros log.
  - simpl. rewrite app_nil_r. reflexivity.
  - cbn [send_sequence]. unfold cmd_units at 1.
    rewrite send_units_rejected by apply Hfail. cbn [snd].
    rewrite IH. unfold to_address. cbn [map]. rewrite <- app_assoc. reflexivity.
Qed.

(** The constructor does not stop at a failed write: on a transport that
    rejects every write, all sixteen commands are still attempted, each
    reduced to its opcode unit, in the order of the initialisation
    sequence. *)
Theorem SSD1306_new_on_dead_transport (bus : list xfer -> Z -> list Z -> Z)
    (p_width p_height p_address : Z) (p_ext_vcc : bool) (heap : list Z)
    (log : list xfer) :
  is_u8 p_height ->
  (forall log' u, bus log' p_address u <= 0) ->
  (SSD1306_new bus p_width p_height p_address p_ext_vcc heap log).2
  = log ++ to_address p_address
             [ [0x00; 0xAE]; [0x00; 0xD5]; [0x00; 0xA8]; [0x00; 0xD3];
               [0x00; 0x40]; [0x00; 0x8D]; [0x00; 0x20]; [0x00; 0xA1];
               [0x00; 0xC8]; [0x00; 0xDA]; [0x00; 0x81]; [0x00; 0xD9];
               [0x00; 0xDB]; [0x00; 0xA4]; [0x00; 0xA6]; [0x00; 0xAF] ].
Proof.
  intros Hh Hfail. rewrite SSD1306_new_eq by exact Hh. cbn [snd].
  rewrite send_sequence_rejected by exact Hfail. reflexivity.
Qed.

Lemma SSD1306_new_on_dead_transport_witness :
  is_u8 64
  /\ length (SSD1306_new dead_bus 128 64 0x3C false (replicate 1025 0) []).2
     = 16%nat.
Proof.
  assert (H64 : is_u8 64) by (unfold is_u8; lia).
  split; [exact H64 |].
  rewrite (SSD1306_new_on_dead_transport dead_bus 128 64 0x3C false
             (replicate 1025 0) [] H64).
  - reflexivity.
  - intros log' u. unfold dead_bus. lia.
Defined.

(* ================================================================== *)
(** * Further properties: lines and boxes *)
(* ================================================================== *)

(** Every row between the two ends of a walk is visited. *)
Lemma walk_cover_y sx sy n m x y pts :
  walk sx sy n m x y pts ->
  forall l, 0 <= l <= m ->
  exists k, 0 <= k <= n /\ on_points ((x, y) :: pts) (x + sx * k) (y + sy * l) = true.
Proof.
  induction 1 as [x y | n m x y pts Hn Hm Hw IH | n m x y pts Hn Hm Hw IH
                  | n m x y pts Hn Hm Hw IH]; intros l Hl.
  - exists 0. split; [lia |]. rewrite on_points_cons. simpl.
    replace l with 0 by lia. rewrite !Z.mul_0_r, !Z.add_0_r, !Z.eqb_refl. reflexivity.
  - pose proof (walk_nonneg _ _ _ _ _ _ _ Hw).
    destruct (IH l) as (k & Hk & Hon); [lia |].
    exists (k + 1). split; [lia |]. rewrite on_points_cons, orb_true_iff. right.
    replace (x + sx * (k + 1)) with (x + sx + sx * k) by lia. exact Hon.
  - pose proof (walk_nonneg _ _ _ _ _ _ _ Hw).
    destruct (Z.eq_dec l 0) as [-> | Hl0].
    + exists 0. split; [lia |]. rewrite on_points_cons. simpl.
      rewrite !Z.mul_0_r, !Z.add_0_r, !Z.eqb_refl. reflexivity.
    + destruct (IH (l - 1)) as (k & Hk & Hon); [lia |].
      exists k. split; [lia |]. rewrite on_points_cons, orb_true_iff. right.
      replace (y + sy * l) with (y + sy + sy * (l - 1)) by lia. exact Hon.
  - pose proof (walk_nonneg _ _ _ _ _ _ _ Hw).
    destruct (Z.eq_dec l 0) as [-> | Hl0].
    + exists 0. split; [lia |]. rewrite on_points_cons. simpl.
      rewrite !Z.mul_0_r, !Z.add_0_r, !Z.eqb_refl. reflexivity.
    + destruct (IH (l - 1)) as (k & Hk & Hon); [lia |].
      exists (k + 1). split; [lia |]. rewrite on_points_cons, orb_true_iff. right.
      replace (x + sx * (k + 1)) with (x + sx + sx * k) by lia.
      replace (y + sy * l) with (y + sy + sy * (l - 1)) by lia. exact Hon.
Qed.

Lemma line_points_rows x1 y1 x2 y2 :
  is_u8 x1 -> is_u8 y1 -> is_u8 x2 -> is_u8 y2 ->
  exists pts,
    line_points x1 y1 x2 y2 = Done pts
    /\ forall r, Z.min y1 y2 <= r <= Z.max y1 y2 ->
         exists c, Z.min x1 x2 <= c <= Z.max x1 x2 /\ on_points pts c r = true.
Proof.
  intros Hx1 Hy1 Hx2 Hy2.
  destruct (line_points_walk x1 y1 x2 y2 Hx1 Hy1 Hx2 Hy2) as (pts & Hpts & Hwalk).
  pose proof (walk_cover_y _ _ _ _ _ _ _ Hwalk) as Hcover.
  exists ((x1, y1) :: pts). split; [exact Hpts |].
  intros r Hr.
  destruct (Hcover (Z.abs (r - y1))) as (k & Hk & Hon); [lia |].
  exists (x1 + (if x1 <? x2 then 1 else -1) * k). split.
  - destruct (Z.ltb_spec x1 x2); lia.
  - replace r with (y1 + (if y1 <? y2 then 1 else -1) * Z.abs (r - y1))
      by (destruct (Z.ltb_spec y1 y2); lia).
    exact Hon.
Qed.

(** Membership in the points of a line, for in-box coordinates of an
    axis-parallel line. *)
Lemma line_points_axis x1 y1 x2 y2 :
  is_u8 x1 -> is_u8 y1 -> is_u8 x2 -> is_u8 y2 ->
  x1 = x2 \/ y1 = y2 ->
  exists pts,
    line_points x1 y1 x2 y2 = Done pts
    /\ forall x y,
         on_points pts x y
         = (Z.min x1 x2 <=? x) && (x <=? Z.max x1 x2)
           && (Z.min y1 y2 <=? y) && (y <=? Z.max y1 y2).
Proof.
  intros Hx1 Hy1 Hx2 Hy2 Haxis.
  destruct (line_points_spec x1 y1 x2 y2 Hx1 Hy1 Hx2 Hy2)
    as (pts & Hpts & _ & _ & _ & Hbox & Hcols).
  destruct (line_points_rows x1 y1 x2 y2 Hx1 Hy1 Hx2 Hy2) as (pts' & Hpts' & Hrows).
  assert (pts' = pts) as -> by congruence.
  exists pts. split; [exact Hpts |]. intros x y.
  destruct (on_points pts x y) eqn:Hon.
  - apply Hbox in Hon. symmetry. rewrite !andb_true_iff, !Z.leb_le. lia.
  - symmetry. apply not_true_is_false. intros Hin.
    rewrite !andb_true_iff, !Z.leb_le in Hin.
    destruct Haxis as [Hv | Hh].
    + destruct (Hrows y) as (c & Hc & Hon'); [lia |].
      replace c with x in Hon' by lia. congruence.
    + destruct (Hcols x) as (r & Hr & Hon'); [lia |].
      replace r with y in Hon' by lia. congruence.
Qed.

(** [draw_line] stays inside the box spanned by its end points and leaves
    no gap.  The visible pixels at the points of the line get the value
    [p_set] and every other visible pixel keeps its value; every point of
    the line lies in the box; and every column and every row of the box
    holds a point of the line. *)
Theorem draw_line_within_box (d : SSD1306) (x1 y1 x2 y2 : Z) (p_set : bool) :
  wf d -> is_u8 x1 -> is_u8 y1 -> is_u8 x2 -> is_u8 y2 ->
  exists pts d',
    line_points x1 y1 x2 y2 = Done pts
    /\ draw_line d x1 y1 x2 y2 p_set = Done d'
    /\ (forall x y, in_view d x y ->
          get_pixel d' x y = if on_points pts x y then p_set else get_pixel d x y)
    /\ (forall x y, on_points pts x y = true ->
          Z.min x1 x2 <= x <= Z.max x1 x2 /\ Z.min y1 y2 <= y <= Z.max y1 y2)
    /\ (forall c, Z.min x1 x2 <= c <= Z.max x1 x2 ->
          exists r, Z.min y1 y2 <= r <= Z.max y1 y2 /\ on_points pts c r = true)
    /\ (forall r, Z.min y1 y2 <= r <= Z.max y1 y2 ->
          exists c, Z.min x1 x2 <= c <= Z.max x1 x2 /\ on_points pts c r = true).
Proof.
  intros Hwf Hx1 Hy1 Hx2 Hy2.
  destruct (draw_line_spec d x1 y1 x2 y2 p_set Hwf Hx1 Hy1 Hx2 Hy2)
    as (pts & d' & Hpts & _ & Hdraw & _ & _ & _ & Hpix).
  destruct (line_points_spec x1 y1 x2 y2 Hx1 Hy1 Hx2 Hy2)
    as (pts1 & Hpts1 & _ & _ & _ & Hbox & Hcols).
  destruct (line_points_rows x1 y1 x2 y2 Hx1 Hy1 Hx2 Hy2) as (pts2 & Hpts2 & Hrows).
  assert (pts1 = pts) as -> by congruence.
  assert (pts2 = pts) as -> by congruence.
  exists pts, d'. split; [exact Hpts |]. split; [exact Hdraw |].
  split; [exact Hpix |]. split; [exact Hbox |]. split; [exact Hcols | exact Hrows].
Qed.

Lemma draw_line_within_box_witness :
  (wf demo /\ is_u8 3 /\ is_u8 7 /\ is_u8 5)
  /\ exists d', draw_line demo 3 3 7 5 true = Done d'
                /\ get_pixel d' 8 4 = false
                /\ exists r, 3 <= r <= 5 /\ get_pixel d' 5 r = true.
Proof.
  assert (H3 : is_u8 3) by (unfold is_u8; lia).
  assert (H7 : is_u8 7) by (unfold is_u8; lia).
  assert (H5 : is_u8 5) by (unfold is_u8; lia).
  split; [exact (conj demo_wf (conj H3 (conj H7 H5))) |].
  destruct (draw_line_within_box demo 3 3 7 5 true demo_wf H3 H3 H7 H5)
    as (pts & d' & Hpts & Hdraw & Hpix & Hbox & Hcols & _).
  exists d'. split; [exact Hdraw |]. split.
  - assert (Hv : in_view demo 8 4) by (unfold in_view; simpl; lia).
    rewrite (Hpix 8 4 Hv).
    destruct (on_points pts 8 4) eqn:Hon; [| reflexivity].
    apply Hbox in Hon. lia.
  - destruct (Hcols 5) as (r & Hr & Hon); [lia |].
    exists r. split; [lia |].
    assert (Hv : in_view demo 5 r) by (unfold in_view; simpl; lia).
    rewrite (Hpix 5 r Hv), Hon. reflexivity.
Defined.

(** A horizontal or vertical line is exact: the visible pixels of the
    segment between the end points, both included, get the value
    [p_set], and every other visible pixel keeps its value. *)
Theorem draw_line_axis_parallel (d : SSD1306) (x1 y1 x2 y2 : Z) (p_set : bool) :
  wf d -> is_u8 x1 -> is_u8 y1 -> is_u8 x2 -> is_u8 y2 ->
  x1 = x2 \/ y1 = y2 ->
  exists d',
    draw_line d x1 y1 x2 y2 p_set = Done d'
    /\ forall x y, in_view d x y ->
         get_pixel d' x y
         = if (Z.min x1 x2 <=? x) && (x <=? Z.max x1 x2)
              && (Z.min y1 y2 <=? y) && (y <=? Z.max y1 y2)
           then p_set else get_pixel d x y.
Proof.
  intros Hwf Hx1 Hy1 Hx2 Hy2 Haxis.
  destruct (draw_line_spec d x1 y1 x2 y2 p_set Hwf Hx1 Hy1 Hx2 Hy2)
    as (pts & d' & Hpts & _ & Hdraw & _ & _ & _ & Hpix).
  destruct (line_points_axis x1 y1 x2 y2 Hx1 Hy1 Hx2 Hy2 Haxis)
    as (pts' & Hpts' & Hon).
  assert (pts' = pts) as -> by congruence.
  exists d'. split; [exact Hdraw |].
  intros x y Hv. rewrite (Hpix x y Hv), Hon. reflexivity.
Qed.

Lemma draw_line_axis_parallel_witness :
  (wf demo /\ is_u8 100 /\ is_u8 20 /\ is_u8 4)
  /\ exists d', draw_line demo 100 20 4 20 true = Done d'
                /\ get_pixel d' 50 20 = true /\ get_pixel d' 50 21 = false.
Proof.
  assert (H100 : is_u8 100) by (unfold is_u8; lia).
  assert (H20 : is_u8 20) by (unfold is_u8; lia).
  assert (H4 : is_u8 4) by (unfold is_u8; lia).
  split; [exact (conj demo_wf (conj H100 (conj H20 H4))) |].
  destruct (draw_line_axis_parallel demo 100 20 4 20 true demo_wf H100 H20 H4 H20)
    as (d' & Hdraw & Hpix); [right; reflexivity |].
  exists d'. split; [exact Hdraw |].
  split; (rewrite Hpix; [reflexivity | unfold in_view; simpl; lia]).
Defined.

(** Drawing a line and then drawing it again with [p_set = false] erases
    it: the second call visits the same points, so afterwards the pixels
    of the line are off and every other visible pixel has the value it
    had before the first call. *)
Theorem draw_line_erase (d : SSD1306) (x1 y1 x2 y2 : Z) :
  wf d -> is_u8 x1 -> is_u8 y1 -> is_u8 x2 -> is_u8 y2 ->
  exists pts d1 d2,
    line_points x1 y1 x2 y2 = Done pts
    /\ draw_line d x1 y1 x2 y2 true = Done d1
    /\ draw_line d1 x1 y1 x2 y2 false = Done d2
    /\ forall x y, in_view d x y ->
         get_pixel d2 x y = if on_points pts x y then false else get_pixel d x y.
Proof.
  intros Hwf Hx1 Hy1 Hx2 Hy2.
  destruct (draw_line_spec d x1 y1 x2 y2 true Hwf Hx1 Hy1 Hx2 Hy2)
    as (pts & d1 & Hpts & _ & Hdraw1 & _ & Hwf1 & Hsp1 & Hpix1).
  destruct (draw_line_spec d1 x1 y1 x2 y2 false Hwf1 Hx1 Hy1 Hx2 Hy2)
    as (pts' & d2 & Hpts' & _ & Hdraw2 & _ & _ & _ & Hpix2).
  assert (pts' = pts) as -> by congruence.
  exists pts, d1, d2.
  split; [exact Hpts |]. split; [exact Hdraw1 |]. split; [exact Hdraw2 |].
  intros x y Hv.
  rewrite (Hpix2 x y (same_panel_in_view _ _ _ _ Hsp1 Hv)), (Hpix1 x y Hv).
  destruct (on_points pts x y); reflexivity.
Qed.

Lemma draw_line_erase_witness :
  (wf demo /\ is_u8 3 /\ is_u8 7 /\ is_u8 5)
  /\ exists d1 d2,
       draw_line demo 3 3 7 5 true = Done d1
       /\ draw_line d1 3 3 7 5 false = Done d2
       /\ get_pixel d1 7 5 = true /\ get_pixel d2 7 5 = false.
Proof.
  assert (H3 : is_u8 3) by (unfold is_u8; lia).
  assert (H7 : is_u8 7) by (unfold is_u8; lia).
  assert (H5 : is_u8 5) by (unfold is_u8; lia).
  split; [exact (conj demo_wf (conj H3 (conj H7 H5))) |].
  destruct (draw_line_erase demo 3 3 7 5 demo_wf H3 H3 H7 H5)
    as (pts & d1 & d2 & Hpts & Hd1 & Hd2 & Hpix).
  exists d1, d2. split; [exact Hd1 |]. split; [exact Hd2 |].
  assert (Hv : in_view demo 7 5) by (unfold in_view; simpl; lia).
  split.
  - assert (Hc : match draw_line demo 3 3 7 5 true with
                 | Done d => get_pixel d 7 5 | Fault _ => false end = true)
      by (vm_compute; reflexivity).
    rewrite Hd1 in Hc. exact Hc.
  - rewrite (Hpix 7 5 Hv).
    assert (Hc : match line_points 3 3 7 5 with
                 | Done p => on_points p 7 5 | Fault _ => false end = true)
      by (vm_compute; reflexivity).
    rewrite Hpts in Hc. rewrite Hc. reflexivity.
Defined.


Lemma bool_eq_iff (a b : bool) : (a = true <-> b = true) -> a = b.
Proof. destruct a, b; intuition congruence. Qed.

(** The rows written by the filled branch, as a predicate. *)
Lemma box_rows_points_exact p_x p_y p_width fuel :
  is_u8 p_x -> is_u8 p_y ->
  forall l_index, is_u8 l_index ->
  Z.max 0 (l_index - p_y) < Z.of_nat fuel ->
  exists pts,
    box_rows_points fuel p_x p_y p_width l_index = Done pts
    /\ forall x y,
         on_points pts x y = true
         <-> (p_y <= y < l_index
              /\ Z.min p_x (u8 (p_x + p_width)) <= x <= Z.max p_x (u8 (p_x + p_width))).
Proof.
  intros Hx Hy. pose proof (u8_is_u8 (p_x + p_width)) as Hx2.
  induction fuel as [| fuel IH]; intros l_index Hl Hfuel.
  - simpl in Hfuel. lia.
  - cbn [box_rows_points]. rewrite Z.gtb_ltb.
    destruct (Z.ltb_spec p_y l_index) as [Hgt | Hle].
    + assert (Hr : u8 (l_index - 1) = l_index - 1)
        by (apply u8_small; unfold is_u8 in *; lia).
      assert (Hru : is_u8 (l_index - 1)) by (rewrite <- Hr; apply u8_is_u8).
      rewrite Hr.
      destruct (line_points_axis p_x (l_index - 1) (u8 (p_x + p_width)) (l_index - 1)
                  Hx Hru Hx2 Hru) as (row & -> & Hrow); [right; reflexivity |].
      destruct (IH (l_index - 1) Hru) as (rest & -> & Hrest); [lia |].
      cbn [bind]. exists (row ++ rest). split; [reflexivity |].
      intros x y. rewrite on_points_app, orb_true_iff, Hrow, Hrest.
      rewrite !andb_true_iff, !Z.leb_le. lia.
    + exists []. split; [reflexivity |]. intros x y. split.
      * intros Hon. discriminate Hon.
      * lia.
Qed.

(** The two branches of [draw_box] cover the same extent: when neither
    [x + w] nor [y + h + 1] leaves the [uint8_t] range, the unfilled box
    gives [p_set] to exactly the visible border pixels of the rectangle
    with corners [(x, y)] and [(x + w, y + h)], the filled box turns on
    exactly the visible pixels of that same rectangle, and every other
    visible pixel keeps its value. *)
Theorem draw_box_extent (d : SSD1306) (x y w h : Z) (p_set : bool) :
  wf d -> is_u8 x -> is_u8 y -> is_u8 w -> is_u8 h ->
  x + w <= 255 -> y + h < 255 ->
  exists d_outline d_filled,
    draw_box d x y w h false p_set = Done d_outline
    /\ draw_box d x y w h true p_set = Done d_filled
    /\ forall px py, in_view d px py ->
         get_pixel d_outline px py
         = (if (x <=? px) && (px <=? x + w) && (y <=? py) && (py <=? y + h)
               && ((px =? x) || (px =? x + w) || (py =? y) || (py =? y + h))
            then p_set else get_pixel d px py)
         /\ get_pixel d_filled px py
            = (if (x <=? px) && (px <=? x + w) && (y <=? py) && (py <=? y + h)
               then true else get_pixel d px py).
Proof.
  intros Hwf Hx Hy Hw Hh Hxw Hyh.
  assert (Hx2 : u8 (x + w) = x + w) by (apply u8_small; unfold is_u8 in *; lia).
  assert (Hy2 : u8 (y + h) = y + h) by (apply u8_small; unfold is_u8 in *; lia).
  assert (Hl : u8 (y + h + 1) = y + h + 1) by (apply u8_small; unfold is_u8 in *; lia).
  assert (Hx2u : is_u8 (x + w)) by (rewrite <- Hx2; apply u8_is_u8).
  assert (Hy2u : is_u8 (y + h)) by (rewrite <- Hy2; apply u8_is_u8).
  assert (Hlu : is_u8 (y + h + 1)) by (rewrite <- Hl; apply u8_is_u8).
  destruct (draw_box_spec d x y w h false p_set Hwf Hx Hy)
    as (po & d_outline & Hpo & Hdo & _ & _ & Hpixo).
  destruct (draw_box_spec d x y w h true p_set Hwf Hx Hy)
    as (pf & d_filled & Hpf & Hdf & _ & _ & Hpixf).
  exists d_outline, d_filled. split; [exact Hdo |]. split; [exact Hdf |].
  intros px py Hv. rewrite (Hpixo px py Hv), (Hpixf px py Hv). split.
  - unfold box_points in Hpo. rewrite Hx2, Hy2 in Hpo.
    destruct (line_points_axis x y (x + w) y Hx Hy Hx2u Hy)
      as (top & Htop & Hon1); [right; reflexivity |].
    destruct (line_points_axis x (y + h) (x + w) (y + h) Hx Hy2u Hx2u Hy2u)
      as (bottom & Hbottom & Hon2); [right; reflexivity |].
    destruct (line_points_axis x y x (y + h) Hx Hy Hx Hy2u)
      as (lside & Hleft & Hon3); [left; reflexivity |].
    destruct (line_points_axis (x + w) y (x + w) (y + h) Hx2u Hy Hx2u Hy2u)
      as (rside & Hright & Hon4); [left; reflexivity |].
    rewrite Htop, Hbottom, Hleft, Hright in Hpo. cbn [bind] in Hpo.
    injection Hpo as <-.
    replace (on_points (top ++ bottom ++ lside ++ rside) px py)
      with ((x <=? px) && (px <=? x + w) && (y <=? py) && (py <=? y + h)
            && ((px =? x) || (px =? x + w) || (py =? y) || (py =? y + h)));
      [reflexivity |].
    apply bool_eq_iff.
    rewrite !on_points_app, Hon1, Hon2, Hon3, Hon4.
    unfold is_u8 in *.
    rewrite !andb_true_iff, !orb_true_iff, !andb_true_iff, !Z.leb_le, !Z.eqb_eq.
    lia.
  - unfold box_points in Hpf. rewrite Hl in Hpf.
    destruct (box_rows_points_exact x y w draw_box_fuel Hx Hy (y + h + 1) Hlu)
      as (pts & Hpts & Hon).
    { unfold draw_box_fuel, is_u8 in *. lia. }
    assert (pts = pf) as -> by congruence.
    replace (on_points pf px py)
      with ((x <=? px) && (px <=? x + w) && (y <=? py) && (py <=? y + h));
      [reflexivity |].
    apply bool_eq_iff. rewrite Hon, Hx2.
    unfold is_u8 in *. rewrite !andb_true_iff, !Z.leb_le. lia.
Qed.

Lemma draw_box_extent_witness :
  (wf demo /\ is_u8 0 /\ is_u8 64 /\ is_u8 31 /\ 0 + 64 <= 255 /\ 0 + 31 < 255)
  /\ exists d_outline d_filled,
       draw_box demo 0 0 64 31 false true = Done d_outline
       /\ draw_box demo 0 0 64 31 true true = Done d_filled
       /\ get_pixel d_outline 64 31 = true /\ get_pixel d_outline 63 30 = false
       /\ get_pixel d_filled 63 30 = true /\ get_pixel d_filled 65 30 = false.
Proof.
  assert (H0 : is_u8 0) by (unfold is_u8; lia).
  assert (H64 : is_u8 64) by (unfold is_u8; lia).
  assert (H31 : is_u8 31) by (unfold is_u8; lia).
  assert (Ha : 0 + 64 <= 255) by lia.
  assert (Hb : 0 + 31 < 255) by lia.
  split; [exact (conj demo_wf (conj H0 (conj H64 (conj H31 (conj Ha Hb))))) |].
  destruct (draw_box_extent demo 0 0 64 31 true demo_wf H0 H0 H64 H31 Ha Hb)
    as (d1 & d2 & Hd1 & Hd2 & Hpix).
  exists d1, d2. split; [exact Hd1 |]. split; [exact Hd2 |].
  assert (Hv1 : in_view demo 64 31) by (unfold in_view; simpl; lia).
  assert (Hv2 : in_view demo 63 30) by (unfold in_view; simpl; lia).
  assert (Hv3 : in_view demo 65 30) by (unfold in_view; simpl; lia).
  destruct (Hpix 64 31 Hv1) as [-> _].
  destruct (Hpix 63 30 Hv2) as [-> ->].
  destruct (Hpix 65 30 Hv3) as [_ ->].
  repeat split; reflexivity.
Defined.

(** A filled box whose last row [y + h] is 255 or more draws nothing at
    all: [p_y + p_height + 1] does not fit the [uint8_t] loop variable,
    the value it wraps to is not above [p_y], and the loop body is never
    entered. *)
Theorem draw_box_filled_overflow (d : SSD1306) (x y w h : Z) (p_set : bool) :
  is_u8 y -> is_u8 h -> 255 <= y + h ->
  draw_box d x y w h true p_set = Done d.
Proof.
  intros Hy Hh Hover. unfold draw_box, draw_box_fuel. cbn [draw_box_rows].
  assert (Hl : u8 (y + h + 1) = y + h + 1 - 256).
  { unfold u8, is_u8 in *. change (2 ^ 8) with 256.
    symmetry. apply (Z.mod_unique_pos _ _ 1); lia. }
  rewrite Hl, Z.gtb_ltb.
  destruct (Z.ltb_spec y (y + h + 1 - 256)); [unfold is_u8 in *; lia | reflexivity].
Qed.

Lemma draw_box_filled_overflow_witness :
  (is_u8 20 /\ is_u8 235 /\ 255 <= 20 + 235)
  /\ draw_box demo 0 20 10 235 true true = Done demo.
Proof.
  assert (H20 : is_u8 20) by (unfold is_u8; lia).
  assert (H235 : is_u8 235) by (unfold is_u8; lia).
  assert (Ho : 255 <= 20 + 235) by lia.
  split; [exact (conj H20 (conj H235 Ho)) |].
  exact (draw_box_filled_overflow demo 0 20 10 235 true H20 H235 Ho).
Defined.

(* ================================================================== *)
(** * Further properties: glyphs and text *)
(* ================================================================== *)

Lemma for_each_ext {A : Type} (idx : list Z) (f g : Z -> A -> outcome A) :
  (forall i a, In i idx -> f i a = g i a) ->
  forall a, for_each idx f a = for_each idx g a.
Proof.
  induction idx as [| i idx IH]; intros Hfg a; [reflexivity |].
  cbn [for_each]. rewrite (Hfg i a) by (left; reflexivity).
  destruct (g i a) as [a' | f0]; [| reflexivity]. cbn [bind].
  apply IH. intros j b Hj. apply Hfg. right. exact Hj.
Qed.

Lemma for_each_fmap {A : Type} (h : Z -> Z) (idx : list Z)
    (f : Z -> A -> outcome A) a :
  for_each (h <$> idx) f a = for_each idx (fun i => f (h i)) a.
Proof.
  revert a. induction idx as [| i idx IH]; intros a; [reflexivity |].
  cbn [for_each fmap list_fmap]. destruct (f (h i) a); [| reflexivity]. apply IH.
Qed.

(** A loop whose body plots at most one point per pass. *)
Lemma for_each_plot p_set (cell : Z -> option (Z * Z)) (idx : list Z) :
  forall d,
    for_each idx (fun i d => match cell i with
                             | Some p => plot p_set d p.1 p.2
                             | None => Done d
                             end) d
    = plot_all p_set d (omap cell idx).
Proof.
  induction idx as [| i idx IH]; intros d; [reflexivity |].
  cbn [for_each omap list_omap]. destruct (cell i) as [[px py] |].
  - cbn [plot_all fst snd]. destruct (plot p_set d px py); [| reflexivity].
    cbn [bind]. apply IH.
  - cbn [bind]. apply IH.
Qed.

(** A loop whose body plots a list of points per pass. *)
Lemma for_each_plot_all p_set (pts : Z -> list (Z * Z)) (idx : list Z) :
  forall d,
    for_each idx (fun i d => plot_all p_set d (pts i)) d
    = plot_all p_set d (concat (map pts idx)).
Proof.
  induction idx as [| i idx IH]; intros d; [reflexivity |].
  cbn [for_each map concat]. rewrite plot_all_app.
  destruct (plot_all p_set d (pts i)); [| reflexivity]. cbn [bind]. apply IH.
Qed.

Lemma l_font_rows : Forall (fun row => length row = 5%nat) l_font.
Proof. repeat constructor. Qed.

Lemma font_at_cell l_char l_x l_y :
  0 <= l_char < 96 -> 0 <= l_x < 5 ->
  exists column,
    font_at l_char l_x = Done column
    /\ glyph_cell l_char l_x l_y
       = negb (Z.land (Z.shiftl 0x01 (6 - l_y)) column =? 0).
Proof.
  intros Hc Hx. unfold font_at, glyph_cell.
  destruct (lookup_lt_is_Some_2 l_font (Z.to_nat l_char)) as [row Hrow].
  { change (length l_font) with 96%nat. lia. }
  rewrite Hrow.
  pose proof l_font_rows as Hall. rewrite Forall_lookup in Hall.
  pose proof (Hall _ _ Hrow) as Hlen.
  destruct (lookup_lt_is_Some_2 row (Z.to_nat l_x)) as [column Hcol]; [lia |].
  exists column. split.
  - unfold load. destruct (Z.ltb_spec l_x 0); [lia |]. rewrite Hcol. reflexivity.
  - rewrite Hcol. reflexivity.
Qed.

(** For a printable character [draw_char] plots the marked cells of its
    row of the font. *)
Lemma draw_char_points d p_x p_y c p_set :
  printable c ->
  draw_char d p_x p_y c p_set = plot_all p_set d (glyph_points p_x p_y (c - 0x20)).
Proof.
  intros Hc. unfold printable in Hc. unfold draw_char.
  assert (Hsel : (c <? 0x20) || (c >? 0x7E) = false).
  { rewrite Z.gtb_ltb. destruct (Z.ltb_spec c 0x20); [lia |].
    destruct (Z.ltb_spec 0x7E c); [lia | reflexivity]. }
  rewrite Hsel, (u8_small (c - 0x20)) by (unfold is_u8; lia).
  unfold glyph_points. rewrite <- for_each_plot_all.
  apply for_each_ext. intros l_x a Hlx.
  apply list_elem_of_In, elem_of_seqZ in Hlx.
  unfold glyph_column_points. rewrite <- for_each_plot.
  apply for_each_ext. intros l_y b _.
  destruct (font_at_cell (c - 0x20) l_x l_y) as (column & -> & ->); [lia | lia |].
  cbn [bind]. destruct (Z.land _ column =? 0); reflexivity.
Qed.

Lemma glyph_points_u8 p_x p_y l_char : Forall u8_point (glyph_points p_x p_y l_char).
Proof.
  unfold glyph_points. apply Forall_concat, Forall_map, Forall_forall.
  intros l_x _. unfold glyph_column_points.
  apply Forall_forall. intros p Hp. apply list_elem_of_omap in Hp as (l_y & _ & Hp).
  destruct (glyph_cell l_char l_x l_y); [| discriminate].
  injection Hp as <-. split; apply u8_is_u8.
Qed.

Lemma on_glyph_points p_x p_y l_char x y :
  on_points (glyph_points p_x p_y l_char) x y = true
  <-> exists l_x l_y, 0 <= l_x < 5 /\ 0 <= l_y < 7
        /\ glyph_cell l_char l_x l_y = true
        /\ x = u8 (p_x + l_x) /\ y = u8 (p_y + l_y).
Proof.
  rewrite on_points_elem, list_elem_of_In. unfold glyph_points.
  rewrite in_concat. split.
  - intros (col & Hcol & Hxy).
    apply in_map_iff in Hcol as (l_x & <- & Hlx).
    apply list_elem_of_In in Hlx, Hxy. unfold glyph_column_points in Hxy.
    apply list_elem_of_omap in Hxy as (l_y & Hly & Hxy).
    apply elem_of_seqZ in Hlx, Hly.
    destruct (glyph_cell l_char l_x l_y) eqn:Hcell; [| discriminate].
    injection Hxy as <- <-. exists l_x, l_y. repeat split; lia || assumption.
  - intros (l_x & l_y & Hlx & Hly & Hcell & -> & ->).
    exists (glyph_column_points p_x p_y l_char l_x). split.
    + apply in_map. apply list_elem_of_In, elem_of_seqZ. lia.
    + apply list_elem_of_In. unfold glyph_column_points.
      apply list_elem_of_omap. exists l_y. split; [apply elem_of_seqZ; lia |].
      rewrite Hcell. reflexivity.
Qed.

(** [draw_char] for a printable character, with the whole 5x7 cell inside
    the [uint8_t] range: it finishes, keeps the object well formed, gives
    [p_set] to the visible pixels of the cell whose bit in the font row
    [c - 0x20] is set (column [px - x], row [py - y], top row in bit 6),
    and leaves every other visible pixel as it was: the unmarked pixels
    of the cell too. *)
Theorem draw_char_printable (d : SSD1306) (x y c : Z) (p_set : bool) :
  wf d -> is_u8 x -> is_u8 y -> printable c ->
  x + 4 <= 255 -> y + 6 <= 255 ->
  exists d',
    draw_char d x y c p_set = Done d'
    /\ wf d' /\ same_panel d d'
    /\ forall px py, in_view d px py ->
         get_pixel d' px py
         = if (x <=? px) && (px <? x + 5) && (y <=? py) && (py <? y + 7)
              && glyph_cell (c - 0x20) (px - x) (py - y)
           then p_set else get_pixel d px py.
Proof.
  intros Hwf Hx Hy Hc Hxw Hyw.
  rewrite (draw_char_points d x y c p_set Hc).
  destruct (plot_all_spec p_set _ (glyph_points_u8 x y (c - 0x20)) d Hwf)
    as (d' & Hplot & Hwf' & Hsp & Hpix).
  exists d'. split; [exact Hplot |]. split; [exact Hwf' |]. split; [exact Hsp |].
  intros px py Hv. rewrite (Hpix px py Hv).
  replace (on_points (glyph_points x y (c - 0x20)) px py)
    with ((x <=? px) && (px <? x + 5) && (y <=? py) && (py <? y + 7)
          && glyph_cell (c - 0x20) (px - x) (py - y)); [reflexivity |].
  apply bool_eq_iff. rewrite on_glyph_points.
  rewrite !andb_true_iff, !Z.leb_le, !Z.ltb_lt. unfold is_u8 in *. split.
  - intros ((((H1 & H2) & H3) & H4) & Hcell).
    exists (px - x), (py - y). split; [lia |]. split; [lia |].
    split; [exact Hcell |].
    rewrite !u8_small by (unfold is_u8; lia). lia.
  - intros (l_x & l_y & Hlx & Hly & Hcell & -> & ->).
    rewrite !u8_small by (unfold is_u8; lia).
    replace (x + l_x - x) with l_x by lia. replace (y + l_y - y) with l_y by lia.
    repeat split; lia || assumption.
Qed.

Lemma draw_char_printable_witness :
  (wf demo /\ is_u8 0 /\ printable 65 /\ 0 + 4 <= 255 /\ 0 + 6 <= 255)
  /\ exists d', draw_char demo 0 0 65 true = Done d'
                /\ get_pixel d' 2 0 = true /\ get_pixel d' 0 0 = false.
Proof.
  assert (H0 : is_u8 0) by (unfold is_u8; lia).
  assert (Hc : printable 65) by (unfold printable; lia).
  assert (Ha : 0 + 4 <= 255) by lia.
  assert (Hb : 0 + 6 <= 255) by lia.
  split; [exact (conj demo_wf (conj H0 (conj Hc (conj Ha Hb)))) |].
  destruct (draw_char_printable demo 0 0 65 true demo_wf H0 H0 Hc Ha Hb)
    as (d' & Hdraw & _ & _ & Hpix).
  exists d'. split; [exact Hdraw |].
  split; (rewrite Hpix; [reflexivity | unfold in_view; simpl; lia]).
Defined.


Lemma strlen_nonneg p_text : 0 <= strlen p_text.
Proof.
  induction p_text as [| c rest IH]; simpl; [lia |].
  destruct (c =? 0); lia.
Qed.

Lemma load_cons c rest i : 0 <= i -> load (c :: rest) (i + 1) = load rest i.
Proof.
  intros Hi. unfold load.
  destruct (Z.ltb_spec (i + 1) 0); [lia |]. destruct (Z.ltb_spec i 0); [lia |].
  replace (Z.to_nat (i + 1)) with (S (Z.to_nat i)) by lia. reflexivity.
Qed.

Lemma u8_add_u8 a b : u8 (u8 a + b) = u8 (a + b).
Proof. unfold u8. apply Zplus_mod_idemp_l. Qed.

(** The first pass of the loop of [draw_text], split off. *)
Lemma draw_text_cons (d : SSD1306) (x y c : Z) (rest : list Z) (p_set : bool) :
  is_u8 x -> c <> 0 ->
  draw_text d x y (c :: rest) p_set
  = (do d' <- draw_char d x y c p_set in
     draw_text d' (u8 (x + 6)) y rest p_set).
Proof.
  intros Hx Hc. unfold draw_text. cbn [strlen].
  destruct (Z.eqb_spec c 0) as [Hz | _]; [contradiction |].
  pose proof (strlen_nonneg rest) as Hn.
  rewrite seqZ_cons by lia. cbn [for_each].
  replace (load (c :: rest) 0) with (Done (A := Z) c) by reflexivity.
  cbn [bind]. rewrite Z.add_0_r, (u8_small x Hx).
  destruct (draw_char d x y c p_set) as [d' |]; [| reflexivity]. cbn [bind].
  replace (Z.pred (1 + strlen rest)) with (strlen rest) by lia.
  replace (seqZ (Z.succ 0) (strlen rest)) with (Z.add 1 <$> seqZ 0 (strlen rest))
    by (rewrite fmap_add_seqZ; reflexivity).
  rewrite for_each_fmap. apply for_each_ext. intros i a Hi.
  apply list_elem_of_In, elem_of_seqZ in Hi.
  rewrite (Z.add_comm 1 i), load_cons by lia.
  destruct (load rest i) as [ch |]; [| reflexivity]. cbn [bind].
  rewrite u8_add_u8. f_equal. f_equal. lia.
Qed.

(** Text advance.  Drawing a string is drawing its first character at
    [(x, y)] and then the rest of the string 6 columns further right,
    the column being taken modulo 256. *)
Theorem draw_text_advance (d : SSD1306) (x y c : Z) (rest : list Z) (p_set : bool) :
  is_u8 x -> c <> 0 ->
  draw_text d x y (c :: rest) p_set
  = (do d' <- draw_char d x y c p_set in
     draw_text d' (u8 (x + 6)) y rest p_set).
Proof. exact (draw_text_cons d x y c rest p_set). Qed.

Lemma draw_text_advance_witness :
  (is_u8 0 /\ 65 <> 0)
  /\ draw_text demo 0 0 (c_str "AB") true
     = (do d' <- draw_char demo 0 0 65 true in draw_char d' 6 0 66 true).
Proof.
  assert (H0 : is_u8 0) by (unfold is_u8; lia).
  assert (H6 : is_u8 6) by (unfold is_u8; lia).
  assert (Ha : 65 <> 0) by lia.
  assert (Hb : 66 <> 0) by lia.
  split; [exact (conj H0 Ha) |].
  change (c_str "AB") with [65; 66].
  rewrite (draw_text_advance demo 0 0 65 [66] true H0 Ha).
  destruct (draw_char demo 0 0 65 true) as [d' |]; [| reflexivity]. cbn [bind].
  change (u8 (0 + 6)) with 6.
  rewrite (draw_text_advance d' 6 0 66 [] true H6 Hb).
  destruct (draw_char d' 6 0 66 true); reflexivity.
Defined.


Lemma strlen_before_nul pre post :
  Forall (fun c => c <> 0) pre ->
  strlen (pre ++ 0 :: post) = Z.of_nat (length pre).
Proof.
  induction 1 as [| c pre Hc _ IH]; [reflexivity |].
  cbn [app strlen length]. destruct (Z.eqb_spec c 0); [contradiction |].
  rewrite IH. lia.
Qed.

Lemma strlen_no_nul text :
  Forall (fun c => c <> 0) text -> strlen text = Z.of_nat (length text).
Proof.
  induction 1 as [| c pre Hc _ IH]; [reflexivity |].
  cbn [strlen length]. destruct (Z.eqb_spec c 0); [contradiction |].
  rewrite IH. lia.
Qed.

(** [draw_text] ends at the terminating NUL: what follows it in memory
    is neither read nor drawn, and the empty string draws nothing. *)
Theorem draw_text_stops_at_nul (d : SSD1306) (x y : Z) (pre post : list Z)
    (p_set : bool) :
  Forall (fun c => c <> 0) pre ->
  draw_text d x y (pre ++ 0 :: post) p_set = draw_text d x y pre p_set
  /\ draw_text d x y (0 :: post) p_set = Done d
  /\ draw_text d x y [] p_set = Done d.
Proof.
  intros Hpre. split; [| split; reflexivity].
  unfold draw_text. rewrite (strlen_before_nul pre post Hpre), (strlen_no_nul pre Hpre).
  apply for_each_ext. intros i a Hi.
  apply list_elem_of_In, elem_of_seqZ in Hi.
  unfold load. destruct (Z.ltb_spec i 0); [lia |].
  rewrite lookup_app_l by lia. reflexivity.
Qed.

Lemma draw_text_stops_at_nul_witness :
  Forall (fun c => c <> 0) [65]
  /\ draw_text demo 0 0 ([65] ++ 0 :: [66; 67]) true = draw_text demo 0 0 [65] true.
Proof.
  assert (H : Forall (fun c => c <> 0) [65]) by (repeat constructor; lia).
  split; [exact H |].
  exact (proj1 (draw_text_stops_at_nul demo 0 0 [65] [66; 67] true H)).
Defined.

(** [draw_char] for a printable character always finishes, whatever the
    position, and touches only rows [y .. y + 6] modulo 256. *)
Lemma draw_char_total d x y c p_set :
  wf d -> printable c ->
  exists d',
    draw_char d x y c p_set = Done d' /\ wf d' /\ same_panel d d'
    /\ forall px py, in_view d px py ->
         (forall l_y, 0 <= l_y < 7 -> py <> u8 (y + l_y)) ->
         get_pixel d' px py = get_pixel d px py.
Proof.
  intros Hwf Hc. rewrite (draw_char_points d x y c p_set Hc).
  destruct (plot_all_spec p_set _ (glyph_points_u8 x y (c - 0x20)) d Hwf)
    as (d' & Hplot & Hwf' & Hsp & Hpix).
  exists d'. split; [exact Hplot |]. split; [exact Hwf' |]. split; [exact Hsp |].
  intros px py Hv Hrow. rewrite (Hpix px py Hv).
  destruct (on_points _ px py) eqn:Hon; [| reflexivity].
  apply on_glyph_points in Hon as (l_x & l_y & _ & Hly & _ & _ & Hpy).
  exfalso. exact (Hrow l_y Hly Hpy).
Qed.

Lemma printable_check text :
  forallb (fun c => (0x20 <=? c) && (c <=? 0x7E)) text = true ->
  Forall printable text.
Proof.
  rewrite forallb_forall. intros Hall. apply Forall_forall. intros c Hin.
  apply list_elem_of_In in Hin. specialize (Hall c Hin). unfold printable. lia.
Qed.

Lemma printable_not_nul c : printable c -> c <> 0.
Proof. unfold printable. lia. Qed.

(** For a string of printable characters [draw_text] plots the points of
    [text_points]. *)
Lemma draw_text_points d x y p_text p_set :
  is_u8 x -> Forall printable p_text ->
  draw_text d x y p_text p_set = plot_all p_set d (text_points x y p_text).
Proof.
  intros Hx Hall. revert d x Hx.
  induction Hall as [| c rest Hc _ IH]; intros d x Hx; [reflexivity |].
  rewrite (draw_text_cons d x y c rest p_set Hx (printable_not_nul c Hc)).
  cbn [text_points]. rewrite plot_all_app, (draw_char_points d x y c p_set Hc).
  destruct (plot_all p_set d (glyph_points x y (c - 0x20))) as [d1 |];
    [| reflexivity].
  cbn [bind]. apply IH. apply u8_is_u8.
Qed.

Lemma text_points_u8 x y p_text : Forall u8_point (text_points x y p_text).
Proof.
  revert x. induction p_text as [| c rest IH]; intros x; [constructor |].
  cbn [text_points]. apply Forall_app. split; [apply glyph_points_u8 | apply IH].
Qed.

Lemma u8_origin x i l_x :
  u8 (u8 (x + 6) + 6 * Z.of_nat i + l_x) = u8 (x + 6 * Z.of_nat (S i) + l_x).
Proof.
  replace (u8 (x + 6) + 6 * Z.of_nat i + l_x)
    with (u8 (x + 6) + (6 * Z.of_nat i + l_x)) by lia.
  rewrite u8_add_u8. f_equal. lia.
Qed.

(** The points of a text are the marked cells of its characters. *)
Lemma on_text_points y p_text px py :
  forall x,
    on_points (text_points x y p_text) px py = true
    <-> text_marks x y p_text px py.
Proof.
  induction p_text as [| c rest IH]; intros x.
  - split; [intros H; discriminate H |].
    intros (i & ch & l_x & l_y & Hi & _). rewrite lookup_nil in Hi. discriminate Hi.
  - cbn [text_points]. rewrite on_points_app, orb_true_iff, on_glyph_points, IH.
    unfold text_marks. split.
    + intros [(l_x & l_y & Hlx & Hly & Hcell & -> & ->)
             | (i & ch & l_x & l_y & Hi & Hlx & Hly & Hcell & -> & ->)].
      * exists 0%nat, c, l_x, l_y. repeat split; try assumption; try lia.
        f_equal. lia.
      * exists (S i), ch, l_x, l_y. repeat split; try assumption; try lia.
        apply u8_origin.
    + intros (i & ch & l_x & l_y & Hi & Hlx & Hly & Hcell & -> & ->).
      destruct i as [| i].
      * left. injection Hi as <-. exists l_x, l_y.
        repeat split; try assumption; try lia. f_equal. lia.
      * right. exists i, ch, l_x, l_y. repeat split; try assumption; try lia.
        symmetry. apply u8_origin.
Qed.

(** A string of printable characters is always drawn to the end: no
    fault, and the object stays well formed with the same dimensions.
    What is drawn is exactly this: a visible pixel gets the value [p_set]
    when, for some position [i] of the text, it is a marked cell of the
    glyph of character [i] placed at x-origin [x + 6 * i] (coordinates
    modulo 256), and keeps its value otherwise.  In particular, when
    rows [y .. y + 6] fit the [uint8_t] range, pixels outside these seven
    rows keep their value. *)
Theorem draw_text_printable (d : SSD1306) (x y : Z) (p_text : list Z)
    (p_set : bool) :
  wf d -> is_u8 x -> is_u8 y -> Forall printable p_text ->
  exists d',
    draw_text d x y p_text p_set = Done d' /\ wf d' /\ same_panel d d'
    /\ (forall px py, in_view d px py ->
          (text_marks x y p_text px py -> get_pixel d' px py = p_set)
          /\ (~ text_marks x y p_text px py ->
              get_pixel d' px py = get_pixel d px py))
    /\ (y + 6 <= 255 ->
        forall px py, in_view d px py -> ~ (y <= py <= y + 6) ->
          get_pixel d' px py = get_pixel d px py).
Proof.
  intros Hwf Hx Hy Hall.
  rewrite (draw_text_points d x y p_text p_set Hx Hall).
  destruct (plot_all_spec p_set _ (text_points_u8 x y p_text) d Hwf)
    as (d' & Hplot & Hwf' & Hsp & Hpix).
  exists d'. split; [exact Hplot |]. split; [exact Hwf' |]. split; [exact Hsp |].
  assert (Hmarks : forall px py, in_view d px py ->
            (text_marks x y p_text px py -> get_pixel d' px py = p_set)
            /\ (~ text_marks x y p_text px py ->
                get_pixel d' px py = get_pixel d px py)).
  { intros px py Hv. rewrite (Hpix px py Hv).
    destruct (on_points (text_points x y p_text) px py) eqn:Hon.
    - split; [reflexivity |]. intros Hno. exfalso. apply Hno.
      apply on_text_points. exact Hon.
    - split; [| reflexivity]. intros Hyes. apply on_text_points in Hyes.
      congruence. }
  split; [exact Hmarks |].
  intros Hrows px py Hv Hout. apply (Hmarks px py Hv).
  intros (i & ch & l_x & l_y & _ & _ & Hly & _ & _ & Hpy).
  rewrite u8_small in Hpy by (unfold is_u8 in *; lia). lia.
Qed.

Lemma draw_text_printable_witness :
  (wf demo /\ is_u8 0 /\ is_u8 8 /\ Forall printable (c_str "SSD1306 Driver"))
  /\ exists d', draw_text demo 0 8 (c_str "SSD1306 Driver") true = Done d'
                /\ get_pixel d' 7 8 = true
                /\ get_pixel d' 3 7 = false /\ get_pixel d' 3 15 = false.
Proof.
  assert (H0 : is_u8 0) by (unfold is_u8; lia).
  assert (H8 : is_u8 8) by (unfold is_u8; lia).
  assert (Hp : Forall printable (c_str "SSD1306 Driver"))
    by (apply printable_check; vm_compute; reflexivity).
  split; [exact (conj demo_wf (conj H0 (conj H8 Hp))) |].
  destruct (draw_text_printable demo 0 8 (c_str "SSD1306 Driver") true
              demo_wf H0 H8 Hp) as (d' & Hdraw & _ & _ & Hmarks & Hrows).
  exists d'. split; [exact Hdraw |]. split.
  - assert (Hv : in_view demo 7 8) by (unfold in_view; simpl; lia).
    apply (proj1 (Hmarks 7 8 Hv)).
    exists 1%nat, 83, 1, 0. repeat split; try reflexivity; lia.
  - split; (rewrite Hrows; [reflexivity | lia | unfold in_view; simpl; lia | lia]).
Defined.

(** Drawing a text is drawing a NUL-free first part and then the rest,
    the x-origin moved on by 6 per character of the first part. *)
Lemma draw_text_app y pre rest p_set :
  Forall (fun c => c <> 0) pre ->
  forall d x, is_u8 x ->
  draw_text d x y (pre ++ rest) p_set
  = (do d1 <- draw_text d x y pre p_set in
     draw_text d1 (u8 (x + 6 * Z.of_nat (length pre))) y rest p_set).
Proof.
  induction 1 as [| a pre Ha _ IH]; intros d x Hx.
  - cbn [app length].
    change (draw_text d x y [] p_set) with (Done d). cbn [bind].
    rewrite Z.mul_0_r, Z.add_0_r, (u8_small x Hx). reflexivity.
  - cbn [app]. rewrite !(draw_text_cons d x y a _ p_set Hx Ha).
    destruct (draw_char d x y a p_set) as [d1 |]; [| reflexivity]. cbn [bind].
    rewrite (IH d1 (u8 (x + 6)) (u8_is_u8 _)).
    destruct (draw_text d1 (u8 (x + 6)) y pre p_set) as [d2 |]; [| reflexivity].
    cbn [bind]. f_equal.
    rewrite u8_add_u8. f_equal. cbn [length]. lia.
Qed.

(** A character outside 0x20..0x7E inside a text (other than the
    terminating NUL): a line feed or a tab is enough.  With a printable
    first part before it, drawing that first part alone finishes with an
    object [d1]; drawing the whole text is drawing the first part, then
    [draw_char] for the character on that object at x-origin
    [x + 6 * length] modulo 256, then the rest; that [draw_char] indexes
    the font outside its 96 rows, and so the whole [draw_text] ends in
    the out-of-bounds fault. *)
Theorem draw_text_unprintable (d : SSD1306) (x y c : Z) (pre post : list Z)
    (p_set : bool) :
  wf d -> is_u8 x ->
  Forall printable pre -> c <> 0 -> ~ printable c ->
  exists d1,
    draw_text d x y pre p_set = Done d1 /\ wf d1
    /\ draw_char d1 (u8 (x + 6 * Z.of_nat (length pre))) y c p_set
       = Fault OutOfBounds
    /\ draw_text d x y (pre ++ c :: post) p_set
       = (do d1' <- draw_text d x y pre p_set in
          do d2 <- draw_char d1' (u8 (x + 6 * Z.of_nat (length pre))) y c p_set in
          draw_text d2 (u8 (u8 (x + 6 * Z.of_nat (length pre)) + 6)) y post p_set)
    /\ draw_text d x y (pre ++ c :: post) p_set = Fault OutOfBounds.
Proof.
  intros Hwf Hx Hpre Hc Hnp.
  assert (Hnz : Forall (fun c => c <> 0) pre)
    by (eapply Forall_impl; [exact Hpre | exact printable_not_nul]).
  assert (Hfault : forall d1 x1, draw_char d1 x1 y c p_set = Fault OutOfBounds)
    by (intros d1 x1; apply draw_char_unprintable; unfold printable in Hnp; lia).
  assert (Heq : draw_text d x y (pre ++ c :: post) p_set
                = (do d1' <- draw_text d x y pre p_set in
                   do d2 <- draw_char d1' (u8 (x + 6 * Z.of_nat (length pre))) y c p_set in
                   draw_text d2 (u8 (u8 (x + 6 * Z.of_nat (length pre)) + 6)) y post p_set)).
  { rewrite (draw_text_app y pre (c :: post) p_set Hnz d x Hx).
    destruct (draw_text d x y pre p_set) as [d1 |]; [| reflexivity]. cbn [bind].
    apply draw_text_cons; [apply u8_is_u8 | exact Hc]. }
  rewrite (draw_text_points d x y pre p_set Hx Hpre) in *.
  destruct (plot_all_spec p_set _ (text_points_u8 x y pre) d Hwf)
    as (d1 & Hplot & Hwf1 & _ & _).
  exists d1. split; [exact Hplot |]. split; [exact Hwf1 |].
  split; [apply Hfault |]. split; [exact Heq |].
  rewrite Heq, Hplot. cbn [bind]. rewrite Hfault. reflexivity.
Qed.

Lemma draw_text_unprintable_witness :
  (wf demo /\ is_u8 0 /\ Forall printable [72; 105] /\ 10 <> 0 /\ ~ printable 10)
  /\ (exists d1, draw_text demo 0 0 [72; 105] true = Done d1
                 /\ draw_char d1 12 0 10 true = Fault OutOfBounds)
  /\ draw_text demo 0 0 ([72; 105] ++ 10 :: [72; 111]) true = Fault OutOfBounds.
Proof.
  assert (H0 : is_u8 0) by (unfold is_u8; lia).
  assert (Hp : Forall printable [72; 105])
    by (apply printable_check; vm_compute; reflexivity).
  assert (Hc : 10 <> 0) by lia.
  assert (Hn : ~ printable 10) by (unfold printable; lia).
  split; [exact (conj demo_wf (conj H0 (conj Hp (conj Hc Hn)))) |].
  destruct (draw_text_unprintable demo 0 0 10 [72; 105] [72; 111] true
              demo_wf H0 Hp Hc Hn) as (d1 & Hpre & _ & Hchar & _ & Hall).
  split; [| exact Hall].
  exists d1. split; [exact Hpre | exact Hchar].
Defined.


Lemma plot_all_out_of_view p_set d pts :
  Forall (fun p => p.1 >= width d \/ p.2 >= height d) pts ->
  plot_all p_set d pts = Done d.
Proof.
  induction 1 as [| [px py] pts Hp _ IH]; [reflexivity |].
  cbn [plot_all]. rewrite plot_out_of_view by exact Hp. exact IH.
Qed.

(** A character cell that lies wholly off screen. *)
Lemma draw_char_off_screen (d : SSD1306) (x y c : Z) (p_set : bool) :
  printable c -> 0 <= x -> 0 <= y ->
  (width d <= x /\ x + 4 <= 255) \/ (height d <= y /\ y + 6 <= 255) ->
  draw_char d x y c p_set = Done d.
Proof.
  intros Hc Hx Hy Hclip. rewrite (draw_char_points d x y c p_set Hc).
  apply plot_all_out_of_view. apply Forall_forall. intros [px py] Hin.
  apply on_points_elem, on_glyph_points in Hin
    as (l_x & l_y & Hlx & Hly & _ & -> & ->).
  cbn [fst snd]. destruct Hclip as [[Hw Hr] | [Hh Hb]].
  - left. rewrite u8_small by (unfold is_u8; lia). lia.
  - right. rewrite u8_small by (unfold is_u8; lia). lia.
Qed.

(** Clipping.  A printable character whose cell starts at or beyond the
    right edge ([x >= width]) or the bottom edge ([y >= height]) and ends
    inside the [uint8_t] range leaves the object exactly as it was. *)
Theorem draw_char_clipped (d : SSD1306) (x y c : Z) (p_set : bool) :
  printable c -> 0 <= x -> 0 <= y ->
  (width d <= x /\ x + 4 <= 255) \/ (height d <= y /\ y + 6 <= 255) ->
  draw_char d x y c p_set = Done d.
Proof. exact (draw_char_off_screen d x y c p_set). Qed.

Lemma draw_char_clipped_witness :
  (printable 65 /\ 0 <= 130 /\ 0 <= 0
   /\ ((width demo <= 130 /\ 130 + 4 <= 255) \/ (height demo <= 0 /\ 0 + 6 <= 255)))
  /\ draw_char demo 130 0 65 true = Done demo.
Proof.
  assert (Hc : printable 65) by (unfold printable; lia).
  assert (Hx : 0 <= 130) by lia.
  assert (Hy : 0 <= 0) by lia.
  assert (Hclip : (width demo <= 130 /\ 130 + 4 <= 255)
                  \/ (height demo <= 0 /\ 0 + 6 <= 255)) by (left; simpl; lia).
  split; [exact (conj Hc (conj Hx (conj Hy Hclip))) |].
  exact (draw_char_clipped demo 130 0 65 true Hc Hx Hy Hclip).
Defined.

(** Text that starts at or beyond the right edge and whose last cell
    still ends inside the [uint8_t] range ([x + 6 * length <= 256]) is
    clipped as a whole: the object is left exactly as it was. *)
Theorem draw_text_clipped (d : SSD1306) (x y : Z) (p_text : list Z) (p_set : bool) :
  is_u8 x -> 0 <= y -> Forall printable p_text ->
  width d <= x -> x + 6 * Z.of_nat (length p_text) <= 256 ->
  draw_text d x y p_text p_set = Done d.
Proof.
  intros Hx Hy Hall. revert x Hx.
  induction Hall as [| c rest Hc _ IH]; intros x Hx Hw Hfit; [reflexivity |].
  cbn [length] in Hfit.
  rewrite (draw_text_cons d x y c rest p_set Hx (printable_not_nul c Hc)).
  rewrite draw_char_off_screen; [| exact Hc | unfold is_u8 in Hx; lia | exact Hy | left; lia].
  cbn [bind]. destruct rest as [| c' rest'].
  - reflexivity.
  - cbn [length] in Hfit, IH.
    assert (Hx6 : u8 (x + 6) = x + 6)
      by (apply u8_small; unfold is_u8 in *; lia).
    rewrite Hx6. apply IH; [unfold is_u8 in *; lia | lia | lia].
Qed.

Lemma draw_text_clipped_witness :
  (is_u8 200 /\ 0 <= 0 /\ Forall printable (c_str "clipped")
   /\ width demo <= 200 /\ 200 + 6 * Z.of_nat (length (c_str "clipped")) <= 256)
  /\ draw_text demo 200 0 (c_str "clipped") true = Done demo.
Proof.
  assert (Hx : is_u8 200) by (unfold is_u8; lia).
  assert (Hy : 0 <= 0) by lia.
  assert (Hp : Forall printable (c_str "clipped"))
    by (apply printable_check; vm_compute; reflexivity).
  assert (Hw : width demo <= 200) by (simpl; lia).
  assert (Hfit : 200 + 6 * Z.of_nat (length (c_str "clipped")) <= 256)
    by (simpl; lia).
  split; [exact (conj Hx (conj Hy (conj Hp (conj Hw Hfit)))) |].
  exact (draw_text_clipped demo 200 0 (c_str "clipped") true Hx Hy Hp Hw Hfit).
Defined.

(* ================================================================== *)
(** * Further properties: pixel writes commute *)
(* ================================================================== *)

(** An in-view plot replaces one byte; the bits of the new byte. *)
Lemma plot_poke p_set d x y :
  wf d -> in_view d x y ->
  exists v,
    plot p_set d x y = Done (poke d (pixel_index d x y) v)
    /\ is_u8 v
    /\ forall n, Z.testbit v n
                 = if n =? y mod 8 then p_set
                   else Z.testbit (byte_at d (pixel_index d x y)) n.
Proof.
  intros Hwf Hv.
  destruct (pixel_addr d x y Hwf Hv) as (_ & _ & _ & Hk).
  pose proof (byte_at_is_u8 d (pixel_index d x y) Hwf) as Hb.
  unfold plot. destruct p_set.
  - rewrite (set_pixel_in_view d x y Hwf Hv). eexists. split; [reflexivity |].
    split; [apply u8_is_u8 |]. intros n. apply set_bit_spec; assumption.
  - rewrite (clear_pixel_in_view d x y Hwf Hv). eexists. split; [reflexivity |].
    split; [apply u8_is_u8 |]. intros n. apply clear_bit_spec; assumption.
Qed.

Lemma poke_commute d i j v w :
  i <> j -> poke (poke d i v) j w = poke (poke d j w) i v.
Proof.
  intros Hne. unfold poke. cbn [screen_buffer with_screen width height pagesize
                                 address external_vcc screen_buffer_sz].
  rewrite list_insert_insert_ne by congruence. reflexivity.
Qed.

(** Pixel writes at different places commute, and so do two writes of
    the same value: the order in which [set_pixel] and [clear_pixel] are
    applied to distinct pixels does not matter for the resulting
    object. *)
Theorem plot_commute (d : SSD1306) (s1 s2 : bool) (x1 y1 x2 y2 : Z) :
  wf d -> is_u8 x1 -> is_u8 y1 -> is_u8 x2 -> is_u8 y2 ->
  (x1, y1) <> (x2, y2) \/ s1 = s2 ->
  (do d1 <- plot s1 d x1 y1 in plot s2 d1 x2 y2)
  = (do d2 <- plot s2 d x2 y2 in plot s1 d2 x1 y1).
Proof.
  intros Hwf Hx1 Hy1 Hx2 Hy2 Hdiff. unfold is_u8 in *.
  assert (Hcase : forall x y, 0 <= x -> 0 <= y ->
            in_view d x y \/ (x >= width d \/ y >= height d))
    by (intros x y Hx Hy; unfold in_view; lia).
  destruct (Hcase x1 y1) as [Hv1 | Ho1]; [lia | lia | |];
    destruct (Hcase x2 y2) as [Hv2 | Ho2]; try lia.
  - destruct (plot_poke s1 d x1 y1 Hwf Hv1) as (v1 & Hp1 & Hu1 & Hb1).
    destruct (plot_poke s2 d x2 y2 Hwf Hv2) as (v2 & Hp2 & Hu2 & Hb2).
    rewrite Hp1, Hp2. cbn [bind].
    set (i1 := pixel_index d x1 y1) in *. set (i2 := pixel_index d x2 y2) in *.
    assert (Hwf1 : wf (poke d i1 v1)) by (apply poke_wf; assumption).
    assert (Hwf2 : wf (poke d i2 v2)) by (apply poke_wf; assumption).
    destruct (plot_poke s2 (poke d i1 v1) x2 y2 Hwf1 Hv2) as (w2 & Hq2 & _ & Hc2).
    destruct (plot_poke s1 (poke d i2 v2) x1 y1 Hwf2 Hv1) as (w1 & Hq1 & _ & Hc1).
    change (pixel_index (poke d i1 v1) x2 y2) with i2 in *.
    change (pixel_index (poke d i2 v2) x1 y1) with i1 in *.
    rewrite Hq1, Hq2. f_equal.
    destruct (pixel_addr d x1 y1 Hwf Hv1) as (_ & Hlt1 & _ & _).
    destruct (pixel_addr d x2 y2 Hwf Hv2) as (_ & Hlt2 & _ & _).
    fold i1 in Hlt1. fold i2 in Hlt2.
    rewrite (poke_byte_at d i1 v1 i2 Hlt1) in Hc2.
    rewrite (poke_byte_at d i2 v2 i1 Hlt2) in Hc1.
    destruct (decide (i1 = i2)) as [Heq | Hne].
    + rewrite Heq in *.
      destruct (decide (i2 = i2)) as [_ | Hbad]; [| congruence].
      rewrite !poke_poke. f_equal. apply byte_eq_bits. intros n.
      rewrite Hc1, Hc2, Hb1, Hb2.
      destruct (Z.eqb_spec n (y1 mod 8)) as [Hn1 | Hn1];
        destruct (Z.eqb_spec n (y2 mod 8)) as [Hn2 | Hn2]; try reflexivity.
      destruct Hdiff as [Hd | Hs]; [| congruence].
      exfalso. apply Hd.
      destruct (pixel_index_inj d x1 y1 x2 y2 Hwf Hv1 Hv2 Heq) as [-> ->];
        [congruence | reflexivity].
    + destruct (decide (i2 = i1)) as [Hbad | _]; [congruence |].
      destruct (decide (i1 = i2)) as [Hbad | _]; [congruence |].
      assert (w2 = v2) as ->
        by (apply byte_eq_bits; intros n; rewrite Hc2, Hb2; reflexivity).
      assert (w1 = v1) as ->
        by (apply byte_eq_bits; intros n; rewrite Hc1, Hb1; reflexivity).
      apply poke_commute. exact Hne.
  - rewrite (plot_out_of_view s2 d x2 y2 Ho2). cbn [bind].
    destruct (plot_poke s1 d x1 y1 Hwf Hv1) as (v1 & -> & _). cbn [bind].
    apply plot_out_of_view. exact Ho2.
  - rewrite (plot_out_of_view s1 d x1 y1 Ho1). cbn [bind].
    destruct (plot_poke s2 d x2 y2 Hwf Hv2) as (v2 & -> & _). cbn [bind].
    symmetry. apply plot_out_of_view. exact Ho1.
  - rewrite (plot_out_of_view s1 d x1 y1 Ho1), (plot_out_of_view s2 d x2 y2 Ho2).
    cbn [bind].
    rewrite (plot_out_of_view s1 d x1 y1 Ho1), (plot_out_of_view s2 d x2 y2 Ho2).
    reflexivity.
Qed.

Lemma plot_commute_witness :
  (wf demo /\ is_u8 1 /\ is_u8 2 /\ is_u8 9 /\ ((1, 2) <> (1, 9) \/ true = false))
  /\ (do d1 <- set_pixel demo 1 2 in clear_pixel d1 1 9)
     = (do d2 <- clear_pixel demo 1 9 in set_pixel d2 1 2).
Proof.
  assert (H1 : is_u8 1) by (unfold is_u8; lia).
  assert (H2 : is_u8 2) by (unfold is_u8; lia).
  assert (H9 : is_u8 9) by (unfold is_u8; lia).
  assert (Hd : (1, 2) <> (1, 9) \/ true = false) by (left; congruence).
  split; [exact (conj demo_wf (conj H1 (conj H2 (conj H9 Hd)))) |].
  exact (plot_commute demo true false 1 2 1 9 demo_wf H1 H2 H1 H9 Hd).
Defined.
